(** * Ducobox connectivity board: the sensor platform

    A shallow embedding of
    [custom_components/ducobox-connectivity-board/sensor.py]:
    the nested-dict accessor [safe_get], the unit-conversion functions
    [_process_*], the two description tables [SENSORS] and [NODE_SENSORS],
    the polling coordinator and the two entity classes.

    Python objects are the JSON-shaped values the device API delivers
    ([pyobj]); Python floats are IEEE 754 binary64 numbers with
    round-to-nearest-even ([Float64]); exceptions are an explicit [result];
    the Home Assistant runtime (coordinator cache, HTTP call counters and the
    logger) is an explicit state threaded through the [Hass] monad. *)

From Stdlib Require Import ZArith Lia Bool Ascii String List Floats Uint63.
From stdpp Require Import gmap strings list fin_maps.

#[local] Open Scope Z_scope.
#[local] Set Warnings "-register-all".

(** ** Binary64 floating point *)

Module Float64.

(** A finite binary64 number is a sign and a magnitude counted in units of
    the smallest subnormal, [2^-1074]: [FFin neg m] is
    [(-1)^neg * m * 2^-1074].  Every finite double is such a multiple, with
    [m < 2^2098]. *)
Inductive float64 : Type :=
| FNan
| FInf (neg : bool)
| FFin (neg : bool) (m : N).

(** One, in units of [2^-1074]. *)
Definition scale : Z := 2 ^ 1074.

(** The first magnitude past the largest finite double, [2^1024]. *)
Definition overflow_bound : Z := 2 ^ 2098.

(** Nearest integer to [n / d], ties to even ([0 <= n], [0 < d]). *)
Definition rne_div (n d : Z) : Z :=
  let q := n / d in
  match 2 * (n mod d) ?= d with
  | Lt => q
  | Gt => q + 1
  | Eq => if Z.even q then q else q + 1
  end.

(** Number of low bits a 53-bit significand cannot hold for the magnitude
    [n / d]: zero in the subnormal range and in the first normal binade. *)
Definition shift_of (n d : Z) : Z := Z.max 0 (Z.log2 (n / d) - 52).

(** The representable magnitude nearest to the rational [n / d], ties to
    even, before the overflow test. *)
Definition round_q (n d : Z) : Z :=
  let s := shift_of n d in rne_div n (d * 2 ^ s) * 2 ^ s.

(** IEEE 754 rounding of [(-1)^neg * n / d] (in units of [2^-1074]). *)
Definition round_fin (neg : bool) (n d : Z) : float64 :=
  let m := round_q n d in
  if m <? overflow_bound then FFin neg (Z.to_N m) else FInf neg.

(** Conversion of an integer: correctly rounded, infinite when too large. *)
Definition of_int (z : Z) : float64 :=
  round_fin (z <? 0) (Z.abs z * scale) 1.

(** A decimal literal [n / d], such as [.1]. *)
Definition literal (n d : Z) : float64 := round_fin false (n * scale) d.

Definition is_zero (x : float64) : bool :=
  match x with
  | FFin _ 0%N => true
  | _ => false
  end.

Definition fdiv (x y : float64) : float64 :=
  match x, y with
  | FNan, _ | _, FNan => FNan
  | FInf _, FInf _ => FNan
  | FInf sx, FFin sy _ => FInf (xorb sx sy)
  | FFin sx _, FInf sy => FFin (xorb sx sy) 0%N
  | FFin sx mx, FFin sy my =>
      if (my =? 0)%N then (if (mx =? 0)%N then FNan else FInf (xorb sx sy))
      else round_fin (xorb sx sy) (Z.of_N mx * scale) (Z.of_N my)
  end.

Definition fmul (x y : float64) : float64 :=
  match x, y with
  | FNan, _ | _, FNan => FNan
  | FInf sx, FInf sy => FInf (xorb sx sy)
  | FInf sx, FFin sy my => if (my =? 0)%N then FNan else FInf (xorb sx sy)
  | FFin sx mx, FInf sy => if (mx =? 0)%N then FNan else FInf (xorb sx sy)
  | FFin sx mx, FFin sy my =>
      round_fin (xorb sx sy) (Z.of_N mx * Z.of_N my) scale
  end.

(** The value of a finite float, in units of [2^-1074]. *)
Definition signed (neg : bool) (m : N) : Z :=
  if neg then - Z.of_N m else Z.of_N m.

(** [x == y] on floats: NaN equals nothing, the two zeros are equal. *)
Definition feq (x y : float64) : bool :=
  match x, y with
  | FInf sx, FInf sy => eqb sx sy
  | FFin sx mx, FFin sy my => signed sx mx =? signed sy my
  | _, _ => false
  end.

(** [x == z] for a float and an integer: compared exactly. *)
Definition feq_int (x : float64) (z : Z) : bool :=
  match x with
  | FFin s m => signed s m =? z * scale
  | _ => false
  end.

(** Nearest integer to a finite float, ties to even. *)
Definition to_int_rne (neg : bool) (m : N) : Z :=
  let r := rne_div (Z.of_N m) scale in if neg then - r else r.

#[global] Instance float64_eq_dec : EqDecision float64.
Proof. solve_decision. Defined.

(** The binary64 value the hardware computes, read into the model. *)
Definition of_prim (f : PrimFloat.float) : float64 :=
  match Prim2SF f with
  | S754_zero s => FFin s 0%N
  | S754_infinity s => FInf s
  | S754_nan => FNan
  | S754_finite s m e => FFin s (Z.to_N (Z.pos m * 2 ^ (e + 1074)))
  end.

End Float64.

Export Float64.

(** ** Python values, exceptions *)

Inductive exn_class : Type :=
| TypeError
| ValueError
| OverflowError
| ZeroDivisionError
| AttributeError
| Exception
| UpdateFailed
| OtherException (name : string).

(** An exception instance: class, message ([str(e)]) and [__cause__].
    Every class here derives from [Exception], so [except Exception]
    catches every [exn]. *)
Inductive exn : Type :=
| Exn (cls : exn_class) (msg : string) (cause : option exn).

Definition exn_str (e : exn) : string := let 'Exn _ msg _ := e in msg.
Definition exn_cause (e : exn) : option exn := let 'Exn _ _ c := e in c.
Definition exn_cls (e : exn) : exn_class := let 'Exn c _ _ := e in c.

Inductive result (A : Type) : Type :=
| Ok (a : A)
| Raise (e : exn).
Arguments Ok {A} a.
Arguments Raise {A} e.

#[global] Instance result_ret : MRet result := fun A a => Ok a.
#[global] Instance result_bind : MBind result := fun A B f m =>
  match m with Ok a => f a | Raise e => Raise e end.
#[global] Instance result_fmap : FMap result := fun A B f m =>
  match m with Ok a => Ok (f a) | Raise e => Raise e end.

Definition is_ok {A} (r : result A) : bool :=
  match r with Ok _ => true | Raise _ => false end.

(** The objects of the program: what [json] decoding and pydantic's
    [.dict()] produce.  Dictionaries have string keys. *)
Inductive pyobj : Type :=
| PyNone
| PyBool (b : bool)
| PyInt (z : Z)
| PyFloat (f : float64)
| PyStr (s : string)
| PyList (l : list pyobj)
| PyDict (d : gmap string pyobj).

Definition isinstance_dict (o : pyobj) : bool :=
  match o with PyDict _ => true | _ => false end.

(** [hash(o)] succeeds: lists and dicts are unhashable. *)
Definition hashable (o : pyobj) : bool :=
  match o with PyList _ | PyDict _ => false | _ => true end.

(** [d.get(key, dflt)] on a string-keyed dict.  The key is hashed first,
    so an unhashable key raises [TypeError]; a hashable key that is not a
    string equals no key of [d]. *)
Definition dict_get {A} (d : gmap string A) (key : pyobj) (dflt : A) : result A :=
  match key with
  | PyStr s => Ok (default dflt (d !! s))
  | PyList _ => Raise (Exn TypeError "unhashable type: 'list'" None)
  | PyDict _ => Raise (Exn TypeError "unhashable type: 'dict'" None)
  | _ => Ok dflt
  end.

(** [o.get(key, dflt)]: only dicts have the method. *)
Definition py_get (o : pyobj) (key : pyobj) (dflt : pyobj) : result pyobj :=
  match o with
  | PyDict d => dict_get d key dflt
  | _ => Raise (Exn AttributeError "object has no attribute 'get'" None)
  end.

(** [o[key] = v] with a string key: only dicts accept it. *)
Definition py_setitem (o : pyobj) (key : string) (v : pyobj) : result pyobj :=
  match o with
  | PyDict d => Ok (PyDict (<[key := v]> d))
  | _ => Raise (Exn TypeError "object does not support item assignment" None)
  end.

(** The elements a [for] loop visits.  Iterating a dict yields its keys;
    their order is the order of insertion, which the map does not record and
    which no caller here can observe (the loop body raises on the first
    string it meets).  Iterating a string yields its characters. *)
Definition py_iter (o : pyobj) : result (list pyobj) :=
  match o with
  | PyList l => Ok l
  | PyDict d => Ok (PyStr <$> (map_to_list d).*1)
  | PyStr s => Ok ((fun c => PyStr (String c EmptyString)) <$> list_ascii_of_string s)
  | _ => Raise (Exn TypeError "object is not iterable" None)
  end.

(** Truth value, as [or] and [if] test it. *)
Definition py_truthy (o : pyobj) : bool :=
  match o with
  | PyNone => false
  | PyBool b => b
  | PyInt z => negb (z =? 0)
  | PyFloat f => negb (is_zero f)
  | PyStr s => negb (bool_decide (s = ""%string))
  | PyList l => negb (bool_decide (l = []))
  | PyDict d => negb (bool_decide (d = ∅))
  end.

(** [a or b]. *)
Definition py_or (a b : pyobj) : pyobj := if py_truthy a then a else b.

(** Numbers: bool is a subclass of int. *)
Inductive number : Type :=
| NInt (z : Z)
| NFloat (f : float64).

Definition as_number (o : pyobj) : option number :=
  match o with
  | PyBool b => Some (NInt (Z.b2z b))
  | PyInt z => Some (NInt z)
  | PyFloat f => Some (NFloat f)
  | _ => None
  end.

Definition is_numeric (o : pyobj) : bool :=
  match as_number o with Some _ => true | None => false end.

Definition number_eq (x y : number) : bool :=
  match x, y with
  | NInt a, NInt b => a =? b
  | NFloat f, NFloat g => feq f g
  | NInt a, NFloat f | NFloat f, NInt a => feq_int f a
  end.

(** [a == b].  Numbers compare by value across int, bool and float; lists
    and dicts compare element by element.  (The interpreter's shortcut for
    comparing an object with itself inside a container is not modelled:
    objects are values here.) *)
Fixpoint py_eq (a b : pyobj) {struct a} : bool :=
  match a, b with
  | PyNone, PyNone => true
  | PyStr x, PyStr y => bool_decide (x = y)
  | PyList l1, PyList l2 =>
      (fix go (l1 l2 : list pyobj) {struct l1} : bool :=
         match l1, l2 with
         | [], [] => true
         | x :: l1', y :: l2' => py_eq x y && go l1' l2'
         | _, _ => false
         end) l1 l2
  | PyDict d1, PyDict d2 =>
      bool_decide (dom d1 = dom d2) &&
      map_fold (fun k v acc =>
                  match d2 !! k with
                  | Some w => py_eq v w && acc
                  | None => false
                  end) true d1
  | (PyBool _ | PyInt _ | PyFloat _), (PyBool _ | PyInt _ | PyFloat _) =>
      match as_number a, as_number b with
      | Some x, Some y => number_eq x y
      | _, _ => false
      end
  | _, _ => false
  end.

(** ** Arithmetic of the conversions *)

(** int -> float, as every mixed operation does it. *)
Definition int_to_float (z : Z) : result float64 :=
  match of_int z with
  | FInf _ => Raise (Exn OverflowError "int too large to convert to float" None)
  | f => Ok f
  end.

Definition number_to_float (x : number) : result float64 :=
  match x with
  | NInt z => int_to_float z
  | NFloat f => Ok f
  end.

(** [x / y] on two ints: the quotient rounded once. *)
Definition int_truediv (x y : Z) : result float64 :=
  if y =? 0 then Raise (Exn ZeroDivisionError "division by zero" None)
  else match round_fin (xorb (x <? 0) (y <? 0)) (Z.abs x * scale) (Z.abs y) with
       | FInf _ => Raise (Exn OverflowError "integer division result too large for a float" None)
       | f => Ok f
       end.

(** [x / y] on two floats. *)
Definition float_truediv (x y : float64) : result float64 :=
  if is_zero y then Raise (Exn ZeroDivisionError "float division by zero" None)
  else Ok (fdiv x y).

(** [a / b]. *)
Definition py_truediv (a b : pyobj) : result float64 :=
  match as_number a, as_number b with
  | Some (NInt x), Some (NInt y) => int_truediv x y
  | Some x, Some y =>
      fx ← number_to_float x; fy ← number_to_float y; float_truediv fx fy
  | _, _ => Raise (Exn TypeError "unsupported operand type(s) for /" None)
  end.

(** [x * b] with [x] a float. *)
Definition float_mul (x : float64) (b : pyobj) : result float64 :=
  match as_number b with
  | Some y => fy ← number_to_float y; Ok (fmul x fy)
  | None => Raise (Exn TypeError "unsupported operand type(s) for *" None)
  end.

(** [a * y] with [y] a float. *)
Definition mul_float (a : pyobj) (y : float64) : result float64 :=
  match as_number a with
  | Some x => fx ← number_to_float x; Ok (fmul fx y)
  | None => Raise (Exn TypeError "unsupported operand type(s) for *" None)
  end.

(** [round(x)] with [x] a float and no digits: an int, ties to even. *)
Definition py_round (x : float64) : result Z :=
  match x with
  | FNan => Raise (Exn ValueError "cannot convert float NaN to integer" None)
  | FInf _ => Raise (Exn OverflowError "cannot convert float infinity to integer" None)
  | FFin s m => Ok (to_int_rne s m)
  end.

(** The exact value of a finite number, in units of [2^-1074]. *)
Definition exact_value (o : pyobj) : option Z :=
  match o with
  | PyBool b => Some (Z.b2z b * scale)
  | PyInt z => Some (z * scale)
  | PyFloat (FFin s m) => Some (signed s m)
  | _ => None
  end.

(** The literals of the source. *)
Definition lit_10_0 : float64 := literal 10 1.
Definition lit_0_1 : float64 := literal 1 10.

(** ** [safe_get] *)

(** [for key in keys: if isinstance(data, dict): data = data.get(key)
    else: return None] and finally [return data]. *)
Fixpoint safe_get (data : pyobj) (keys : list pyobj) : result pyobj :=
  match keys with
  | [] => Ok data
  | key :: keys =>
      match data with
      | PyDict d => data ← dict_get d key PyNone; safe_get data keys
      | _ => Ok PyNone
      end
  end.

(** The entry of [d] under a hashable [key]: a key that is no string equals
    none of the keys of [d]. *)
Definition dict_lookup (d : gmap string pyobj) (key : pyobj) : option pyobj :=
  match key with
  | PyStr s => d !! s
  | _ => None
  end.

(** The accessor as the specification words it: look each key up in turn
    while the value at hand is a dict (a missing key gives [None]); the
    first value that is not a dict ends the walk with [None]. *)
Definition lookup_step (acc : option pyobj) (key : pyobj) : option pyobj :=
  match acc with
  | Some (PyDict d) => Some (default PyNone (dict_lookup d key))
  | _ => None
  end.

Definition safe_get_spec (data : pyobj) (keys : list pyobj) : pyobj :=
  default PyNone (foldl lookup_step (Some data) keys).

(** ** Description records *)

(** The unit constants of [homeassistant.const] that the tables use. *)
Inductive unit_of_measurement : Type :=
| CELSIUS
| PA
| SECONDS
| DAYS
| PERCENTAGE
| CONCENTRATION_PARTS_PER_MILLION
| UnitLiteral (s : string).

Inductive SensorStateClass : Type :=
| MEASUREMENT
| TOTAL_INCREASING.

Inductive SensorDeviceClass : Type :=
| TEMPERATURE
| SPEED
| PRESSURE
| SIGNAL_STRENGTH
| DURATION
| HUMIDITY
| CO2.

(** [DucoboxSensorEntityDescription]: the fields of
    [SensorEntityDescription] the tables set, and the accessor. *)
Record DucoboxSensorEntityDescription : Type := {
  s_key : string;
  s_name : string;
  s_native_unit_of_measurement : option unit_of_measurement;
  s_state_class : option SensorStateClass;
  s_device_class : option SensorDeviceClass;
  s_value_fn : pyobj -> result pyobj;
}.

(** [DucoboxNodeSensorEntityDescription]. *)
Record DucoboxNodeSensorEntityDescription : Type := {
  n_key : string;
  n_name : string;
  n_native_unit_of_measurement : option unit_of_measurement;
  n_state_class : option SensorStateClass;
  n_device_class : option SensorDeviceClass;
  n_value_fn : pyobj -> result pyobj;
  n_sensor_key : string;
  n_node_type : string;
}.

(** ** Node-specific processing functions *)

Definition _process_node_temperature (value : pyobj) : pyobj :=
  match value with
  | PyNone => PyNone
  | _ => value
  end.

Definition _process_node_humidity (value : pyobj) : pyobj :=
  match value with
  | PyNone => PyNone
  | _ => value
  end.

Definition _process_node_co2 (value : pyobj) : pyobj :=
  match value with
  | PyNone => PyNone
  | _ => value
  end.

Definition _process_node_iaq (value : pyobj) : pyobj :=
  match value with
  | PyNone => PyNone
  | _ => value
  end.

(** ** Main sensor processing functions *)

(** [value / 10.0]. *)
Definition _process_temperature (value : pyobj) : result pyobj :=
  match value with
  | PyNone => Ok PyNone
  | _ => PyFloat <$> py_truediv value (PyFloat lit_10_0)
  end.

Definition _process_speed (value : pyobj) : pyobj :=
  match value with
  | PyNone => PyNone
  | _ => value
  end.

Definition _process_rssi (value : pyobj) : pyobj :=
  match value with
  | PyNone => PyNone
  | _ => value
  end.

Definition _process_uptime (value : pyobj) : pyobj :=
  match value with
  | PyNone => PyNone
  | _ => value
  end.

Definition _process_timefilterremain (value : pyobj) : pyobj :=
  match value with
  | PyNone => PyNone
  | _ => value
  end.

(** [round((value / 255) * 100)]. *)
Definition _process_bypass_position (value : pyobj) : result pyobj :=
  match value with
  | PyNone => Ok PyNone
  | _ =>
      q ← py_truediv value (PyInt 255);
      p ← float_mul q (PyInt 100);
      PyInt <$> py_round p
  end.

(** What [_process_bypass_position] computes on a number inside [0, 255]
    whose exact value is [k * 2^-1074]: the three roundings of
    [round((value / 255) * 100)] one after the other. *)
Definition bypass_roundings (k : Z) : Z :=
  rne_div (round_q (round_q k 255 * (100 * scale)) scale) scale.

Section WithFloatParser.

(** [float(s)] for a string [s] is the interpreter's decimal parser, which
    is no part of this program: it is a parameter of what follows. *)
Variable float_of_str : string -> result float64.

(** [float(value)]. *)
Definition py_float (value : pyobj) : result float64 :=
  match value with
  | PyStr s => float_of_str s
  | PyNone | PyList _ | PyDict _ =>
      Raise (Exn TypeError "float() argument must be a string or a real number" None)
  | PyBool b => int_to_float (Z.b2z b)
  | PyInt z => int_to_float z
  | PyFloat f => Ok f
  end.

(** [float(value) * .1]. *)
Definition _process_pressure (value : pyobj) : result pyobj :=
  match value with
  | PyNone => Ok PyNone
  | _ => f ← py_float value; Ok (PyFloat (fmul f lit_0_1))
  end.

(** *** The box-level table *)

Definition SENSORS : list DucoboxSensorEntityDescription :=
  [ {| s_key := "TempOda";
       s_name := "Outdoor Temperature";
       s_native_unit_of_measurement := Some CELSIUS;
       s_state_class := Some MEASUREMENT;
       s_device_class := Some TEMPERATURE;
       s_value_fn := (fun data => safe_get data [PyStr "Ventilation"; PyStr "Sensor"; PyStr "TempOda"; PyStr "Val"] ≫= _process_temperature) |};
    {| s_key := "TempSup";
       s_name := "Supply Temperature";
       s_native_unit_of_measurement := Some CELSIUS;
       s_state_class := Some MEASUREMENT;
       s_device_class := Some TEMPERATURE;
       s_value_fn := (fun data => safe_get data [PyStr "Ventilation"; PyStr "Sensor"; PyStr "TempSup"; PyStr "Val"] ≫= _process_temperature) |};
    {| s_key := "TempEta";
       s_name := "Extract Temperature";
       s_native_unit_of_measurement := Some CELSIUS;
       s_state_class := Some MEASUREMENT;
       s_device_class := Some TEMPERATURE;
       s_value_fn := (fun data => safe_get data [PyStr "Ventilation"; PyStr "Sensor"; PyStr "TempEta"; PyStr "Val"] ≫= _process_temperature) |};
    {| s_key := "TempEha";
       s_name := "Exhaust Temperature";
       s_native_unit_of_measurement := Some CELSIUS;
       s_state_class := Some MEASUREMENT;
       s_device_class := Some TEMPERATURE;
       s_value_fn := (fun data => safe_get data [PyStr "Ventilation"; PyStr "Sensor"; PyStr "TempEha"; PyStr "Val"] ≫= _process_temperature) |};
    {| s_key := "SpeedSup";
       s_name := "Supply Fan Speed";
       s_native_unit_of_measurement := Some (UnitLiteral "RPM");
       s_state_class := Some MEASUREMENT;
       s_device_class := Some SPEED;
       s_value_fn := (fun data => _process_speed <$> safe_get data [PyStr "Ventilation"; PyStr "Fan"; PyStr "SpeedSup"; PyStr "Val"]) |};
    {| s_key := "SpeedEha";
       s_name := "Exhaust Fan Speed";
       s_native_unit_of_measurement := Some (UnitLiteral "RPM");
       s_state_class := Some MEASUREMENT;
       s_device_class := Some SPEED;
       s_value_fn := (fun data => _process_speed <$> safe_get data [PyStr "Ventilation"; PyStr "Fan"; PyStr "SpeedEha"; PyStr "Val"]) |};
    {| s_key := "PressSup";
       s_name := "Supply Pressure";
       s_native_unit_of_measurement := Some PA;
       s_state_class := Some MEASUREMENT;
       s_device_class := Some PRESSURE;
       s_value_fn := (fun data => safe_get data [PyStr "Ventilation"; PyStr "Fan"; PyStr "PressSup"; PyStr "Val"] ≫= _process_pressure) |};
    {| s_key := "PressEha";
       s_name := "Exhaust Pressure";
       s_native_unit_of_measurement := Some PA;
       s_state_class := Some MEASUREMENT;
       s_device_class := Some PRESSURE;
       s_value_fn := (fun data => safe_get data [PyStr "Ventilation"; PyStr "Fan"; PyStr "PressEha"; PyStr "Val"] ≫= _process_pressure) |};
    {| s_key := "RssiWifi";
       s_name := "Wi-Fi Signal Strength";
       s_native_unit_of_measurement := Some (UnitLiteral "dBm");
       s_state_class := Some MEASUREMENT;
       s_device_class := Some SIGNAL_STRENGTH;
       s_value_fn := (fun data => _process_rssi <$> safe_get data [PyStr "General"; PyStr "Lan"; PyStr "RssiWifi"; PyStr "Val"]) |};
    {| s_key := "UpTime";
       s_name := "Device Uptime";
       s_native_unit_of_measurement := Some SECONDS;
       s_state_class := Some TOTAL_INCREASING;
       s_device_class := Some DURATION;
       s_value_fn := (fun data => _process_uptime <$> safe_get data [PyStr "General"; PyStr "Board"; PyStr "UpTime"; PyStr "Val"]) |};
    {| s_key := "TimeFilterRemain";
       s_name := "Filter Time Remaining";
       s_native_unit_of_measurement := Some DAYS;
       s_state_class := Some MEASUREMENT;
       s_device_class := Some DURATION;
       s_value_fn := (fun data => _process_timefilterremain <$> safe_get data [PyStr "HeatRecovery"; PyStr "General"; PyStr "TimeFilterRemain"; PyStr "Val"]) |};
    {| s_key := "BypassPos";
       s_name := "Bypass Position";
       s_native_unit_of_measurement := Some PERCENTAGE;
       s_state_class := Some MEASUREMENT;
       s_device_class := None;
       s_value_fn := (fun data => safe_get data [PyStr "HeatRecovery"; PyStr "Bypass"; PyStr "Pos"; PyStr "Val"] ≫= _process_bypass_position) |} ].

End WithFloatParser.

(** ** The per-node-type table *)

Definition NODE_SENSORS_BOX : list DucoboxNodeSensorEntityDescription :=
  [ {| n_key := "Mode";
       n_name := "Ventilation Mode";
       n_native_unit_of_measurement := None;
       n_state_class := None;
       n_device_class := None;
       n_value_fn := (fun node => safe_get node [PyStr "Ventilation"; PyStr "Mode"]);
       n_sensor_key := "Mode";
       n_node_type := "BOX" |};
    {| n_key := "State";
       n_name := "Ventilation State";
       n_native_unit_of_measurement := None;
       n_state_class := None;
       n_device_class := None;
       n_value_fn := (fun node => safe_get node [PyStr "Ventilation"; PyStr "State"]);
       n_sensor_key := "State";
       n_node_type := "BOX" |};
    {| n_key := "FlowLvlTgt";
       n_name := "Flow Level Target";
       n_native_unit_of_measurement := Some PERCENTAGE;
       n_state_class := None;
       n_device_class := None;
       n_value_fn := (fun node => safe_get node [PyStr "Ventilation"; PyStr "FlowLvlTgt"]);
       n_sensor_key := "FlowLvlTgt";
       n_node_type := "BOX" |};
    {| n_key := "TimeStateRemain";
       n_name := "Time State Remaining";
       n_native_unit_of_measurement := Some SECONDS;
       n_state_class := None;
       n_device_class := None;
       n_value_fn := (fun node => safe_get node [PyStr "Ventilation"; PyStr "TimeStateRemain"]);
       n_sensor_key := "TimeStateRemain";
       n_node_type := "BOX" |};
    {| n_key := "TimeStateEnd";
       n_name := "Time State End";
       n_native_unit_of_measurement := Some SECONDS;
       n_state_class := None;
       n_device_class := None;
       n_value_fn := (fun node => safe_get node [PyStr "Ventilation"; PyStr "TimeStateEnd"]);
       n_sensor_key := "TimeStateEnd";
       n_node_type := "BOX" |};
    {| n_key := "Temp";
       n_name := "Temperature";
       n_native_unit_of_measurement := Some CELSIUS;
       n_state_class := None;
       n_device_class := Some TEMPERATURE;
       n_value_fn := (fun node => _process_node_temperature <$> safe_get node [PyStr "Sensor"; PyStr "data"; PyStr "Temp"]);
       n_sensor_key := "Temp";
       n_node_type := "BOX" |};
    {| n_key := "Rh";
       n_name := "Relative Humidity";
       n_native_unit_of_measurement := Some PERCENTAGE;
       n_state_class := None;
       n_device_class := Some HUMIDITY;
       n_value_fn := (fun node => _process_node_humidity <$> safe_get node [PyStr "Sensor"; PyStr "data"; PyStr "Rh"]);
       n_sensor_key := "Rh";
       n_node_type := "BOX" |};
    {| n_key := "IaqRh";
       n_name := "Humidity Air Quality";
       n_native_unit_of_measurement := Some PERCENTAGE;
       n_state_class := None;
       n_device_class := None;
       n_value_fn := (fun node => _process_node_iaq <$> safe_get node [PyStr "Sensor"; PyStr "data"; PyStr "IaqRh"]);
       n_sensor_key := "IaqRh";
       n_node_type := "BOX" |} ].

Definition NODE_SENSORS_UCCO2 : list DucoboxNodeSensorEntityDescription :=
  [ {| n_key := "Temp";
       n_name := "Temperature";
       n_native_unit_of_measurement := Some CELSIUS;
       n_state_class := None;
       n_device_class := Some TEMPERATURE;
       n_value_fn := (fun node => _process_node_temperature <$> safe_get node [PyStr "Sensor"; PyStr "data"; PyStr "Temp"]);
       n_sensor_key := "Temp";
       n_node_type := "UCCO2" |};
    {| n_key := "Co2";
       n_name := "CO₂";
       n_native_unit_of_measurement := Some CONCENTRATION_PARTS_PER_MILLION;
       n_state_class := None;
       n_device_class := Some CO2;
       n_value_fn := (fun node => _process_node_co2 <$> safe_get node [PyStr "Sensor"; PyStr "data"; PyStr "Co2"]);
       n_sensor_key := "Co2";
       n_node_type := "UCCO2" |};
    {| n_key := "IaqCo2";
       n_name := "CO₂ Air Quality";
       n_native_unit_of_measurement := Some PERCENTAGE;
       n_state_class := None;
       n_device_class := None;
       n_value_fn := (fun node => _process_node_iaq <$> safe_get node [PyStr "Sensor"; PyStr "data"; PyStr "IaqCo2"]);
       n_sensor_key := "IaqCo2";
       n_node_type := "UCCO2" |} ].

Definition NODE_SENSORS_BSRH : list DucoboxNodeSensorEntityDescription :=
  [ {| n_key := "Temp";
       n_name := "Temperature";
       n_native_unit_of_measurement := Some CELSIUS;
       n_state_class := None;
       n_device_class := Some TEMPERATURE;
       n_value_fn := (fun node => _process_node_temperature <$> safe_get node [PyStr "Sensor"; PyStr "data"; PyStr "Temp"]);
       n_sensor_key := "Temp";
       n_node_type := "BSRH" |};
    {| n_key := "Rh";
       n_name := "Relative Humidity";
       n_native_unit_of_measurement := Some PERCENTAGE;
       n_state_class := None;
       n_device_class := Some HUMIDITY;
       n_value_fn := (fun node => _process_node_humidity <$> safe_get node [PyStr "Sensor"; PyStr "data"; PyStr "Rh"]);
       n_sensor_key := "Rh";
       n_node_type := "BSRH" |};
    {| n_key := "IaqRh";
       n_name := "Humidity Air Quality";
       n_native_unit_of_measurement := Some PERCENTAGE;
       n_state_class := None;
       n_device_class := None;
       n_value_fn := (fun node => _process_node_iaq <$> safe_get node [PyStr "Sensor"; PyStr "data"; PyStr "IaqRh"]);
       n_sensor_key := "IaqRh";
       n_node_type := "BSRH" |} ].

Definition NODE_SENSORS_VLVRH : list DucoboxNodeSensorEntityDescription :=
  [ {| n_key := "State";
       n_name := "Ventilation State";
       n_native_unit_of_measurement := None;
       n_state_class := None;
       n_device_class := None;
       n_value_fn := (fun node => safe_get node [PyStr "Ventilation"; PyStr "State"]);
       n_sensor_key := "State";
       n_node_type := "VLVRH" |};
    {| n_key := "TimeStateRemain";
       n_name := "Time State Remaining";
       n_native_unit_of_measurement := Some SECONDS;
       n_state_class := None;
       n_device_class := None;
       n_value_fn := (fun node => safe_get node [PyStr "Ventilation"; PyStr "TimeStateRemain"]);
       n_sensor_key := "TimeStateRemain";
       n_node_type := "VLVRH" |};
    {| n_key := "TimeStateEnd";
       n_name := "Time State End";
       n_native_unit_of_measurement := Some SECONDS;
       n_state_class := None;
       n_device_class := None;
       n_value_fn := (fun node => safe_get node [PyStr "Ventilation"; PyStr "TimeStateEnd"]);
       n_sensor_key := "TimeStateEnd";
       n_node_type := "VLVRH" |};
    {| n_key := "Mode";
       n_name := "Ventilation Mode";
       n_native_unit_of_measurement := None;
       n_state_class := None;
       n_device_class := None;
       n_value_fn := (fun node => safe_get node [PyStr "Ventilation"; PyStr "Mode"]);
       n_sensor_key := "Mode";
       n_node_type := "VLVRH" |};
    {| n_key := "FlowLvlTgt";
       n_name := "Flow Level Target";
       n_native_unit_of_measurement := Some PERCENTAGE;
       n_state_class := None;
       n_device_class := None;
       n_value_fn := (fun node => safe_get node [PyStr "Ventilation"; PyStr "FlowLvlTgt"]);
       n_sensor_key := "FlowLvlTgt";
       n_node_type := "VLVRH" |};
    {| n_key := "IaqRh";
       n_name := "Humidity Air Quality";
       n_native_unit_of_measurement := Some PERCENTAGE;
       n_state_class := None;
       n_device_class := None;
       n_value_fn := (fun node => _process_node_iaq <$> safe_get node [PyStr "Sensor"; PyStr "data"; PyStr "IaqRh"]);
       n_sensor_key := "IaqRh";
       n_node_type := "VLVRH" |};
    {| n_key := "Rh";
       n_name := "Relative Humidity";
       n_native_unit_of_measurement := Some PERCENTAGE;
       n_state_class := None;
       n_device_class := Some HUMIDITY;
       n_value_fn := (fun node => _process_node_iaq <$> safe_get node [PyStr "Sensor"; PyStr "data"; PyStr "Rh"]);
       n_sensor_key := "Rh";
       n_node_type := "VLVRH" |};
    {| n_key := "Temp";
       n_name := "Temperature";
       n_native_unit_of_measurement := Some CELSIUS;
       n_state_class := None;
       n_device_class := Some TEMPERATURE;
       n_value_fn := (fun node => _process_node_temperature <$> safe_get node [PyStr "Sensor"; PyStr "data"; PyStr "Temp"]);
       n_sensor_key := "Temp";
       n_node_type := "VLVRH" |} ].

Definition NODE_SENSORS_VLVCO2 : list DucoboxNodeSensorEntityDescription :=
  [ {| n_key := "State";
       n_name := "Ventilation State";
       n_native_unit_of_measurement := None;
       n_state_class := None;
       n_device_class := None;
       n_value_fn := (fun node => safe_get node [PyStr "Ventilation"; PyStr "State"]);
       n_sensor_key := "State";
       n_node_type := "VLVCO2" |};
    {| n_key := "TimeStateRemain";
       n_name := "Time State Remaining";
       n_native_unit_of_measurement := Some SECONDS;
       n_state_class := None;
       n_device_class := None;
       n_value_fn := (fun node => safe_get node [PyStr "Ventilation"; PyStr "TimeStateRemain"]);
       n_sensor_key := "TimeStateRemain";
       n_node_type := "VLVCO2" |};
    {| n_key := "TimeStateEnd";
       n_name := "Time State End";
       n_native_unit_of_measurement := Some SECONDS;
       n_state_class := None;
       n_device_class := None;
       n_value_fn := (fun node => safe_get node [PyStr "Ventilation"; PyStr "TimeStateEnd"]);
       n_sensor_key := "TimeStateEnd";
       n_node_type := "VLVCO2" |};
    {| n_key := "Mode";
       n_name := "Ventilation Mode";
       n_native_unit_of_measurement := None;
       n_state_class := None;
       n_device_class := None;
       n_value_fn := (fun node => safe_get node [PyStr "Ventilation"; PyStr "Mode"]);
       n_sensor_key := "Mode";
       n_node_type := "VLVCO2" |};
    {| n_key := "FlowLvlTgt";
       n_name := "Flow Level Target";
       n_native_unit_of_measurement := Some PERCENTAGE;
       n_state_class := None;
       n_device_class := None;
       n_value_fn := (fun node => safe_get node [PyStr "Ventilation"; PyStr "FlowLvlTgt"]);
       n_sensor_key := "FlowLvlTgt";
       n_node_type := "VLVCO2" |};
    {| n_key := "Co2";
       n_name := "CO₂";
       n_native_unit_of_measurement := Some CONCENTRATION_PARTS_PER_MILLION;
       n_state_class := None;
       n_device_class := Some CO2;
       n_value_fn := (fun node => _process_node_co2 <$> safe_get node [PyStr "Sensor"; PyStr "data"; PyStr "Co2"]);
       n_sensor_key := "Co2";
       n_node_type := "VLVCO2" |};
    {| n_key := "IaqCo2";
       n_name := "CO₂ Air Quality";
       n_native_unit_of_measurement := Some PERCENTAGE;
       n_state_class := None;
       n_device_class := None;
       n_value_fn := (fun node => _process_node_iaq <$> safe_get node [PyStr "Sensor"; PyStr "data"; PyStr "IaqCo2"]);
       n_sensor_key := "IaqCo2";
       n_node_type := "VLVCO2" |};
    {| n_key := "Temp";
       n_name := "Temperature";
       n_native_unit_of_measurement := Some CELSIUS;
       n_state_class := None;
       n_device_class := Some TEMPERATURE;
       n_value_fn := (fun node => _process_node_temperature <$> safe_get node [PyStr "Sensor"; PyStr "data"; PyStr "Temp"]);
       n_sensor_key := "Temp";
       n_node_type := "VLVCO2" |} ].

Definition NODE_SENSORS_VLVCO2RH : list DucoboxNodeSensorEntityDescription :=
  [ {| n_key := "State";
       n_name := "Ventilation State";
       n_native_unit_of_measurement := None;
       n_state_class := None;
       n_device_class := None;
       n_value_fn := (fun node => safe_get node [PyStr "Ventilation"; PyStr "State"]);
       n_sensor_key := "State";
       n_node_type := "VLVCO2RH" |};
    {| n_key := "TimeStateRemain";
       n_name := "Time State Remaining";
       n_native_unit_of_measurement := Some SECONDS;
       n_state_class := None;
       n_device_class := None;
       n_value_fn := (fun node => safe_get node [PyStr "Ventilation"; PyStr "TimeStateRemain"]);
       n_sensor_key := "TimeStateRemain";
       n_node_type := "VLVCO2RH" |};
    {| n_key := "TimeStateEnd";
       n_name := "Time State End";
       n_native_unit_of_measurement := Some SECONDS;
       n_state_class := None;
       n_device_class := None;
       n_value_fn := (fun node => safe_get node [PyStr "Ventilation"; PyStr "TimeStateEnd"]);
       n_sensor_key := "TimeStateEnd";
       n_node_type := "VLVCO2RH" |};
    {| n_key := "Mode";
       n_name := "Ventilation Mode";
       n_native_unit_of_measurement := None;
       n_state_class := None;
       n_device_class := None;
       n_value_fn := (fun node => safe_get node [PyStr "Ventilation"; PyStr "Mode"]);
       n_sensor_key := "Mode";
       n_node_type := "VLVCO2RH" |};
    {| n_key := "FlowLvlTgt";
       n_name := "Flow Level Target";
       n_native_unit_of_measurement := Some PERCENTAGE;
       n_state_class := None;
       n_device_class := None;
       n_value_fn := (fun node => safe_get node [PyStr "Ventilation"; PyStr "FlowLvlTgt"]);
       n_sensor_key := "FlowLvlTgt";
       n_node_type := "VLVCO2RH" |};
    {| n_key := "Co2";
       n_name := "CO₂";
       n_native_unit_of_measurement := Some CONCENTRATION_PARTS_PER_MILLION;
       n_state_class := None;
       n_device_class := Some CO2;
       n_value_fn := (fun node => _process_node_co2 <$> safe_get node [PyStr "Sensor"; PyStr "data"; PyStr "Co2"]);
       n_sensor_key := "Co2";
       n_node_type := "VLVCO2RH" |};
    {| n_key := "IaqCo2";
       n_name := "CO₂ Air Quality";
       n_native_unit_of_measurement := Some PERCENTAGE;
       n_state_class := None;
       n_device_class := None;
       n_value_fn := (fun node => _process_node_iaq <$> safe_get node [PyStr "Sensor"; PyStr "data"; PyStr "IaqCo2"]);
       n_sensor_key := "IaqCo2";
       n_node_type := "VLVCO2RH" |};
    {| n_key := "Rh";
       n_name := "Relative Humidity";
       n_native_unit_of_measurement := Some PERCENTAGE;
       n_state_class := None;
       n_device_class := Some HUMIDITY;
       n_value_fn := (fun node => _process_node_iaq <$> safe_get node [PyStr "Sensor"; PyStr "data"; PyStr "Rh"]);
       n_sensor_key := "Rh";
       n_node_type := "VLVCO2RH" |};
    {| n_key := "IaqRh";
       n_name := "Humidity Air Quality";
       n_native_unit_of_measurement := Some PERCENTAGE;
       n_state_class := None;
       n_device_class := None;
       n_value_fn := (fun node => _process_node_iaq <$> safe_get node [PyStr "Sensor"; PyStr "data"; PyStr "IaqRh"]);
       n_sensor_key := "IaqRh";
       n_node_type := "VLVCO2RH" |};
    {| n_key := "Temp";
       n_name := "Temperature";
       n_native_unit_of_measurement := Some CELSIUS;
       n_state_class := None;
       n_device_class := Some TEMPERATURE;
       n_value_fn := (fun node => _process_node_temperature <$> safe_get node [PyStr "Sensor"; PyStr "data"; PyStr "Temp"]);
       n_sensor_key := "Temp";
       n_node_type := "VLVCO2RH" |} ].

Definition NODE_SENSORS_UCBAT : list DucoboxNodeSensorEntityDescription :=
  [ {| n_key := "State";
       n_name := "Ventilation State";
       n_native_unit_of_measurement := None;
       n_state_class := None;
       n_device_class := None;
       n_value_fn := (fun node => safe_get node [PyStr "Ventilation"; PyStr "State"]);
       n_sensor_key := "State";
       n_node_type := "UCBAT" |};
    {| n_key := "TimeStateRemain";
       n_name := "Time State Remaining";
       n_native_unit_of_measurement := Some SECONDS;
       n_state_class := None;
       n_device_class := None;
       n_value_fn := (fun node => safe_get node [PyStr "Ventilation"; PyStr "TimeStateRemain"]);
       n_sensor_key := "TimeStateRemain";
       n_node_type := "UCBAT" |};
    {| n_key := "TimeStateEnd";
       n_name := "Time State End";
       n_native_unit_of_measurement := Some SECONDS;
       n_state_class := None;
       n_device_class := None;
       n_value_fn := (fun node => safe_get node [PyStr "Ventilation"; PyStr "TimeStateEnd"]);
       n_sensor_key := "TimeStateEnd";
       n_node_type := "UCBAT" |};
    {| n_key := "Mode";
       n_name := "Ventilation Mode";
       n_native_unit_of_measurement := None;
       n_state_class := None;
       n_device_class := None;
       n_value_fn := (fun node => safe_get node [PyStr "Ventilation"; PyStr "Mode"]);
       n_sensor_key := "Mode";
       n_node_type := "UCBAT" |} ].

Definition NODE_SENSORS : gmap string (list DucoboxNodeSensorEntityDescription) :=
  list_to_map
    [ ("BOX", NODE_SENSORS_BOX);
      ("UCCO2", NODE_SENSORS_UCCO2);
      ("BSRH", NODE_SENSORS_BSRH);
      ("VLVRH", NODE_SENSORS_VLVRH);
      ("VLVCO2", NODE_SENSORS_VLVCO2);
      ("VLVCO2RH", NODE_SENSORS_VLVCO2RH);
      ("UCBAT", NODE_SENSORS_UCBAT) ].


(** ** The Home Assistant runtime and the HTTP client *)

(** A node of the [/nodes] response: a pydantic model, of which the program
    only calls [.dict()]. *)
Record NodeInfo : Type := { dict : gmap string pyobj }.

(** The [Nodes] attribute of a response object: missing, [None], or a list. *)
Inductive nodes_attr : Type :=
| NoNodesAttr
| NodesIsNone
| NodesList (l : list NodeInfo).

(** What [get_nodes()] returns: [None], or an object with a truth value. *)
Inductive nodes_response : Type :=
| ResponseNone
| Response (truthy : bool) (Nodes : nodes_attr).

(** The client, an external collaborator: the outcome of its n-th request to
    each endpoint.  (A request may fail once and succeed when repeated.) *)
Record DucoPy : Type := {
  get_info : nat -> result pyobj;
  get_nodes : nat -> result nodes_response;
}.

Inductive log_record : Type :=
| Debug_info_received (data : pyobj)
| Debug_nodes_received (nodes_response : nodes_response)
| Error_fetching (e : exn)
| Error_failed_to_fetch (e : exn)
| Debug_error_getting_value (name : string) (e : exn).

(** The state the code runs against: the coordinator's cache, the number of
    requests sent to each endpoint so far, and the log. *)
Record runtime : Type := {
  data : pyobj;
  last_update_success : bool;
  info_requests : nat;
  nodes_requests : nat;
  log : list log_record;
}.

(** Computations that read and change the runtime and may raise. *)
Definition Hass (A : Type) : Type := runtime -> result A * runtime.

Definition hass_ret {A} (a : A) : Hass A := fun w => (Ok a, w).

Definition hass_bind {A B} (m : Hass A) (k : A -> Hass B) : Hass B :=
  fun w => match m w with
           | (Ok a, w') => k a w'
           | (Raise e, w') => (Raise e, w')
           end.

Definition hass_raise {A} (e : exn) : Hass A := fun w => (Raise e, w).

(** [try: m except Exception as e: handler e]. *)
Definition hass_try {A} (m : Hass A) (handler : exn -> Hass A) : Hass A :=
  fun w => match m w with
           | (Ok a, w') => (Ok a, w')
           | (Raise e, w') => handler e w'
           end.

Definition lift {A} (r : result A) : Hass A := fun w => (r, w).

Notation "x <~ m ;; k" := (hass_bind m (fun x => k))
  (at level 20, m at level 99, k at level 200, only parsing).

Definition logger (r : log_record) : Hass unit :=
  fun w => (Ok tt, {| data := data w;
                      last_update_success := last_update_success w;
                      info_requests := info_requests w;
                      nodes_requests := nodes_requests w;
                      log := log w ++ [r] |}).

Definition coordinator_data : Hass pyobj := fun w => (Ok (data w), w).

Definition call_get_info (c : DucoPy) : Hass pyobj :=
  fun w => (get_info c (info_requests w),
            {| data := data w;
               last_update_success := last_update_success w;
               info_requests := S (info_requests w);
               nodes_requests := nodes_requests w;
               log := log w |}).

Definition call_get_nodes (c : DucoPy) : Hass nodes_response :=
  fun w => (get_nodes c (nodes_requests w),
            {| data := data w;
               last_update_success := last_update_success w;
               info_requests := info_requests w;
               nodes_requests := S (nodes_requests w);
               log := log w |}).

(** [hass.async_add_executor_job(job)], awaited: the job runs once and its
    outcome is the outcome of the call. *)
Definition async_add_executor_job {A} (job : Hass A) : Hass A := job.

(** ** The coordinator *)

Definition response_truthy (r : nodes_response) : bool :=
  match r with
  | ResponseNone => false
  | Response t _ => t
  end.

Definition hasattr_Nodes (r : nodes_response) : bool :=
  match r with
  | Response _ (NodesIsNone | NodesList _) => true
  | _ => false
  end.

(** [[node.dict() for node in nodes_response.Nodes]]. *)
Definition node_dicts (r : nodes_response) : result (list pyobj) :=
  match r with
  | Response _ (NodesList l) => Ok ((fun node => PyDict (dict node)) <$> l)
  | Response _ NodesIsNone =>
      Raise (Exn TypeError "'NoneType' object is not iterable" None)
  | _ => Raise (Exn AttributeError "object has no attribute 'Nodes'" None)
  end.

Module DucoboxCoordinator.

Record t : Type := { duco_client : option DucoPy }.

Definition _fetch_data (self : t) : Hass pyobj :=
  match duco_client self with
  | None => hass_raise (Exn Exception "Duco client is not initialized" None)
  | Some duco_client =>
      hass_try
        (data <~ call_get_info duco_client ;;
         _ <~ logger (Debug_info_received data) ;;
         let data := match data with PyNone => PyDict ∅ | _ => data end in
         nodes_response <~ call_get_nodes duco_client ;;
         _ <~ logger (Debug_nodes_received nodes_response) ;;
         nodes <~ (if response_truthy nodes_response && hasattr_Nodes nodes_response
                   then lift (node_dicts nodes_response)
                   else hass_ret []) ;;
         lift (py_setitem data "Nodes" (PyList nodes)))
        (fun e => _ <~ logger (Error_fetching e) ;; hass_raise e)
  end.

Definition _async_update_data (self : t) : Hass pyobj :=
  hass_try
    (async_add_executor_job (_fetch_data self))
    (fun e =>
       _ <~ logger (Error_failed_to_fetch e) ;;
       hass_raise (Exn UpdateFailed
                       ("Failed to fetch data from Ducobox API: " +:+ exn_str e)
                       (Some e))).

End DucoboxCoordinator.

(** ** Set-up: the sensors of a node *)

(** [safe_get(node, 'General', 'Type', 'Val') or 'Unknown']. *)
Definition node_type_of (node : pyobj) : result pyobj :=
  t ← safe_get node [PyStr "General"; PyStr "Type"; PyStr "Val"];
  Ok (py_or t (PyStr "Unknown")).

(** [node_sensors = NODE_SENSORS.get(node_type, [])]. *)
Definition node_sensors (node_type : pyobj)
  : result (list DucoboxNodeSensorEntityDescription) :=
  dict_get NODE_SENSORS node_type [].

(** ** The entities *)

Module DucoboxSensorEntity.

Record t : Type := {
  entity_description : DucoboxSensorEntityDescription;
  _attr_unique_id : string;
  _attr_name : string;
}.

Definition available (self : t) : Hass bool :=
  fun w => (Ok (last_update_success w), w).

Definition native_value (self : t) : Hass pyobj :=
  hass_try
    (data <~ coordinator_data ;;
     lift (s_value_fn (entity_description self) data))
    (fun e =>
       _ <~ logger (Debug_error_getting_value (_attr_name self) e) ;;
       hass_ret PyNone).

End DucoboxSensorEntity.

Module DucoboxNodeSensorEntity.

Record t : Type := {
  entity_description : DucoboxNodeSensorEntityDescription;
  _attr_unique_id : string;
  _node_id : pyobj;
  _attr_name : string;
}.

Definition available (self : t) : Hass bool :=
  fun w => (Ok (last_update_success w), w).

(** The body of [for node in nodes: ...], and the [None] of falling off the
    end of the function. *)
Fixpoint for_node_in (self : t) (nodes : list pyobj) : Hass pyobj :=
  match nodes with
  | [] => hass_ret PyNone
  | node :: nodes =>
      id <~ lift (py_get node (PyStr "Node") PyNone) ;;
      if py_eq id (_node_id self) then
        hass_try
          (lift (n_value_fn (entity_description self) node))
          (fun e =>
             _ <~ logger (Debug_error_getting_value (_attr_name self) e) ;;
             hass_ret PyNone)
      else for_node_in self nodes
  end.

Definition native_value (self : t) : Hass pyobj :=
  data <~ coordinator_data ;;
  nodes <~ lift (py_get data (PyStr "Nodes") (PyList [])) ;;
  nodes <~ lift (py_iter nodes) ;;
  for_node_in self nodes.

End DucoboxNodeSensorEntity.


(** ** Set-up: the device id and the entities *)

(** [s.replace(c, "")] for a one-character [c]. *)
Fixpoint str_remove (c : Ascii.ascii) (s : string) : string :=
  match s with
  | EmptyString => EmptyString
  | String x s => if Ascii.eqb x c then str_remove c s else String x (str_remove c s)
  end.

(** [s.lower()] on the strings met here, hardware addresses: the letters
    A..Z go to a..z and every other character stays. *)
Definition ascii_lower (x : Ascii.ascii) : Ascii.ascii :=
  let n := Ascii.nat_of_ascii x in
  if ((65 <=? n)%nat && (n <=? 90)%nat)%bool then Ascii.ascii_of_nat (n + 32) else x.

Fixpoint str_lower (s : string) : string :=
  match s with
  | EmptyString => EmptyString
  | String x s => String (ascii_lower x) (str_lower s)
  end.

(** [mac_address = safe_get(data, "General", "Lan", "Mac", "Val") or
    "unknown_mac"] and [device_id = mac_address.replace(":", "").lower() if
    mac_address else "unknown_mac"].  Only strings have [replace]. *)
Definition device_id_of (data : pyobj) : result string :=
  mac ← safe_get data [PyStr "General"; PyStr "Lan"; PyStr "Mac"; PyStr "Val"];
  let mac_address := py_or mac (PyStr "unknown_mac") in
  if py_truthy mac_address then
    match mac_address with
    | PyStr s => Ok (str_lower (str_remove ":"%char s))
    | _ => Raise (Exn AttributeError "object has no attribute 'replace'" None)
    end
  else Ok "unknown_mac"%string.

(** What [async_add_entities] receives. *)
Inductive SensorEntity : Type :=
| BoxSensor (e : DucoboxSensorEntity.t)
| NodeSensor (e : DucoboxNodeSensorEntity.t).

Section SetUp.

(** [float(s)] as before, and [str(o)], the conversion an f-string applies
    to a value: both belong to the interpreter. *)
Variable float_of_str : string -> result float64.
Variable py_str : pyobj -> string.

(** [for description in SENSORS: ...]: the unique id is
    [f"{device_id}-{description.key}"], the name
    [f"{device_info['name']} {description.name}"] with the device id as the
    device's name. *)
Definition box_entities (device_id : string) : list DucoboxSensorEntity.t :=
  map (fun description =>
         {| DucoboxSensorEntity.entity_description := description;
            DucoboxSensorEntity._attr_unique_id := device_id +:+ "-" +:+ s_key description;
            DucoboxSensorEntity._attr_name := device_id +:+ " " +:+ s_name description |})
      (SENSORS float_of_str).

(** The body of [for node in nodes: ...]. *)
Definition node_entities (device_id : string) (node : pyobj)
  : result (list DucoboxNodeSensorEntity.t) :=
  node_id ← py_get node (PyStr "Node") PyNone;
  node_type ← node_type_of node;
  node_addr ← (fun a => py_or a (PyStr "Unknown"))
                <$> safe_get node [PyStr "General"; PyStr "Addr"];
  let node_name := device_id +:+ ":" +:+ py_str node_id +:+ ":" +:+ py_str node_type in
  let node_device_id := device_id +:+ "-" +:+ py_str node_id in
  descriptions ← node_sensors node_type;
  Ok (map (fun description =>
         {| DucoboxNodeSensorEntity.entity_description := description;
            DucoboxNodeSensorEntity._attr_unique_id :=
              node_device_id +:+ "-" +:+ n_key description;
            DucoboxNodeSensorEntity._node_id := node_id;
            DucoboxNodeSensorEntity._attr_name :=
              node_name +:+ " " +:+ n_name description |})
      descriptions).

Fixpoint for_node_set_up (device_id : string) (nodes : list pyobj)
  : result (list DucoboxNodeSensorEntity.t) :=
  match nodes with
  | [] => Ok []
  | node :: nodes =>
      entities ← node_entities device_id node;
      more ← for_node_set_up device_id nodes;
      Ok (entities ++ more)
  end.

(** [async_setup_entry], from the first refresh on: [data] is the
    coordinator's cache.  (The device-registry records built on the way hold
    no sensor logic and are left out.) *)
Definition async_setup_entry (data : pyobj) : result (list SensorEntity) :=
  device_id ← device_id_of data;
  nodes ← py_get data (PyStr "Nodes") (PyList []);
  nodes ← py_iter nodes;
  entities ← for_node_set_up device_id nodes;
  Ok ((BoxSensor <$> box_entities device_id) ++ (NodeSensor <$> entities)).

End SetUp.

(** ** The fields the sensors read *)

(** The keys a node sensor reads under ['Ventilation']; the others are read
    under ['Sensor']['data']. *)
Definition ventilation_keys : list string :=
  ["Mode"; "State"; "FlowLvlTgt"; "TimeStateRemain"; "TimeStateEnd"]%string.

Definition node_field_path (key : string) : list pyobj :=
  if bool_decide (key ∈ ventilation_keys)
  then [PyStr "Ventilation"; PyStr key]
  else [PyStr "Sensor"; PyStr "data"; PyStr key].

Definition row_consistent (t : string) (d : DucoboxNodeSensorEntityDescription) : Prop :=
  n_node_type d = t /\ n_sensor_key d = n_key d.

(** The keys of the box sensors whose processing function returns its
    argument. *)
Definition pass_through_keys : list string :=
  ["SpeedSup"; "SpeedEha"; "RssiWifi"; "UpTime"; "TimeFilterRemain"]%string.

(** ** The runtime after an update *)

(** The runtime [w] after [n] more requests to [/info], [k] more to
    [/nodes] and the log records [records]. *)
Definition runtime_after (w : runtime) (n k : nat) (records : list log_record) : runtime :=
  {| data := data w;
     last_update_success := last_update_success w;
     info_requests := (info_requests w + n)%nat;
     nodes_requests := (nodes_requests w + k)%nat;
     log := log w ++ records |}.

Definition update_failed (e : exn) : exn :=
  Exn UpdateFailed ("Failed to fetch data from Ducobox API: " +:+ exn_str e) (Some e).

(** ** Strings and entities *)

(** [c in s] for a one-character [c]. *)
Fixpoint str_contains (c : Ascii.ascii) (s : string) : bool :=
  match s with
  | EmptyString => false
  | String x s => Ascii.eqb x c || str_contains c s
  end.

(** Every character of [s] is an ASCII character: on such strings
    [str_lower] is [str.lower]. *)
Definition is_ascii (s : string) : bool :=
  forallb (fun x => (Ascii.nat_of_ascii x <? 128)%nat) (list_ascii_of_string s).

(** [e.unique_id] and [e.native_value] of either kind of entity. *)
Definition unique_id (e : SensorEntity) : string :=
  match e with
  | BoxSensor e => DucoboxSensorEntity._attr_unique_id e
  | NodeSensor e => DucoboxNodeSensorEntity._attr_unique_id e
  end.

Definition native_value (e : SensorEntity) : Hass pyobj :=
  match e with
  | BoxSensor e => DucoboxSensorEntity.native_value e
  | NodeSensor e => DucoboxNodeSensorEntity.native_value e
  end.

(** ** What the specification says the coordinator returns *)

(** The mapping an [/info] answer stands for: the answer itself, the empty
    mapping when the answer is [None]. *)
Definition info_mapping (info : pyobj) : option (gmap string pyobj) :=
  match info with
  | PyNone => Some ∅
  | PyDict d => Some d
  | _ => None
  end.

(** The list of node dicts of a [/nodes] answer: the empty list when the
    answer is falsy or has no [Nodes] attribute. *)
Definition merged_nodes (r : nodes_response) : option (list pyobj) :=
  match r with
  | Response true (NodesList l) => Some ((fun node => PyDict (dict node)) <$> l)
  | Response true NodesIsNone => None
  | _ => Some []
  end.

(** The node a node sensor reads, as the specification words it: a node
    dict whose ['Node'] field equals the stored node id. *)
Definition node_matches (node_id : pyobj) (node : pyobj) : bool :=
  match node with
  | PyDict d => py_eq (default PyNone (d !! "Node")) node_id
  | _ => false
  end.

(** ** Sample inputs *)

(** A nested document and a path into it. *)
Definition sample_document : pyobj :=
  PyDict {[ "General" :=
              PyDict {[ "Lan" := PyDict {[ "Mac" := PyDict {[ "Val" := PyStr "aa:bb" ]} ]} ]} ]}.

(** A parser for [float(str)] that accepts nothing; the sample inputs hold
    no string to parse. *)
Definition reject_all : string -> result float64 :=
  fun _ => Raise (Exn ValueError "could not convert string to float" None).

(** A box with one CO2 room sensor, and a client that answers every request
    with it. *)
Definition sample_node : NodeInfo :=
  {| dict := <["Node" := PyInt 2]>
               (<["Sensor" := PyDict {[ "data" := PyDict {[ "Co2" := PyInt 612 ]} ]}]>
                  {[ "General" := PyDict {[ "Type" := PyDict {[ "Val" := PyStr "UCCO2" ]} ]} ]}) |}.

Definition sample_info : gmap string pyobj :=
  {[ "General" := PyDict {[ "Board" := PyDict {[ "UpTime" := PyDict {[ "Val" := PyInt 3600 ]} ]} ]} ]}.

Definition sample_client : DucoPy :=
  {| get_info := fun _ => Ok (PyDict sample_info);
     get_nodes := fun _ => Ok (Response true (NodesList [sample_node])) |}.

(** A client whose first request to [/info] times out and whose later
    requests succeed. *)
Definition flaky_client : DucoPy :=
  {| get_info := fun n =>
       match n with
       | O => Raise (Exn (OtherException "Timeout") "timed out" None)
       | S _ => Ok (PyDict sample_info)
       end;
     get_nodes := fun _ => Ok (Response true (NodesList [sample_node])) |}.

Definition initial_runtime : runtime :=
  {| data := PyNone;
     last_update_success := false;
     info_requests := 0;
     nodes_requests := 0;
     log := [] |}.

(** The runtime after a first successful refresh from [sample_client]. *)
Definition sample_runtime : runtime :=
  {| data := PyDict (<["Nodes" := PyList [PyDict (dict sample_node)]]> sample_info);
     last_update_success := true;
     info_requests := 1;
     nodes_requests := 1;
     log := [] |}.

(** The CO2 sensor of node 2, as the set-up builds it from the table. *)
Definition sample_co2_entity : DucoboxNodeSensorEntity.t :=
  {| DucoboxNodeSensorEntity.entity_description :=
       {| n_key := "Co2";
          n_name := "CO₂";
          n_native_unit_of_measurement := Some CONCENTRATION_PARTS_PER_MILLION;
          n_state_class := None;
          n_device_class := Some CO2;
          n_value_fn := (fun node => _process_node_co2 <$> safe_get node [PyStr "Sensor"; PyStr "data"; PyStr "Co2"]);
          n_sensor_key := "Co2";
          n_node_type := "UCCO2" |};
     DucoboxNodeSensorEntity._attr_unique_id := "aabb-2-Co2";
     DucoboxNodeSensorEntity._node_id := PyInt 2;
     DucoboxNodeSensorEntity._attr_name := "aabb:2:UCCO2 CO₂" |}.

(** The outdoor-temperature sensor of the box, and a runtime whose cached
    document holds a string where the temperature should be. *)
Definition sample_temperature_entity : DucoboxSensorEntity.t :=
  {| DucoboxSensorEntity.entity_description :=
       {| s_key := "TempOda";
          s_name := "Outdoor Temperature";
          s_native_unit_of_measurement := Some CELSIUS;
          s_state_class := Some MEASUREMENT;
          s_device_class := Some TEMPERATURE;
          s_value_fn := (fun data => safe_get data [PyStr "Ventilation"; PyStr "Sensor"; PyStr "TempOda"; PyStr "Val"] ≫= _process_temperature) |};
     DucoboxSensorEntity._attr_unique_id := "aabb-TempOda";
     DucoboxSensorEntity._attr_name := "aabb Outdoor Temperature" |}.

Definition temperature_document (reading : pyobj) : pyobj :=
  PyDict {[ "Ventilation" :=
              PyDict {[ "Sensor" := PyDict {[ "TempOda" := PyDict {[ "Val" := reading ]} ]} ]} ]}.

Definition runtime_with (document : pyobj) : runtime :=
  {| data := document;
     last_update_success := true;
     info_requests := 1;
     nodes_requests := 1;
     log := [] |}.

(** The ['Rh'] description of a node type, if the table has one. *)
Definition rh_sensor (node_type : string) : option DucoboxNodeSensorEntityDescription :=
  NODE_SENSORS !! node_type ≫= find (fun d => bool_decide (n_key d = "Rh"%string)).

(** The uptime sensor of the box, as the table has it. *)
Definition sample_uptime_description : DucoboxSensorEntityDescription :=
  {| s_key := "UpTime";
     s_name := "Device Uptime";
     s_native_unit_of_measurement := Some SECONDS;
     s_state_class := Some TOTAL_INCREASING;
     s_device_class := Some DURATION;
     s_value_fn := (fun data => _process_uptime <$> safe_get data [PyStr "General"; PyStr "Board"; PyStr "UpTime"; PyStr "Val"]) |}.

(** A client whose [/info] answer is a list. *)
Definition list_client : DucoPy :=
  {| get_info := fun _ => Ok (PyList []);
     get_nodes := fun _ => Ok ResponseNone |}.

(** [str(o)] on the values the sample inputs print. *)
Definition sample_str (o : pyobj) : string :=
  match o with
  | PyInt 2 => "2"
  | PyStr s => s
  | _ => "None"
  end.

(** * Properties *)

(** ** Rounding to binary64 *)

Lemma rne_div_bounds n d :
  0 <= n -> 0 < d ->
  (2 * rne_div n d - 1) * d <= 2 * n <= (2 * rne_div n d + 1) * d /\
  (2 * n = (2 * rne_div n d + 1) * d -> Z.even (rne_div n d) = true) /\
  (2 * n = (2 * rne_div n d - 1) * d -> Z.even (rne_div n d) = true).
Proof.
  intros Hn Hd. unfold rne_div.
  pose proof (Z.div_mod n d ltac:(lia)) as E.
  pose proof (Z.mod_pos_bound n d Hd) as B.
  set (q := n / d) in *. set (r := n mod d) in *.
  destruct (Z.compare_spec (2 * r) d) as [H|H|H].
  - destruct (Z.even q) eqn:Ev.
    + split; [nia|]. split; intros; [assumption|nia].
    + split; [nia|]. split; intros; [nia|].
      rewrite Z.even_add, Ev. reflexivity.
  - split; [nia|]. split; intros; nia.
  - split; [nia|]. split; intros; nia.
Qed.

Lemma rne_div_nonneg n d : 0 <= n -> 0 < d -> 0 <= rne_div n d.
Proof.
  intros Hn Hd. destruct (rne_div_bounds n d Hn Hd) as [[_ U] _]. nia.
Qed.

(** Rounding to the nearest integer is monotone in the rational it rounds. *)
Lemma rne_div_mono n1 d1 n2 d2 :
  0 <= n1 -> 0 < d1 -> 0 <= n2 -> 0 < d2 ->
  n1 * d2 <= n2 * d1 -> rne_div n1 d1 <= rne_div n2 d2.
Proof.
  intros Hn1 Hd1 Hn2 Hd2 Hle.
  destruct (rne_div_bounds n1 d1 Hn1 Hd1) as [[L1 U1] [T1 T1']].
  destruct (rne_div_bounds n2 d2 Hn2 Hd2) as [[L2 U2] [T2 T2']].
  set (m1 := rne_div n1 d1) in *. set (m2 := rne_div n2 d2) in *.
  destruct (Z_le_gt_dec m1 m2) as [|Hgt]; [assumption|exfalso].
  assert (A : (2 * m1 - 1) * (d1 * d2) <= (2 * m2 + 1) * (d1 * d2)) by nia.
  assert (Hm : m1 = m2 + 1) by nia.
  assert (E1 : 2 * n1 = (2 * m1 - 1) * d1) by nia.
  assert (E2 : 2 * n2 = (2 * m2 + 1) * d2) by nia.
  specialize (T1' E1). specialize (T2 E2).
  rewrite Hm, Z.even_add, T2 in T1'. discriminate.
Qed.

Lemma rne_div_exact k d : 0 < d -> rne_div (k * d) d = k.
Proof.
  intros Hd. unfold rne_div.
  rewrite Z.div_mul by lia. rewrite Z.mod_mul by lia.
  destruct (Z.compare_spec (2 * 0) d); lia.
Qed.

Lemma div_rat_mono n1 d1 n2 d2 :
  0 <= n1 -> 0 < d1 -> 0 <= n2 -> 0 < d2 ->
  n1 * d2 <= n2 * d1 -> n1 / d1 <= n2 / d2.
Proof.
  intros Hn1 Hd1 Hn2 Hd2 Hle.
  apply Z.div_le_lower_bound; [assumption|].
  pose proof (Z.mul_div_le n1 d1 Hd1).
  pose proof (Z.div_pos n1 d1 Hn1 Hd1). nia.
Qed.

Lemma shift_of_nonneg n d : 0 <= shift_of n d.
Proof. unfold shift_of. lia. Qed.

Lemma shift_of_mono n1 d1 n2 d2 :
  0 <= n1 -> 0 < d1 -> 0 <= n2 -> 0 < d2 ->
  n1 * d2 <= n2 * d1 -> shift_of n1 d1 <= shift_of n2 d2.
Proof.
  intros Hn1 Hd1 Hn2 Hd2 Hle. unfold shift_of.
  pose proof (Z.log2_le_mono (n1 / d1) (n2 / d2)
                (div_rat_mono _ _ _ _ Hn1 Hd1 Hn2 Hd2 Hle)).
  lia.
Qed.

(** A rounded magnitude does not pass the power of two that closes its binade. *)
Lemma round_q_upper n d :
  0 <= n -> 0 < d -> round_q n d <= 2 ^ (shift_of n d + 53).
Proof.
  intros Hn Hd. unfold round_q.
  set (s := shift_of n d).
  assert (Hs : 0 <= s) by apply shift_of_nonneg.
  assert (Hp : 0 < 2 ^ s) by (apply Z.pow_pos_nonneg; lia).
  assert (Hq : n / d < 2 ^ (s + 53)).
  { destruct (Z.eq_dec (n / d) 0) as [E|NE].
    - rewrite E. apply Z.pow_pos_nonneg; lia.
    - pose proof (Z.div_pos n d Hn Hd).
      pose proof (Z.log2_spec (n / d) ltac:(lia)) as [_ U].
      eapply Z.lt_le_trans; [exact U|].
      apply Z.pow_le_mono_r; [lia|]. unfold s, shift_of. lia. }
  assert (Hn' : n <= 2 ^ (s + 53) * d).
  { pose proof (Z.div_mod n d ltac:(lia)).
    pose proof (Z.mod_pos_bound n d Hd). nia. }
  rewrite Z.pow_add_r in * by lia.
  assert (rne_div n (d * 2 ^ s) <= 2 ^ 53).
  { pose proof (rne_div_mono n (d * 2 ^ s) (2 ^ 53 * (d * 2 ^ s)) (d * 2 ^ s)
                  ltac:(lia) ltac:(nia) ltac:(nia) ltac:(nia) ltac:(nia)) as M.
    rewrite rne_div_exact in M by nia. exact M. }
  nia.
Qed.

(** Above the first binade it does not fall below the power of two that
    opens its binade. *)
Lemma round_q_lower n d :
  0 <= n -> 0 < d -> 0 < shift_of n d ->
  2 ^ (shift_of n d + 52) <= round_q n d.
Proof.
  intros Hn Hd Hs. unfold round_q.
  set (s := shift_of n d) in *.
  assert (Hp : 0 < 2 ^ s) by (apply Z.pow_pos_nonneg; lia).
  assert (Hl : Z.log2 (n / d) = s + 52) by (unfold s, shift_of in *; lia).
  assert (Hq0 : 0 < n / d).
  { destruct (Z_lt_le_dec 0 (n / d)) as [|Hle0]; [assumption|].
    pose proof (Z.log2_nonpos (n / d) Hle0). lia. }
  pose proof (Z.log2_spec (n / d) Hq0) as [L _]. rewrite Hl in L.
  assert (Hn' : 2 ^ (s + 52) * d <= n).
  { pose proof (Z.mul_div_le n d Hd). nia. }
  rewrite Z.pow_add_r in * by lia.
  assert (2 ^ 52 <= rne_div n (d * 2 ^ s)).
  { pose proof (rne_div_mono (2 ^ 52 * (d * 2 ^ s)) (d * 2 ^ s) n (d * 2 ^ s)
                  ltac:(nia) ltac:(nia) ltac:(lia) ltac:(nia) ltac:(nia)) as M.
    rewrite rne_div_exact in M by nia. exact M. }
  nia.
Qed.

(** Round-to-nearest-even is monotone: a larger rational never rounds to a
    smaller double. *)
Lemma round_q_mono n1 d1 n2 d2 :
  0 <= n1 -> 0 < d1 -> 0 <= n2 -> 0 < d2 ->
  n1 * d2 <= n2 * d1 -> round_q n1 d1 <= round_q n2 d2.
Proof.
  intros Hn1 Hd1 Hn2 Hd2 Hle.
  pose proof (shift_of_mono _ _ _ _ Hn1 Hd1 Hn2 Hd2 Hle) as Hs.
  pose proof (shift_of_nonneg n1 d1) as Hs1.
  destruct (Z.eq_dec (shift_of n1 d1) (shift_of n2 d2)) as [E|NE].
  - unfold round_q. rewrite E. set (s := shift_of n2 d2) in *.
    assert (Hp : 0 < 2 ^ s) by (apply Z.pow_pos_nonneg; lia).
    apply Z.mul_le_mono_nonneg_r; [lia|].
    apply rne_div_mono; nia.
  - eapply Z.le_trans; [apply round_q_upper; assumption|].
    eapply Z.le_trans; [|apply round_q_lower; try assumption; lia].
    apply Z.pow_le_mono_r; lia.
Qed.

(** The rounding depends on the rational only, not on how it is written. *)
Lemma round_q_scale n d k :
  0 <= n -> 0 < d -> 0 < k -> round_q (n * k) (d * k) = round_q n d.
Proof.
  intros Hn Hd Hk. apply Z.le_antisymm; apply round_q_mono; nia.
Qed.

Lemma round_q_nonneg n d : 0 <= n -> 0 < d -> 0 <= round_q n d.
Proof.
  intros Hn Hd. unfold round_q.
  pose proof (shift_of_nonneg n d).
  assert (0 < 2 ^ shift_of n d) by (apply Z.pow_pos_nonneg; lia).
  pose proof (rne_div_nonneg n (d * 2 ^ shift_of n d) Hn ltac:(nia)). nia.
Qed.

Lemma scale_pos : 0 < scale.
Proof. unfold scale. apply Z.pow_pos_nonneg; lia. Qed.

(** Integers below [2^53] in magnitude are doubles: they convert exactly. *)
Lemma round_q_small_int a :
  0 <= a < 2 ^ 53 -> round_q (a * scale) 1 = a * scale.
Proof.
  intros [Ha Hb]. unfold round_q.
  set (s := shift_of (a * scale) 1).
  assert (Hs : 0 <= s <= 1074).
  { split; [apply shift_of_nonneg|]. unfold s, shift_of.
    rewrite Z.div_1_r.
    destruct (Z.eq_dec a 0) as [->|Hne]; [rewrite Z.mul_0_l; simpl; lia|].
    unfold scale. rewrite Z.log2_mul_pow2 by lia.
    assert (Z.log2 a < 53) by (apply Z.log2_lt_pow2; lia). lia. }
  assert (Hp : 0 < 2 ^ s) by (apply Z.pow_pos_nonneg; lia).
  assert (E : a * scale = a * 2 ^ (1074 - s) * (1 * 2 ^ s)).
  { unfold scale. replace 1074 with ((1074 - s) + s) at 1 by lia.
    rewrite Z.pow_add_r by lia. ring. }
  rewrite E at 1. rewrite rne_div_exact by lia.
  rewrite E. ring.
Qed.

(** The model against the hardware's binary64 arithmetic: an inexact
    quotient, a subnormal quotient, a product that overflows, and the
    conversion of an int half way between two doubles. *)
Example rounding_on_hardware :
  fdiv (of_int 1) (of_int 3) = of_prim (1 / 3)%float /\
  fdiv (of_prim 0x1p-1074%float) (of_int 3) = of_prim (0x1p-1074 / 3)%float /\
  fdiv (of_prim 0x3p-1074%float) (of_int 2) = of_prim (0x3p-1074 / 2)%float /\
  fmul (of_prim 0x1p1023%float) (of_int 2) = of_prim (0x1p1023 * 2)%float /\
  of_int (2 ^ 53 + 1) = of_prim (PrimFloat.of_uint63 9007199254740993%uint63) /\
  of_int (2 ^ 53 + 3) = of_prim (PrimFloat.of_uint63 9007199254740995%uint63).
Proof. repeat apply conj; vm_compute; reflexivity. Qed.

(** ** The accessor [safe_get] *)

Lemma dict_get_hashable (d : gmap string pyobj) key :
  hashable key = true ->
  dict_get d key PyNone = Ok (default PyNone (dict_lookup d key)).
Proof. destruct key; simpl; intros H; try reflexivity; discriminate. Qed.

Lemma foldl_lookup_step_None keys : foldl lookup_step None keys = None.
Proof. induction keys as [|k keys IH]; simpl; auto. Qed.

Lemma safe_get_spec_not_dict data key keys :
  isinstance_dict data = false -> safe_get_spec data (key :: keys) = PyNone.
Proof.
  intros H. unfold safe_get_spec. simpl.
  destruct data; try discriminate; simpl; now rewrite foldl_lookup_step_None.
Qed.

Lemma safe_get_not_dict data key keys :
  isinstance_dict data = false -> safe_get data (key :: keys) = Ok PyNone.
Proof. destruct data; simpl; intros H; try reflexivity; discriminate. Qed.

Lemma safe_get_dict_step d key keys :
  hashable key = true ->
  safe_get (PyDict d) (key :: keys)
  = safe_get (default PyNone (dict_lookup d key)) keys.
Proof. intros H. simpl. now rewrite dict_get_hashable. Qed.

Lemma safe_get_refines_spec keys : forall data,
  Forall (fun k => hashable k = true) keys ->
  safe_get data keys = Ok (safe_get_spec data keys).
Proof.
  induction keys as [|key keys IH]; intros data Hk.
  - reflexivity.
  - inversion Hk as [|? ? Hkey Hkeys]; subst.
    destruct (isinstance_dict data) eqn:Hd.
    + destruct data; try discriminate.
      rewrite safe_get_dict_step by assumption.
      rewrite IH by assumption. reflexivity.
    + rewrite safe_get_not_dict, safe_get_spec_not_dict by assumption.
      reflexivity.
Qed.

(** C1, as amended.  [safe_get] is the nested-dict accessor for every input
    value and every sequence of hashable keys: with no key it returns [data]
    unchanged; a value that is not a dict ends the walk with [None] (whatever
    the remaining keys); on a dict a hashable key is looked up with
    [dict.get], a missing key giving [None]; so for hashable keys the result
    is the one the specification describes and no exception is raised. *)
Theorem safe_get_hashable_keys :
  (forall data, safe_get data [] = Ok data) /\
  (forall data key keys,
     isinstance_dict data = false -> safe_get data (key :: keys) = Ok PyNone) /\
  (forall d key keys,
     hashable key = true ->
     safe_get (PyDict d) (key :: keys)
     = safe_get (default PyNone (dict_lookup d key)) keys) /\
  (forall data keys,
     Forall (fun k => hashable k = true) keys ->
     safe_get data keys = Ok (safe_get_spec data keys)).
Proof.
  split; [reflexivity|].
  split; [exact safe_get_not_dict|].
  split; [exact safe_get_dict_step|].
  intros data keys. apply safe_get_refines_spec.
Qed.

Lemma safe_get_hashable_keys_witness :
  safe_get sample_document [PyStr "General"; PyStr "Lan"; PyStr "Mac"; PyStr "Val"]
  = Ok (PyStr "aa:bb").
Proof.
  destruct safe_get_hashable_keys as (_ & _ & _ & H).
  rewrite H; [vm_compute; reflexivity | repeat constructor].
Defined.

(** C1, as stated, fails: a key that cannot be hashed makes [dict.get]
    raise [TypeError], so [safe_get({}, [])] raises. *)
Lemma safe_get_unhashable_key_raises :
  safe_get (PyDict ∅) [PyList []]
  = Raise (Exn TypeError "unhashable type: 'list'" None) /\
  ~ (forall data keys, is_ok (safe_get data keys) = true).
Proof.
  split; [reflexivity|].
  intros H. specialize (H (PyDict ∅) [PyList []]). discriminate H.
Qed.

(** ** Float operations on finite operands *)

Lemma bind_Ok {A B} (a : A) (k : A -> result B) : Ok a ≫= k = k a.
Proof. reflexivity. Qed.

Lemma fdiv_finite sx mx sy my :
  my <> 0%N ->
  fdiv (FFin sx mx) (FFin sy my)
  = round_fin (xorb sx sy) (Z.of_N mx * scale) (Z.of_N my).
Proof.
  intros H. unfold fdiv. destruct (N.eqb_spec my 0); [contradiction|reflexivity].
Qed.

Lemma float_truediv_finite x sy my :
  my <> 0%N -> float_truediv x (FFin sy my) = Ok (fdiv x (FFin sy my)).
Proof.
  intros H. unfold float_truediv, is_zero. destruct my; [contradiction|reflexivity].
Qed.

Lemma round_fin_scale s n d k :
  0 <= n -> 0 < d -> 0 < k -> round_fin s (n * k) (d * k) = round_fin s n d.
Proof. intros. unfold round_fin. now rewrite round_q_scale. Qed.

Lemma lit_10_0_value : lit_10_0 = FFin false (Z.to_N (10 * scale)).
Proof. vm_compute. reflexivity. Qed.

Lemma of_int_small z :
  Z.abs z < 2 ^ 53 -> of_int z = FFin (z <? 0) (Z.to_N (Z.abs z * scale)).
Proof.
  intros H. unfold of_int, round_fin.
  rewrite round_q_small_int by lia.
  assert (B : Z.abs z * scale < overflow_bound).
  { unfold overflow_bound, scale.
    replace 2098 with (1024 + 1074) by lia. rewrite (Z.pow_add_r 2 1024) by lia.
    assert (0 < 2 ^ 1074) by (apply Z.pow_pos_nonneg; lia).
    assert (2 ^ 53 < 2 ^ 1024) by (apply Z.pow_lt_mono_r; lia). nia. }
  destruct (Z.ltb_spec (Z.abs z * scale) overflow_bound); [reflexivity|lia].
Qed.

(** ** [_process_temperature] *)

Lemma process_temperature_numeric v :
  is_numeric v = true ->
  _process_temperature v = PyFloat <$> py_truediv v (PyFloat lit_10_0).
Proof. destruct v; intros H; try discriminate H; reflexivity. Qed.

(** On a finite float the result is the double nearest to the exact tenth. *)
Lemma process_temperature_float s m :
  _process_temperature (PyFloat (FFin s m))
  = Ok (PyFloat (round_fin s (Z.of_N m) 10)).
Proof.
  unfold _process_temperature, py_truediv, as_number, number_to_float.
  rewrite lit_10_0_value.
  pose proof scale_pos as Hs.
  unfold mbind, result_bind.
  rewrite float_truediv_finite, fdiv_finite by lia.
  rewrite Z2N.id by lia. rewrite xorb_false_r.
  rewrite round_fin_scale by lia. reflexivity.
Qed.

(** On an int that is a double, likewise. *)
Lemma process_temperature_int z :
  Z.abs z < 2 ^ 53 ->
  _process_temperature (PyInt z)
  = Ok (PyFloat (round_fin (z <? 0) (Z.abs z * scale) 10)).
Proof.
  intros H.
  unfold _process_temperature, py_truediv, as_number, number_to_float, int_to_float.
  rewrite of_int_small by assumption.
  rewrite lit_10_0_value.
  pose proof scale_pos as Hs.
  unfold mbind, result_bind.
  rewrite float_truediv_finite, fdiv_finite by lia.
  rewrite !Z2N.id by lia. rewrite xorb_false_r.
  rewrite round_fin_scale by lia. reflexivity.
Qed.

(** C2.  The temperature conversion divides by ten: [None] goes to [None],
    and every numeric input [v] goes to the float [v / 10.0].  For a finite
    float, and for an int below [2^53] in magnitude, that is the double
    nearest to the exact quotient of [v] by ten. *)
Theorem process_temperature_divides_by_10 :
  _process_temperature PyNone = Ok PyNone /\
  (forall v, is_numeric v = true ->
     _process_temperature v = PyFloat <$> py_truediv v (PyFloat lit_10_0)) /\
  (forall s m,
     _process_temperature (PyFloat (FFin s m))
     = Ok (PyFloat (round_fin s (Z.of_N m) 10))) /\
  (forall z, Z.abs z < 2 ^ 53 ->
     _process_temperature (PyInt z)
     = Ok (PyFloat (round_fin (z <? 0) (Z.abs z * scale) 10))).
Proof.
  split; [reflexivity|].
  split; [exact process_temperature_numeric|].
  split; [exact process_temperature_float|exact process_temperature_int].
Qed.

(** 215 tenths of a degree are 21.5 degrees. *)
Lemma process_temperature_divides_by_10_witness :
  _process_temperature (PyInt 215) = Ok (PyFloat (literal 215 10)).
Proof.
  destruct process_temperature_divides_by_10 as (_ & _ & _ & H).
  rewrite H; [reflexivity | vm_compute; reflexivity].
Defined.

(** The model agrees with the hardware's binary64 division on this input. *)
Example temperature_215_on_hardware :
  _process_temperature (PyInt 215)
  = Ok (PyFloat (of_prim (215 / 10)%float)).
Proof. vm_compute. reflexivity. Qed.

(** ** [_process_pressure] *)

Lemma process_pressure_numeric float_of_str v :
  is_numeric v = true ->
  _process_pressure float_of_str v = PyFloat <$> mul_float v lit_0_1.
Proof.
  destruct v as [| [] | z | f | | |]; intros H; try discriminate H; try reflexivity.
  - unfold _process_pressure, mul_float; simpl.
    destruct (int_to_float z); reflexivity.
Qed.

Lemma lit_0_1_value :
  lit_0_1 = FFin false (Z.to_N (3602879701896397 * 2 ^ 1019)).
Proof. vm_compute. reflexivity. Qed.

Lemma fmul_finite sx mx sy my :
  fmul (FFin sx mx) (FFin sy my)
  = round_fin (xorb sx sy) (Z.of_N mx * Z.of_N my) scale.
Proof. reflexivity. Qed.

(** On a finite float the result is the double nearest to the product with
    [3602879701896397 / 2^55], the double that the literal [.1] denotes. *)
Lemma process_pressure_float float_of_str s m :
  _process_pressure float_of_str (PyFloat (FFin s m))
  = Ok (PyFloat (round_fin s (Z.of_N m * 3602879701896397) (2 ^ 55))).
Proof.
  unfold _process_pressure, py_float, mbind, result_bind.
  rewrite lit_0_1_value, fmul_finite, xorb_false_r.
  assert (P : 0 < 2 ^ 1019) by (apply Z.pow_pos_nonneg; lia).
  rewrite Z2N.id by lia.
  replace scale with (2 ^ 55 * 2 ^ 1019)
    by (unfold scale; rewrite <- Z.pow_add_r by lia; reflexivity).
  rewrite Z.mul_assoc. rewrite round_fin_scale by lia. reflexivity.
Qed.

(** C4, as amended.  The pressure conversion multiplies by the float [.1]:
    [None] goes to [None], and every numeric input [v] goes to [v * .1], the
    product rounded to binary64 of [float(v)] and the double nearest to one
    tenth, [3602879701896397 / 2^55]. *)
Theorem process_pressure_multiplies_by_0_1 :
  (forall float_of_str, _process_pressure float_of_str PyNone = Ok PyNone) /\
  (forall float_of_str v, is_numeric v = true ->
     _process_pressure float_of_str v = PyFloat <$> mul_float v lit_0_1) /\
  lit_0_1 = FFin false (Z.to_N (3602879701896397 * 2 ^ 1019)) /\
  (forall float_of_str s m,
     _process_pressure float_of_str (PyFloat (FFin s m))
     = Ok (PyFloat (round_fin s (Z.of_N m * 3602879701896397) (2 ^ 55)))).
Proof.
  split; [reflexivity|].
  split; [exact process_pressure_numeric|].
  split; [exact lit_0_1_value|exact process_pressure_float].
Qed.

(** 1013 tenths of a pascal. *)
Lemma process_pressure_multiplies_by_0_1_witness :
  _process_pressure reject_all (PyInt 1013)
  = PyFloat <$> mul_float (PyInt 1013) lit_0_1.
Proof.
  destruct process_pressure_multiplies_by_0_1 as (_ & H & _).
  apply H. reflexivity.
Defined.

(** C4, as stated, fails: multiplying by [.1] is not dividing by ten.  For
    the input 3 the code returns 0.30000000000000004, and [3 / 10] is 0.3. *)
Lemma process_pressure_3_is_not_3_tenths :
  (forall float_of_str,
     _process_pressure float_of_str (PyInt 3)
     = Ok (PyFloat (literal 30000000000000004 100000000000000000))) /\
  py_truediv (PyInt 3) (PyInt 10) = Ok (literal 3 10) /\
  _process_temperature (PyInt 3) = Ok (PyFloat (literal 3 10)) /\
  literal 30000000000000004 100000000000000000 <> literal 3 10.
Proof.
  split; [intros; vm_compute; reflexivity|].
  split; [vm_compute; reflexivity|].
  split; [vm_compute; reflexivity|].
  intros H. apply (f_equal (fun x => bool_decide (x = literal 3 10))) in H.
  vm_compute in H. discriminate H.
Qed.

(** The hardware's binary64 arithmetic shows the same two values. *)
Example pressure_3_on_hardware :
  of_prim (3 * 0x1.999999999999ap-4)%float
  = literal 30000000000000004 100000000000000000 /\
  of_prim (3 / 10)%float = literal 3 10 /\
  of_prim 0x1.999999999999ap-4%float = lit_0_1.
Proof. repeat apply conj; vm_compute; reflexivity. Qed.

(** ** [_process_bypass_position] *)

Lemma round_fin_in_range s n d :
  round_q n d < overflow_bound ->
  round_fin s n d = FFin s (Z.to_N (round_q n d)).
Proof.
  intros H. unfold round_fin.
  destruct (Z.ltb_spec (round_q n d) overflow_bound); [reflexivity|lia].
Qed.

Lemma round_q_zero d : 0 < d -> round_q 0 d = 0.
Proof.
  intros Hd. apply Z.le_antisymm; [|apply round_q_nonneg; lia].
  pose proof (round_q_small_int 0 ltac:(lia)) as E. rewrite Z.mul_0_l in E.
  pose proof (round_q_mono 0 d 0 1 ltac:(lia) Hd ltac:(lia) ltac:(lia) ltac:(lia)).
  lia.
Qed.

Lemma round_q_int_over_itself a d :
  0 <= a < 2 ^ 53 -> 0 < d -> round_q (a * scale * d) d = a * scale.
Proof.
  intros Ha Hd.
  replace d with (1 * d) at 2 by lia.
  pose proof scale_pos.
  rewrite round_q_scale by nia. apply round_q_small_int; assumption.
Qed.

Lemma scale_below_overflow a : 0 <= a < 2 ^ 53 -> a * scale < overflow_bound.
Proof.
  intros Ha. unfold overflow_bound, scale.
  replace 2098 with (1024 + 1074) by lia. rewrite (Z.pow_add_r 2 1024) by lia.
  assert (0 < 2 ^ 1074) by (apply Z.pow_pos_nonneg; lia).
  assert (2 ^ 53 < 2 ^ 1024) by (apply Z.pow_lt_mono_r; lia). nia.
Qed.

(** The quotient by 255 of a number in [0, 255] is a double in [0, 1]. *)
Lemma quotient_in_unit_range k :
  0 <= k <= 255 * scale -> 0 <= round_q k 255 <= scale.
Proof.
  intros Hk. split; [apply round_q_nonneg; lia|].
  pose proof (round_q_int_over_itself 1 255 ltac:(lia) ltac:(lia)) as E.
  rewrite Z.mul_1_l in E.
  pose proof (round_q_mono k 255 (scale * 255) 255
                ltac:(lia) ltac:(lia) ltac:(lia) ltac:(lia) ltac:(lia)).
  lia.
Qed.

(** Its product with 100 is a double in [0, 100]. *)
Lemma product_in_percent_range q :
  0 <= q <= scale -> 0 <= round_q (q * (100 * scale)) scale <= 100 * scale.
Proof.
  intros Hq. pose proof scale_pos as Hs.
  split; [apply round_q_nonneg; nia|].
  pose proof (round_q_int_over_itself 100 scale ltac:(lia) Hs) as E.
  pose proof (round_q_mono (q * (100 * scale)) scale (100 * scale * scale) scale
                ltac:(nia) Hs ltac:(nia) Hs ltac:(nia)).
  lia.
Qed.

Lemma bypass_roundings_range k :
  0 <= k <= 255 * scale -> 0 <= bypass_roundings k <= 100.
Proof.
  intros Hk. unfold bypass_roundings. pose proof scale_pos as Hs.
  pose proof (quotient_in_unit_range k Hk) as Hq.
  pose proof (product_in_percent_range _ Hq) as Hp.
  split; [apply rne_div_nonneg; lia|].
  pose proof (rne_div_exact 100 scale Hs) as E.
  pose proof (rne_div_mono (round_q (round_q k 255 * (100 * scale)) scale) scale
                (100 * scale) scale ltac:(lia) Hs ltac:(lia) Hs ltac:(nia)).
  lia.
Qed.

Lemma bypass_roundings_mono k1 k2 :
  0 <= k1 <= k2 -> k2 <= 255 * scale ->
  bypass_roundings k1 <= bypass_roundings k2.
Proof.
  intros H12 H2. unfold bypass_roundings. pose proof scale_pos as Hs.
  pose proof (quotient_in_unit_range k1 ltac:(lia)) as Hq1.
  pose proof (quotient_in_unit_range k2 ltac:(lia)) as Hq2.
  assert (Hq : round_q k1 255 <= round_q k2 255) by (apply round_q_mono; lia).
  pose proof (product_in_percent_range _ Hq1) as Hp1.
  pose proof (product_in_percent_range _ Hq2) as Hp2.
  assert (Hp : round_q (round_q k1 255 * (100 * scale)) scale
               <= round_q (round_q k2 255 * (100 * scale)) scale)
    by (apply round_q_mono; nia).
  apply rne_div_mono; nia.
Qed.

Lemma bypass_roundings_0 : bypass_roundings 0 = 0.
Proof.
  unfold bypass_roundings. pose proof scale_pos as Hs.
  rewrite (round_q_zero 255) by lia. rewrite Z.mul_0_l.
  rewrite (round_q_zero scale) by lia. apply (rne_div_exact 0 scale Hs).
Qed.

Lemma bypass_roundings_255 : bypass_roundings (255 * scale) = 100.
Proof.
  unfold bypass_roundings. pose proof scale_pos as Hs.
  replace (255 * scale) with (1 * scale * 255) by lia.
  rewrite round_q_int_over_itself by lia.
  replace (1 * scale * (100 * scale)) with (100 * scale * scale) by lia.
  rewrite round_q_int_over_itself by lia.
  apply rne_div_exact; assumption.
Qed.

Lemma int_to_float_small z :
  Z.abs z < 2 ^ 53 ->
  int_to_float z = Ok (FFin (z <? 0) (Z.to_N (Z.abs z * scale))).
Proof. intros H. unfold int_to_float. now rewrite of_int_small. Qed.

Lemma int_truediv_in_range x y :
  y <> 0 -> round_q (Z.abs x * scale) (Z.abs y) < overflow_bound ->
  int_truediv x y
  = Ok (FFin (xorb (x <? 0) (y <? 0))
             (Z.to_N (round_q (Z.abs x * scale) (Z.abs y)))).
Proof.
  intros Hy H. unfold int_truediv.
  destruct (Z.eqb_spec y 0); [contradiction|].
  now rewrite round_fin_in_range.
Qed.

(** The second and third step, from a quotient in [0, 1]. *)
Lemma bypass_from_quotient s q :
  0 <= q <= scale ->
  (float_mul (FFin s (Z.to_N q)) (PyInt 100) ≫= fun p => PyInt <$> py_round p)
  = Ok (PyInt (let r := rne_div (round_q (q * (100 * scale)) scale) scale in
               if s then - r else r)).
Proof.
  intros Hq. pose proof scale_pos as Hs.
  pose proof (product_in_percent_range q Hq) as Hp.
  pose proof (scale_below_overflow 100 ltac:(lia)) as Ho.
  unfold float_mul, as_number, number_to_float.
  rewrite int_to_float_small by lia.
  unfold mbind, result_bind. rewrite fmul_finite.
  change (100 <? 0) with false. change (Z.abs 100) with 100.
  rewrite xorb_false_r, !Z2N.id by lia.
  rewrite round_fin_in_range by lia.
  unfold py_round, to_int_rne, fmap, result_fmap.
  rewrite Z2N.id by lia. reflexivity.
Qed.

Lemma process_bypass_position_int z :
  0 <= z <= 255 ->
  _process_bypass_position (PyInt z) = Ok (PyInt (bypass_roundings (z * scale))).
Proof.
  intros Hz. pose proof scale_pos as Hs.
  pose proof (quotient_in_unit_range (z * scale) ltac:(nia)) as Hq.
  pose proof (scale_below_overflow 1 ltac:(lia)) as Ho.
  unfold _process_bypass_position, py_truediv, as_number.
  rewrite int_truediv_in_range; rewrite ?Z.abs_eq by lia; try lia.
  change (Z.abs 255) with 255 in *.
  replace (z <? 0) with false by (symmetry; apply Z.ltb_ge; lia).
  change (xorb false (255 <? 0)) with false.
  apply (bypass_from_quotient false _ Hq).
Qed.

Lemma process_bypass_position_bool b :
  _process_bypass_position (PyBool b) = _process_bypass_position (PyInt (Z.b2z b)).
Proof. unfold _process_bypass_position, py_truediv, as_number. reflexivity. Qed.

Lemma process_bypass_position_float s m :
  0 <= signed s m <= 255 * scale ->
  _process_bypass_position (PyFloat (FFin s m))
  = Ok (PyInt (bypass_roundings (signed s m))).
Proof.
  intros Hk. pose proof scale_pos as Hs.
  pose proof (scale_below_overflow 1 ltac:(lia)) as Ho.
  assert (Hm : 0 <= Z.of_N m <= 255 * scale) by (destruct s; simpl in Hk; lia).
  pose proof (quotient_in_unit_range (Z.of_N m) Hm) as Hq.
  unfold _process_bypass_position, py_truediv, as_number, number_to_float.
  rewrite int_to_float_small by lia.
  change (255 <? 0) with false. change (Z.abs 255) with 255.
  rewrite !bind_Ok.
  rewrite float_truediv_finite, fdiv_finite by lia.
  rewrite Z2N.id, xorb_false_r by lia.
  rewrite round_fin_scale by lia.
  rewrite round_fin_in_range by lia.
  rewrite bind_Ok.
  rewrite (bypass_from_quotient s _ Hq).
  destruct s; simpl in Hk |- *.
  - assert (E : Z.of_N m = 0) by lia. rewrite E.
    change (- 0) with 0. fold (bypass_roundings 0).
    rewrite bypass_roundings_0. reflexivity.
  - reflexivity.
Qed.

(** On every number inside [0, 255] the function returns, and returns the
    three roundings of its exact value. *)
Lemma process_bypass_position_in_range v k :
  exact_value v = Some k -> 0 <= k <= 255 * scale ->
  _process_bypass_position v = Ok (PyInt (bypass_roundings k)).
Proof.
  pose proof scale_pos as Hs.
  destruct v as [| b | z | [| |s m] | | |]; unfold exact_value; intros E Hk;
    try discriminate E; injection E as <-.
  - rewrite process_bypass_position_bool.
    apply process_bypass_position_int.
    destruct b; [change (Z.b2z true) with 1 in *|change (Z.b2z false) with 0 in *];
      nia.
  - apply process_bypass_position_int. nia.
  - apply process_bypass_position_float. exact Hk.
Qed.

Lemma process_bypass_position_numeric v :
  is_numeric v = true ->
  _process_bypass_position v
  = py_truediv v (PyInt 255) ≫= fun q =>
    float_mul q (PyInt 100) ≫= fun p => PyInt <$> py_round p.
Proof. destruct v; intros H; try discriminate H; reflexivity. Qed.

(** C3.  The bypass-position conversion scales 0..255 to a percentage:
    [None] goes to [None]; every numeric input [v] goes to
    [round((v / 255) * 100)]; a number equal to 0 goes to 0 and a number
    equal to 255 goes to 100; on the numbers (ints, bools and floats) inside
    [0, 255] the function returns an int inside [0, 100] and is monotone. *)
Theorem process_bypass_position_scales_to_percent :
  _process_bypass_position PyNone = Ok PyNone /\
  (forall v, is_numeric v = true ->
     _process_bypass_position v
     = py_truediv v (PyInt 255) ≫= fun q =>
       float_mul q (PyInt 100) ≫= fun p => PyInt <$> py_round p) /\
  (forall v, exact_value v = Some 0 ->
     _process_bypass_position v = Ok (PyInt 0)) /\
  (forall v, exact_value v = Some (255 * scale) ->
     _process_bypass_position v = Ok (PyInt 100)) /\
  (forall v k, exact_value v = Some k -> 0 <= k <= 255 * scale ->
     exists r, _process_bypass_position v = Ok (PyInt r) /\ 0 <= r <= 100) /\
  (forall v1 v2 k1 k2,
     exact_value v1 = Some k1 -> exact_value v2 = Some k2 ->
     0 <= k1 -> k1 <= k2 -> k2 <= 255 * scale ->
     exists r1 r2,
       _process_bypass_position v1 = Ok (PyInt r1) /\
       _process_bypass_position v2 = Ok (PyInt r2) /\
       r1 <= r2).
Proof.
  pose proof scale_pos as Hs.
  split; [reflexivity|].
  split; [exact process_bypass_position_numeric|].
  split.
  { intros v E. rewrite (process_bypass_position_in_range v 0 E) by lia.
    now rewrite bypass_roundings_0. }
  split.
  { intros v E. rewrite (process_bypass_position_in_range v _ E) by lia.
    now rewrite bypass_roundings_255. }
  split.
  { intros v k E Hk. exists (bypass_roundings k). split.
    - apply process_bypass_position_in_range; assumption.
    - apply bypass_roundings_range; assumption. }
  intros v1 v2 k1 k2 E1 E2 H0 H12 H2.
  exists (bypass_roundings k1), (bypass_roundings k2). split; [|split].
  - apply process_bypass_position_in_range; [assumption|lia].
  - apply process_bypass_position_in_range; [assumption|lia].
  - apply bypass_roundings_mono; lia.
Qed.

(** The int 64 and the float 127.5 lie inside [0, 255], in this order. *)
Lemma process_bypass_position_scales_to_percent_witness :
  exists r1 r2,
    _process_bypass_position (PyInt 64) = Ok (PyInt r1) /\
    _process_bypass_position (PyFloat (literal 255 2)) = Ok (PyInt r2) /\
    r1 <= r2.
Proof.
  destruct process_bypass_position_scales_to_percent as (_ & _ & _ & _ & _ & H).
  apply (H (PyInt 64) (PyFloat (literal 255 2)) (64 * scale) (255 * 2 ^ 1073)).
  - reflexivity.
  - vm_compute. reflexivity.
  - vm_compute. discriminate.
  - vm_compute. discriminate.
  - vm_compute. discriminate.
Defined.

(** Half way, 128 of 255, reads 50 percent; the hardware's binary64
    arithmetic gives the same intermediate product. *)
Example bypass_128 :
  _process_bypass_position (PyInt 128) = Ok (PyInt 50) /\
  float_mul (of_prim (128 / 255)%float) (PyInt 100)
  = Ok (of_prim (128 / 255 * 100)%float).
Proof. split; vm_compute; reflexivity. Qed.

(** ** The coordinator *)

Lemma fetch_data_outcome self w :
  fst (DucoboxCoordinator._fetch_data self w)
  = match DucoboxCoordinator.duco_client self with
    | None => Raise (Exn Exception "Duco client is not initialized" None)
    | Some c =>
        info ← get_info c (info_requests w);
        r ← get_nodes c (nodes_requests w);
        nodes ← (if response_truthy r && hasattr_Nodes r
                 then node_dicts r else Ok []);
        py_setitem (match info with PyNone => PyDict ∅ | _ => info end)
                   "Nodes" (PyList nodes)
    end.
Proof.
  unfold DucoboxCoordinator._fetch_data.
  destruct (DucoboxCoordinator.duco_client self) as [c|]; [|reflexivity].
  unfold hass_try, hass_bind, call_get_info, call_get_nodes, logger, lift,
    hass_ret, hass_raise; simpl.
  destruct (get_info c (info_requests w)) as [info|e]; [|reflexivity]; simpl.
  destruct (get_nodes c (nodes_requests w)) as [r|e]; [|reflexivity]; simpl.
  destruct (response_truthy r && hasattr_Nodes r); simpl.
  - destruct (node_dicts r) as [nodes|e]; [|reflexivity]; simpl.
    destruct (py_setitem _ _ _); reflexivity.
  - destruct (py_setitem _ _ _); reflexivity.
Qed.

Lemma merged_nodes_spec r :
  (if response_truthy r && hasattr_Nodes r then node_dicts r else Ok [])
  = match merged_nodes r with
    | Some nodes => Ok nodes
    | None => Raise (Exn TypeError "'NoneType' object is not iterable" None)
    end.
Proof. destruct r as [|[] []]; reflexivity. Qed.

Lemma setitem_info_mapping info v :
  py_setitem (match info with PyNone => PyDict ∅ | _ => info end) "Nodes" v
  = match info_mapping info with
    | Some m => Ok (PyDict (<["Nodes" := v]> m))
    | None => Raise (Exn TypeError "object does not support item assignment" None)
    end.
Proof. destruct info; reflexivity. Qed.

(** C5.  A fetch succeeds exactly when [/info] answers [None] or a mapping
    and [/nodes] answers something whose node list can be read; it then
    returns the [/info] mapping (the empty mapping for [None]) with the key
    ['Nodes'] bound to the list of node dicts, which is the empty list when
    the [/nodes] answer is falsy or has no [Nodes] attribute.  Hence every
    mapping returned has the key ['Nodes'] bound to a list. *)
Theorem fetch_data_merges_info_and_nodes :
  (forall self w d,
     fst (DucoboxCoordinator._fetch_data self w) = Ok d <->
     exists c info m r nodes,
       DucoboxCoordinator.duco_client self = Some c /\
       get_info c (info_requests w) = Ok info /\
       info_mapping info = Some m /\
       get_nodes c (nodes_requests w) = Ok r /\
       merged_nodes r = Some nodes /\
       d = PyDict (<["Nodes" := PyList nodes]> m)) /\
  (forall l, merged_nodes (Response true (NodesList l))
             = Some ((fun node => PyDict (dict node)) <$> l)) /\
  (forall truthy, merged_nodes (Response truthy NoNodesAttr) = Some []) /\
  (forall attr, merged_nodes (Response false attr) = Some []) /\
  merged_nodes ResponseNone = Some [] /\
  (forall self w d,
     fst (DucoboxCoordinator._fetch_data self w) = Ok d ->
     exists m l, d = PyDict m /\ m !! "Nodes" = Some (PyList l)).
Proof.
  assert (Hiff : forall self w d,
     fst (DucoboxCoordinator._fetch_data self w) = Ok d <->
     exists c info m r nodes,
       DucoboxCoordinator.duco_client self = Some c /\
       get_info c (info_requests w) = Ok info /\
       info_mapping info = Some m /\
       get_nodes c (nodes_requests w) = Ok r /\
       merged_nodes r = Some nodes /\
       d = PyDict (<["Nodes" := PyList nodes]> m)).
  { intros self w d. rewrite fetch_data_outcome. split.
    - destruct (DucoboxCoordinator.duco_client self) as [c|]; [|discriminate].
      destruct (get_info c (info_requests w)) as [info|] eqn:Hi; [|discriminate].
      destruct (get_nodes c (nodes_requests w)) as [r|] eqn:Hr; [|discriminate].
      rewrite !bind_Ok, merged_nodes_spec.
      destruct (merged_nodes r) as [nodes|] eqn:Hn; [|discriminate].
      rewrite bind_Ok, setitem_info_mapping.
      destruct (info_mapping info) as [m|] eqn:Hm; [|discriminate].
      intros [= <-]. exists c, info, m, r, nodes. repeat split; auto.
    - intros (c & info & m & r & nodes & -> & -> & Hm & -> & Hn & ->).
      rewrite !bind_Ok, merged_nodes_spec, Hn, bind_Ok, setitem_info_mapping, Hm.
      reflexivity. }
  split; [exact Hiff|].
  split; [reflexivity|].
  split; [intros []; reflexivity|].
  split; [intros []; reflexivity|].
  split; [reflexivity|].
  intros self w d H. apply Hiff in H.
  destruct H as (c & info & m & r & nodes & _ & _ & _ & _ & _ & ->).
  eexists _, _. split; [reflexivity|]. apply lookup_insert_eq.
Qed.

Lemma fetch_data_merges_info_and_nodes_witness :
  fst (DucoboxCoordinator._fetch_data
         {| DucoboxCoordinator.duco_client := Some sample_client |} initial_runtime)
  = Ok (PyDict (<["Nodes" := PyList [PyDict (dict sample_node)]]> sample_info)).
Proof.
  destruct fetch_data_merges_info_and_nodes as (H & _).
  apply H.
  exists sample_client, (PyDict sample_info), sample_info,
    (Response true (NodesList [sample_node])), [PyDict (dict sample_node)].
  repeat split; reflexivity.
Defined.

(** The requests a fetch sends: none without a client, else one to [/info]
    and, when that one answers, one to [/nodes]; the cache is not touched. *)
Lemma fetch_data_requests self w :
  data (snd (DucoboxCoordinator._fetch_data self w)) = data w /\
  match DucoboxCoordinator.duco_client self with
  | None =>
      info_requests (snd (DucoboxCoordinator._fetch_data self w)) = info_requests w /\
      nodes_requests (snd (DucoboxCoordinator._fetch_data self w)) = nodes_requests w
  | Some c =>
      info_requests (snd (DucoboxCoordinator._fetch_data self w)) = S (info_requests w) /\
      nodes_requests (snd (DucoboxCoordinator._fetch_data self w))
      = (if is_ok (get_info c (info_requests w))
         then S (nodes_requests w) else nodes_requests w)
  end.
Proof.
  unfold DucoboxCoordinator._fetch_data.
  destruct (DucoboxCoordinator.duco_client self) as [c|]; [|split; [|split]; reflexivity].
  unfold hass_try, hass_bind, call_get_info, call_get_nodes, logger, lift,
    hass_ret, hass_raise; simpl.
  destruct (get_info c (info_requests w)) as [info|e]; simpl; [|auto].
  destruct (get_nodes c (nodes_requests w)) as [r|e]; simpl; [|auto].
  destruct (response_truthy r && hasattr_Nodes r); simpl.
  - destruct (node_dicts r) as [nodes|e]; simpl; [|auto].
    destruct (py_setitem _ _ _); simpl; auto.
  - destruct (py_setitem _ _ _); simpl; auto.
Qed.

Lemma async_update_data_outcome self w :
  fst (DucoboxCoordinator._async_update_data self w)
  = match fst (DucoboxCoordinator._fetch_data self w) with
    | Ok d => Ok d
    | Raise e =>
        Raise (Exn UpdateFailed
                   ("Failed to fetch data from Ducobox API: " +:+ exn_str e)
                   (Some e))
    end.
Proof.
  unfold DucoboxCoordinator._async_update_data, async_add_executor_job, hass_try.
  destruct (DucoboxCoordinator._fetch_data self w) as [[d|e] w']; reflexivity.
Qed.

Lemma async_update_data_runtime self w :
  data (snd (DucoboxCoordinator._async_update_data self w))
  = data (snd (DucoboxCoordinator._fetch_data self w)) /\
  info_requests (snd (DucoboxCoordinator._async_update_data self w))
  = info_requests (snd (DucoboxCoordinator._fetch_data self w)) /\
  nodes_requests (snd (DucoboxCoordinator._async_update_data self w))
  = nodes_requests (snd (DucoboxCoordinator._fetch_data self w)).
Proof.
  unfold DucoboxCoordinator._async_update_data, async_add_executor_job, hass_try.
  destruct (DucoboxCoordinator._fetch_data self w) as [[d|e] w']; simpl; auto.
Qed.

Lemma fetch_data_reraises_info self c w e :
  DucoboxCoordinator.duco_client self = Some c ->
  get_info c (info_requests w) = Raise e ->
  fst (DucoboxCoordinator._fetch_data self w) = Raise e.
Proof. intros Hc Hi. rewrite fetch_data_outcome, Hc, Hi. reflexivity. Qed.

Lemma fetch_data_reraises_nodes self c w info e :
  DucoboxCoordinator.duco_client self = Some c ->
  get_info c (info_requests w) = Ok info ->
  get_nodes c (nodes_requests w) = Raise e ->
  fst (DucoboxCoordinator._fetch_data self w) = Raise e.
Proof. intros Hc Hi Hn. rewrite fetch_data_outcome, Hc, Hi, Hn. reflexivity. Qed.

(** C6.  A failure is caught once and surfaced, with no retry: whatever
    exception [e] the fetch raises, [_async_update_data] raises
    [UpdateFailed] with [e] as its cause and returns no data.  The fetch
    raises when the client is not initialized, and it passes on unchanged
    the exception of a failing request to [/info] or [/nodes].  One update
    sends at most one request to each endpoint, and leaves the cached data
    as it was. *)
Theorem update_failure_is_surfaced_once :
  (forall self w e,
     fst (DucoboxCoordinator._fetch_data self w) = Raise e ->
     fst (DucoboxCoordinator._async_update_data self w)
     = Raise (Exn UpdateFailed
                  ("Failed to fetch data from Ducobox API: " +:+ exn_str e)
                  (Some e))) /\
  (forall w,
     fst (DucoboxCoordinator._fetch_data
            {| DucoboxCoordinator.duco_client := None |} w)
     = Raise (Exn Exception "Duco client is not initialized" None)) /\
  (forall self c w e,
     DucoboxCoordinator.duco_client self = Some c ->
     get_info c (info_requests w) = Raise e ->
     fst (DucoboxCoordinator._fetch_data self w) = Raise e) /\
  (forall self c w info e,
     DucoboxCoordinator.duco_client self = Some c ->
     get_info c (info_requests w) = Ok info ->
     get_nodes c (nodes_requests w) = Raise e ->
     fst (DucoboxCoordinator._fetch_data self w) = Raise e) /\
  (forall self w,
     (info_requests (snd (DucoboxCoordinator._async_update_data self w))
      <= S (info_requests w))%nat /\
     (nodes_requests (snd (DucoboxCoordinator._async_update_data self w))
      <= S (nodes_requests w))%nat /\
     data (snd (DucoboxCoordinator._async_update_data self w)) = data w).
Proof.
  split.
  { intros self w e H. rewrite async_update_data_outcome, H. reflexivity. }
  split; [reflexivity|].
  split; [exact fetch_data_reraises_info|].
  split; [exact fetch_data_reraises_nodes|].
  intros self w.
  destruct (async_update_data_runtime self w) as (-> & -> & ->).
  destruct (fetch_data_requests self w) as (Hd & Hr).
  destruct (DucoboxCoordinator.duco_client self) as [c|].
  - destruct Hr as (-> & ->).
    destruct (is_ok (get_info c (info_requests w))); repeat split; auto; lia.
  - destruct Hr as (-> & ->). repeat split; auto; lia.
Qed.

(** The first request of [flaky_client] times out: the update fails with
    that time-out as its cause, although a second request would succeed,
    and one request was sent. *)
Lemma update_failure_is_surfaced_once_witness :
  fst (DucoboxCoordinator._async_update_data
         {| DucoboxCoordinator.duco_client := Some flaky_client |} initial_runtime)
  = Raise (Exn UpdateFailed
               "Failed to fetch data from Ducobox API: timed out"
               (Some (Exn (OtherException "Timeout") "timed out" None))) /\
  get_info flaky_client 1 = Ok (PyDict sample_info) /\
  info_requests
    (snd (DucoboxCoordinator._async_update_data
            {| DucoboxCoordinator.duco_client := Some flaky_client |} initial_runtime))
  = 1%nat.
Proof.
  destruct update_failure_is_surfaced_once as (H & _ & Hi & _).
  split; [|split; reflexivity].
  apply (H _ _ (Exn (OtherException "Timeout") "timed out" None)).
  apply (Hi _ flaky_client); reflexivity.
Defined.

(** ** The per-node-type table *)

Lemma NODE_SENSORS_keys :
  dom NODE_SENSORS
  = ({[ "BOX"; "UCCO2"; "BSRH"; "VLVRH"; "VLVCO2"; "VLVCO2RH"; "UCBAT" ]} : gset string).
Proof. vm_compute. reflexivity. Qed.

Lemma node_sensors_outside node_type :
  hashable node_type = true ->
  (forall s, node_type = PyStr s -> s ∉ dom NODE_SENSORS) ->
  node_sensors node_type = Ok [].
Proof.
  intros Hh Hs. unfold node_sensors, dict_get.
  destruct node_type as [| | | | s | |]; try reflexivity; try discriminate Hh.
  specialize (Hs s eq_refl). apply not_elem_of_dom in Hs. now rewrite Hs.
Qed.

Lemma node_sensors_inside s l :
  NODE_SENSORS !! s = Some l -> node_sensors (PyStr s) = Ok l.
Proof. intros H. unfold node_sensors, dict_get. now rewrite H. Qed.

(** C7.  The per-node-type table is keyed by exactly the seven type codes
    BOX, UCCO2, BSRH, VLVRH, VLVCO2, VLVCO2RH and UCBAT; the set-up's lookup
    returns the table's entry for a type in this set and the empty list for
    a node type outside it. *)
Theorem node_sensors_keyed_by_seven_types :
  dom NODE_SENSORS
  = ({[ "BOX"; "UCCO2"; "BSRH"; "VLVRH"; "VLVCO2"; "VLVCO2RH"; "UCBAT" ]} : gset string) /\
  (forall s l, NODE_SENSORS !! s = Some l -> node_sensors (PyStr s) = Ok l) /\
  (forall node_type,
     hashable node_type = true ->
     (forall s, node_type = PyStr s -> s ∉ dom NODE_SENSORS) ->
     node_sensors node_type = Ok []).
Proof.
  split; [exact NODE_SENSORS_keys|].
  split; [exact node_sensors_inside|exact node_sensors_outside].
Qed.

(** A node whose document carries no type is given the type ['Unknown'],
    which is no key of the table. *)
Lemma node_sensors_keyed_by_seven_types_witness :
  node_type_of (PyDict ∅) = Ok (PyStr "Unknown") /\
  node_sensors (PyStr "Unknown") = Ok [].
Proof.
  split; [reflexivity|].
  destruct node_sensors_keyed_by_seven_types as (Hk & _ & H).
  apply H; [reflexivity|].
  intros s Hs. injection Hs as <-.
  apply not_elem_of_dom. vm_compute. reflexivity.
Defined.

(** ** The entities *)

Lemma sensor_native_value_outcome self w :
  DucoboxSensorEntity.native_value self w
  = match s_value_fn (DucoboxSensorEntity.entity_description self) (data w) with
    | Ok v => (Ok v, w)
    | Raise e =>
        (Ok PyNone,
         {| data := data w;
            last_update_success := last_update_success w;
            info_requests := info_requests w;
            nodes_requests := nodes_requests w;
            log := log w ++ [Debug_error_getting_value
                               (DucoboxSensorEntity._attr_name self) e] |})
    end.
Proof.
  unfold DucoboxSensorEntity.native_value, hass_try, hass_bind,
    coordinator_data, lift, logger, hass_ret.
  destruct (s_value_fn _ _); reflexivity.
Qed.

(** C8.  A box sensor reads its value through the accessor of its
    description: the value is [value_fn(data)] when that application returns,
    and [None] when it raises; reading never changes the coordinator's cached
    data (an exception leaves one debug record in the log). *)
Theorem sensor_native_value_reads_through_value_fn :
  forall (self : DucoboxSensorEntity.t) (w : runtime),
    fst (DucoboxSensorEntity.native_value self w)
    = Ok (match s_value_fn (DucoboxSensorEntity.entity_description self) (data w) with
          | Ok v => v
          | Raise _ => PyNone
          end) /\
    data (snd (DucoboxSensorEntity.native_value self w)) = data w /\
    last_update_success (snd (DucoboxSensorEntity.native_value self w))
    = last_update_success w /\
    log (snd (DucoboxSensorEntity.native_value self w))
    = log w ++ match s_value_fn (DucoboxSensorEntity.entity_description self) (data w) with
               | Ok _ => []
               | Raise e =>
                   [Debug_error_getting_value (DucoboxSensorEntity._attr_name self) e]
               end.
Proof.
  intros self w. rewrite sensor_native_value_outcome.
  destruct (s_value_fn _ _); simpl; repeat split; auto.
  now rewrite app_nil_r.
Qed.

(** The accessor of the sample entity is the first row of the box table;
    it reads 21.5 from a reading of 215, and [None], with one record in the
    log, from a reading that is a string (dividing it raises [TypeError]). *)
Example sample_temperature_entity_in_table :
  SENSORS reject_all !! 0%nat
  = Some (DucoboxSensorEntity.entity_description sample_temperature_entity).
Proof. reflexivity. Qed.

Example sensor_native_value_reading :
  fst (DucoboxSensorEntity.native_value sample_temperature_entity
         (runtime_with (temperature_document (PyInt 215))))
  = Ok (PyFloat (literal 215 10)).
Proof. vm_compute. reflexivity. Qed.

Example sensor_native_value_catches :
  DucoboxSensorEntity.native_value sample_temperature_entity
    (runtime_with (temperature_document (PyStr "n/a")))
  = (Ok PyNone,
     {| data := temperature_document (PyStr "n/a");
        last_update_success := true;
        info_requests := 1;
        nodes_requests := 1;
        log := [Debug_error_getting_value "aabb Outdoor Temperature"
                  (Exn TypeError "unsupported operand type(s) for /" None)] |}).
Proof. vm_compute. reflexivity. Qed.

(** What a fetch returns is a mapping a node sensor can read: its ['Nodes']
    are dicts. *)
Lemma fetch_data_nodes_are_dicts self w d :
  fst (DucoboxCoordinator._fetch_data self w) = Ok d ->
  exists m nodes,
    d = PyDict m /\ m !! "Nodes" = Some (PyList nodes) /\
    Forall (fun node => isinstance_dict node = true) nodes.
Proof.
  intros H. rewrite fetch_data_outcome in H.
  destruct (DucoboxCoordinator.duco_client self) as [c|]; [|discriminate].
  destruct (get_info c (info_requests w)) as [info|]; [|discriminate].
  destruct (get_nodes c (nodes_requests w)) as [r|]; [|discriminate].
  rewrite !bind_Ok, merged_nodes_spec in H.
  destruct (merged_nodes r) as [nodes|] eqn:Hn; [|discriminate].
  rewrite bind_Ok, setitem_info_mapping in H.
  destruct (info_mapping info) as [m|]; [|discriminate].
  injection H as <-. exists (<["Nodes" := PyList nodes]> m), nodes.
  split; [reflexivity|]. split; [apply lookup_insert_eq|].
  destruct r as [|[] [| |l]]; simpl in Hn; try discriminate;
    injection Hn as <-; try constructor.
  apply Forall_fmap, Forall_true. reflexivity.
Qed.

(** The loop over a list of node dicts stops at the first node whose
    ['Node'] field equals the stored id. *)
Lemma for_node_in_finds_first self nodes : forall w,
  Forall (fun node => isinstance_dict node = true) nodes ->
  fst (DucoboxNodeSensorEntity.for_node_in self nodes w)
  = Ok (match find (node_matches (DucoboxNodeSensorEntity._node_id self)) nodes with
        | Some node =>
            match n_value_fn (DucoboxNodeSensorEntity.entity_description self) node with
            | Ok v => v
            | Raise _ => PyNone
            end
        | None => PyNone
        end) /\
  data (snd (DucoboxNodeSensorEntity.for_node_in self nodes w)) = data w.
Proof.
  induction nodes as [|node nodes IH]; intros w Hd.
  - split; reflexivity.
  - inversion Hd as [|? ? Hnode Hnodes]; subst.
    destruct node as [| | | | | |d]; try discriminate Hnode.
    simpl. unfold hass_bind, lift, hass_try, logger, hass_ret. simpl.
    destruct (py_eq (default PyNone (d !! "Node"))
                    (DucoboxNodeSensorEntity._node_id self)).
    + destruct (n_value_fn _ _); split; reflexivity.
    + apply IH. assumption.
Qed.

(** C9.  On a coordinator mapping whose ['Nodes'] key is absent or bound to
    a list of node dicts, a node sensor returns the accessor's value on the
    first node whose ['Node'] field equals the stored node id ([None] when
    the accessor raises), and [None] when no node matches or the key is
    absent; the cached data is left as it was. *)
Theorem node_native_value_reads_first_matching_node :
  forall (self : DucoboxNodeSensorEntity.t) (w : runtime) (m : gmap string pyobj),
    data w = PyDict m ->
    (m !! "Nodes" = None ->
     fst (DucoboxNodeSensorEntity.native_value self w) = Ok PyNone) /\
    (forall nodes,
       m !! "Nodes" = Some (PyList nodes) ->
       Forall (fun node => isinstance_dict node = true) nodes ->
       fst (DucoboxNodeSensorEntity.native_value self w)
       = Ok (match find (node_matches (DucoboxNodeSensorEntity._node_id self)) nodes with
             | Some node =>
                 match n_value_fn (DucoboxNodeSensorEntity.entity_description self) node with
                 | Ok v => v
                 | Raise _ => PyNone
                 end
             | None => PyNone
             end) /\
       data (snd (DucoboxNodeSensorEntity.native_value self w)) = data w).
Proof.
  intros self w m Hdata.
  unfold DucoboxNodeSensorEntity.native_value, hass_bind, coordinator_data, lift.
  rewrite Hdata. unfold py_get, dict_get. split.
  - intros ->. reflexivity.
  - intros nodes -> Hd. simpl.
    destruct (for_node_in_finds_first self nodes w Hd) as [H1 H2].
    split; [exact H1|]. rewrite H2. exact Hdata.
Qed.

Example sample_co2_entity_in_table :
  NODE_SENSORS !! "UCCO2" ≫= (fun l => l !! 1%nat)
  = Some (DucoboxNodeSensorEntity.entity_description sample_co2_entity).
Proof. reflexivity. Qed.

(** Node 2 of the sample reports 612 ppm. *)
Lemma node_native_value_reads_first_matching_node_witness :
  fst (DucoboxNodeSensorEntity.native_value sample_co2_entity sample_runtime)
  = Ok (PyInt 612).
Proof.
  destruct (node_native_value_reads_first_matching_node
              sample_co2_entity sample_runtime _ eq_refl) as [_ H].
  destruct (H [PyDict (dict sample_node)]) as [H1 _].
  - vm_compute. reflexivity.
  - repeat constructor.
  - rewrite H1. vm_compute. reflexivity.
Defined.

(** ** The humidity sensors wired to [_process_node_iaq] *)

(** C10.  [_process_node_iaq] and [_process_node_humidity] are the same
    function, the identity (so [None] goes to [None]).  The ['Rh'] sensors
    of the node types VLVRH and VLVCO2RH pass their reading through
    [_process_node_iaq]; on every node they yield what they would yield
    through [_process_node_humidity]. *)
Theorem node_iaq_equals_node_humidity :
  (forall value, _process_node_iaq value = _process_node_humidity value) /\
  (forall value, _process_node_iaq value = value) /\
  (forall value, _process_node_humidity value = value) /\
  (exists d,
     rh_sensor "VLVRH" = Some d /\
     n_name d = "Relative Humidity"%string /\
     n_value_fn d
     = (fun node => _process_node_iaq
                      <$> safe_get node [PyStr "Sensor"; PyStr "data"; PyStr "Rh"]) /\
     forall node,
       n_value_fn d node
       = _process_node_humidity
           <$> safe_get node [PyStr "Sensor"; PyStr "data"; PyStr "Rh"]) /\
  (exists d,
     rh_sensor "VLVCO2RH" = Some d /\
     n_name d = "Relative Humidity"%string /\
     n_value_fn d
     = (fun node => _process_node_iaq
                      <$> safe_get node [PyStr "Sensor"; PyStr "data"; PyStr "Rh"]) /\
     forall node,
       n_value_fn d node
       = _process_node_humidity
           <$> safe_get node [PyStr "Sensor"; PyStr "data"; PyStr "Rh"]).
Proof.
  split; [reflexivity|].
  split; [intros []; reflexivity|].
  split; [intros []; reflexivity|].
  split; (eexists; split; [reflexivity|]; split; [reflexivity|]; split;
          [reflexivity|intros node; reflexivity]).
Qed.

(** ** More on [safe_get] *)

Lemma safe_get_None keys : safe_get PyNone keys = Ok PyNone.
Proof. destruct keys; reflexivity. Qed.

(** X1.  Paths compose: reading along [ks1 ++ ks2] is reading along [ks1]
    and then, from the value found, along [ks2]; an exception of the first
    walk is the exception of the whole. *)
Theorem safe_get_app :
  forall data ks1 ks2,
    safe_get data (ks1 ++ ks2) = safe_get data ks1 ≫= fun v => safe_get v ks2.
Proof.
  intros data ks1. revert data.
  induction ks1 as [|k ks1 IH]; intros data ks2; [reflexivity|].
  destruct data as [| | | | | |d]; simpl; try (now rewrite safe_get_None).
  destruct (dict_get d k PyNone) as [v|e]; simpl; [apply IH|reflexivity].
Qed.

(** ** The rows of the tables *)

Lemma NODE_SENSORS_rows (P : string -> list DucoboxNodeSensorEntityDescription -> Prop) :
  P "BOX"%string NODE_SENSORS_BOX ->
  P "UCCO2"%string NODE_SENSORS_UCCO2 ->
  P "BSRH"%string NODE_SENSORS_BSRH ->
  P "VLVRH"%string NODE_SENSORS_VLVRH ->
  P "VLVCO2"%string NODE_SENSORS_VLVCO2 ->
  P "VLVCO2RH"%string NODE_SENSORS_VLVCO2RH ->
  P "UCBAT"%string NODE_SENSORS_UCBAT ->
  forall t l, NODE_SENSORS !! t = Some l -> P t l.
Proof.
  intros H1 H2 H3 H4 H5 H6 H7 t l H.
  unfold NODE_SENSORS in H. apply elem_of_list_to_map_2 in H.
  repeat (apply elem_of_cons in H as [H|H]; [injection H as -> ->; assumption|]).
  apply elem_of_nil in H. contradiction.
Qed.

Lemma NODE_SENSORS_rows_consistent t l :
  NODE_SENSORS !! t = Some l ->
  Forall (row_consistent t) l /\ NoDup (n_key <$> l).
Proof.
  revert t l. apply NODE_SENSORS_rows;
    (split; [repeat constructor|]);
    apply (bool_decide_unpack _); vm_compute; exact I.
Qed.

Lemma NODE_SENSORS_rows_read_field t l :
  NODE_SENSORS !! t = Some l ->
  Forall (fun d => forall node,
            n_value_fn d node = Ok (safe_get_spec node (node_field_path (n_key d)))) l.
Proof.
  revert t l. apply NODE_SENSORS_rows; repeat constructor;
    (intros node; cbn [n_value_fn n_key];
     rewrite safe_get_refines_spec by (repeat constructor);
     match goal with
     | |- context [node_field_path ?k] =>
         let p := eval vm_compute in (node_field_path k) in
         change (node_field_path k) with p
     end;
     cbn [fmap result_fmap];
     destruct (safe_get_spec _ _); reflexivity).
Qed.

(** X2.  Every row of the per-node-type table lies under its own type code
    and repeats its key as its sensor key, and no two rows of one node type
    share a key (the key ends the unique id of the row's entity). *)
Theorem NODE_SENSORS_rows_are_consistent :
  forall t l,
    NODE_SENSORS !! t = Some l ->
    (forall d, d ∈ l -> n_node_type d = t /\ n_sensor_key d = n_key d) /\
    NoDup (n_key <$> l).
Proof.
  intros t l H. destruct (NODE_SENSORS_rows_consistent t l H) as [Hc Hn].
  split; [|exact Hn]. intros d Hd.
  rewrite Forall_forall in Hc. exact (Hc d Hd).
Qed.

Lemma NODE_SENSORS_rows_are_consistent_witness :
  NoDup (n_key <$> NODE_SENSORS_VLVCO2RH).
Proof.
  apply (NODE_SENSORS_rows_are_consistent "VLVCO2RH" NODE_SENSORS_VLVCO2RH).
  reflexivity.
Defined.

(** X3.  A node sensor reads, unprocessed, the field of the node document
    that its key names: [Ventilation.<key>] for the five ventilation keys
    and [Sensor.data.<key>] for the others.  It never raises, and a node
    without the field reads [None]. *)
Theorem node_sensors_read_their_field :
  forall t l d node,
    NODE_SENSORS !! t = Some l -> d ∈ l ->
    n_value_fn d node = Ok (safe_get_spec node (node_field_path (n_key d))).
Proof.
  intros t l d node H Hd.
  pose proof (NODE_SENSORS_rows_read_field t l H) as Hf.
  rewrite Forall_forall in Hf. exact (Hf d Hd node).
Qed.

Lemma SENSORS_rows_missing_field float_of_str :
  Forall (fun d =>
            exists k1 k2 k3, forall data,
              safe_get_spec data [PyStr k1; PyStr k2; PyStr k3; PyStr "Val"] = PyNone ->
              s_value_fn d data = Ok PyNone)
         (SENSORS float_of_str).
Proof.
  unfold SENSORS.
  repeat constructor;
    (eexists _, _, _; intros data H; cbn [s_value_fn];
     rewrite safe_get_refines_spec by (repeat constructor);
     rewrite H; reflexivity).
Qed.

Lemma safe_get_spec_not_dict_path data keys :
  isinstance_dict data = false -> keys <> [] -> safe_get_spec data keys = PyNone.
Proof.
  intros Hd Hk. destruct keys as [|k keys]; [contradiction|].
  now apply safe_get_spec_not_dict.
Qed.

(** X4.  A box sensor reads [None], without raising, whenever the field it
    reads (a path of three keys and ['Val']) is missing or holds [None]; in
    particular on a cache that is no mapping, such as [None], and on the
    empty mapping. *)
Theorem box_sensors_read_None_without_field :
  forall float_of_str d,
    d ∈ SENSORS float_of_str ->
    (exists k1 k2 k3, forall data,
        safe_get_spec data [PyStr k1; PyStr k2; PyStr k3; PyStr "Val"] = PyNone ->
        s_value_fn d data = Ok PyNone) /\
    (forall data, isinstance_dict data = false -> s_value_fn d data = Ok PyNone) /\
    s_value_fn d (PyDict ∅) = Ok PyNone.
Proof.
  intros parse d Hd.
  pose proof (SENSORS_rows_missing_field parse) as Hf.
  rewrite Forall_forall in Hf. destruct (Hf d Hd) as (k1 & k2 & k3 & H).
  split; [exists k1, k2, k3; exact H|]. split.
  - intros data Hn. apply H. now apply safe_get_spec_not_dict_path.
  - apply H. reflexivity.
Qed.

Lemma node_sensors_read_their_field_witness :
  n_value_fn (DucoboxNodeSensorEntity.entity_description sample_co2_entity)
             (PyDict (dict sample_node))
  = Ok (safe_get_spec (PyDict (dict sample_node)) (node_field_path "Co2")).
Proof.
  apply (node_sensors_read_their_field "UCCO2" NODE_SENSORS_UCCO2).
  - reflexivity.
  - apply (list_elem_of_lookup_2 _ 1%nat). reflexivity.
Defined.

Lemma box_sensors_read_None_without_field_witness :
  s_value_fn (DucoboxSensorEntity.entity_description sample_temperature_entity) PyNone
  = Ok PyNone.
Proof.
  destruct (box_sensors_read_None_without_field reject_all
              (DucoboxSensorEntity.entity_description sample_temperature_entity))
    as (_ & H & _).
  - apply (list_elem_of_lookup_2 _ 0%nat). reflexivity.
  - apply H. reflexivity.
Defined.

Lemma process_speed_id value : _process_speed value = value.
Proof. destruct value; reflexivity. Qed.

Lemma process_rssi_id value : _process_rssi value = value.
Proof. destruct value; reflexivity. Qed.

Lemma process_uptime_id value : _process_uptime value = value.
Proof. destruct value; reflexivity. Qed.

Lemma process_timefilterremain_id value : _process_timefilterremain value = value.
Proof. destruct value; reflexivity. Qed.

Lemma SENSORS_rows_pass_through float_of_str :
  Forall (fun d =>
            s_key d ∈ pass_through_keys ->
            exists k1 k2, forall data,
              s_value_fn d data
              = Ok (safe_get_spec data [PyStr k1; PyStr k2; PyStr (s_key d); PyStr "Val"]))
         (SENSORS float_of_str).
Proof.
  unfold SENSORS.
  repeat (apply Forall_cons; split;
          [cbn [s_key]; intros Hk;
           first
             [ eexists _, _; intros data; cbn [s_value_fn];
               rewrite safe_get_refines_spec by (repeat constructor);
               cbn [fmap result_fmap];
               rewrite ?process_speed_id, ?process_rssi_id, ?process_uptime_id,
                 ?process_timefilterremain_id; reflexivity
             | exfalso; unfold pass_through_keys in Hk;
               rewrite !elem_of_cons, elem_of_nil in Hk; intuition discriminate ]|]).
  apply Forall_nil_2.
Qed.

(** X5.  The fan-speed, signal-strength, uptime and filter-time sensors pass
    the reading through: each returns, unchanged and without raising, the
    ['Val'] stored under its own key. *)
Theorem pass_through_sensors_read_raw_value :
  forall float_of_str d,
    d ∈ SENSORS float_of_str ->
    s_key d ∈ pass_through_keys ->
    exists k1 k2, forall data,
      s_value_fn d data
      = Ok (safe_get_spec data [PyStr k1; PyStr k2; PyStr (s_key d); PyStr "Val"]).
Proof.
  intros parse d Hd Hk.
  pose proof (SENSORS_rows_pass_through parse) as Hf.
  rewrite Forall_forall in Hf. exact (Hf d Hd Hk).
Qed.

Lemma pass_through_sensors_read_raw_value_witness :
  exists k1 k2, forall data,
    s_value_fn sample_uptime_description data
    = Ok (safe_get_spec data [PyStr k1; PyStr k2; PyStr "UpTime"; PyStr "Val"]).
Proof.
  apply (pass_through_sensors_read_raw_value reject_all sample_uptime_description).
  - apply (list_elem_of_lookup_2 _ 9%nat). reflexivity.
  - apply (list_elem_of_lookup_2 _ 3%nat). reflexivity.
Defined.

(** ** Order and exactness of the conversions *)

(** The value of a result that is a finite float is the tenth, rounded, of
    the value of the input. *)
Lemma round_q_tenth_below_overflow n :
  0 <= n < 2 ^ 53 * scale -> round_q n 10 < overflow_bound.
Proof.
  intros Hn. pose proof scale_pos as Hs.
  pose proof (round_q_int_over_itself (2 ^ 53 - 1) 10 ltac:(lia) ltac:(lia)) as E.
  pose proof (round_q_mono n 10 ((2 ^ 53 - 1) * scale * 10) 10
                ltac:(lia) ltac:(lia) ltac:(nia) ltac:(lia) ltac:(nia)) as M.
  pose proof (scale_below_overflow (2 ^ 53 - 1) ltac:(lia)). lia.
Qed.

Lemma process_temperature_bool b :
  _process_temperature (PyBool b) = _process_temperature (PyInt (Z.b2z b)).
Proof. unfold _process_temperature, py_truediv, as_number. reflexivity. Qed.

Lemma process_temperature_value v k :
  exact_value v = Some k -> Z.abs k < 2 ^ 53 * scale ->
  exists s m,
    _process_temperature v = Ok (PyFloat (FFin s m)) /\
    signed s m = Z.sgn k * round_q (Z.abs k) 10.
Proof.
  pose proof scale_pos as Hs.
  assert (Hint : forall z, Z.abs (z * scale) < 2 ^ 53 * scale ->
            exists s m,
              _process_temperature (PyInt z) = Ok (PyFloat (FFin s m)) /\
              signed s m = Z.sgn (z * scale) * round_q (Z.abs (z * scale)) 10).
  { intros z Hz. rewrite Z.abs_mul, (Z.abs_eq scale) in * by lia.
    assert (Hz' : Z.abs z < 2 ^ 53) by nia.
    rewrite process_temperature_int by assumption.
    rewrite round_fin_in_range by (apply round_q_tenth_below_overflow; lia).
    eexists _, _. split; [reflexivity|].
    pose proof (round_q_nonneg (Z.abs z * scale) 10 ltac:(lia) ltac:(lia)) as Hr.
    unfold signed. rewrite Z2N.id by assumption.
    destruct (Z.ltb_spec z 0).
    - replace (Z.sgn (z * scale)) with (-1) by (symmetry; apply Z.sgn_neg; nia). lia.
    - destruct (Z.eq_dec z 0) as [->|Hne].
      + rewrite Z.mul_0_l. change (Z.abs 0 * scale) with (0 * scale).
        rewrite Z.mul_0_l, round_q_zero by lia. reflexivity.
      + replace (Z.sgn (z * scale)) with 1 by (symmetry; apply Z.sgn_pos; nia). lia. }
  destruct v as [| b | z | [| |s m] | | |]; unfold exact_value; intros E Hk;
    try discriminate E; injection E as <-.
  - rewrite process_temperature_bool. apply Hint. exact Hk.
  - apply Hint. exact Hk.
  - rewrite process_temperature_float.
    assert (Ha : Z.abs (signed s m) = Z.of_N m) by (destruct s; unfold signed; lia).
    rewrite Ha in *.
    rewrite round_fin_in_range by (apply round_q_tenth_below_overflow; lia).
    eexists _, _. split; [reflexivity|].
    pose proof (round_q_nonneg (Z.of_N m) 10 ltac:(lia) ltac:(lia)) as Hr.
    unfold signed at 1. rewrite Z2N.id by assumption.
    destruct (N.eq_dec m 0%N) as [->|Hne].
    + change (Z.of_N 0) with 0. rewrite round_q_zero by lia. destruct s; lia.
    + destruct s; unfold signed.
      * replace (Z.sgn (- Z.of_N m)) with (-1) by (symmetry; apply Z.sgn_neg; lia). lia.
      * replace (Z.sgn (Z.of_N m)) with 1 by (symmetry; apply Z.sgn_pos; lia). lia.
Qed.

Lemma signed_rounding_mono (f : Z -> Z) k1 k2 :
  (forall a, 0 <= a -> 0 <= f a) ->
  (forall a b, 0 <= a <= b -> f a <= f b) ->
  k1 <= k2 -> Z.sgn k1 * f (Z.abs k1) <= Z.sgn k2 * f (Z.abs k2).
Proof.
  intros Hpos Hmono H.
  pose proof (Hpos (Z.abs k1) ltac:(lia)). pose proof (Hpos (Z.abs k2) ltac:(lia)).
  destruct (Z.sgn_spec k1) as [[? ->]|[[? ->]|[? ->]]];
    destruct (Z.sgn_spec k2) as [[? ->]|[[? ->]|[? ->]]]; try lia.
  - pose proof (Hmono (Z.abs k1) (Z.abs k2) ltac:(lia)). lia.
  - pose proof (Hmono (Z.abs k2) (Z.abs k1) ltac:(lia)). lia.
Qed.

(** X6.  The temperature conversion keeps the order of the readings: for
    ints, bools and floats below [2^53] in magnitude, a reading that is not
    smaller yields a finite float that is not smaller. *)
Theorem process_temperature_is_monotone :
  forall v1 v2 k1 k2,
    exact_value v1 = Some k1 -> exact_value v2 = Some k2 ->
    Z.abs k1 < 2 ^ 53 * scale -> Z.abs k2 < 2 ^ 53 * scale ->
    k1 <= k2 ->
    exists s1 m1 s2 m2,
      _process_temperature v1 = Ok (PyFloat (FFin s1 m1)) /\
      _process_temperature v2 = Ok (PyFloat (FFin s2 m2)) /\
      signed s1 m1 <= signed s2 m2.
Proof.
  intros v1 v2 k1 k2 E1 E2 B1 B2 H.
  destruct (process_temperature_value v1 k1 E1 B1) as (s1 & m1 & R1 & V1).
  destruct (process_temperature_value v2 k2 E2 B2) as (s2 & m2 & R2 & V2).
  exists s1, m1, s2, m2. split; [exact R1|]. split; [exact R2|].
  rewrite V1, V2.
  apply (signed_rounding_mono (fun a => round_q a 10)); [| |exact H].
  - intros a Ha. apply round_q_nonneg; lia.
  - intros a b Hab. apply round_q_mono; lia.
Qed.

(** Minus half a degree and 21.5 degrees' worth of tenths. *)
Lemma process_temperature_is_monotone_witness :
  exists s1 m1 s2 m2,
    _process_temperature (PyInt (-5)) = Ok (PyFloat (FFin s1 m1)) /\
    _process_temperature (PyFloat (literal 215 1)) = Ok (PyFloat (FFin s2 m2)) /\
    signed s1 m1 <= signed s2 m2.
Proof.
  apply (process_temperature_is_monotone
           (PyInt (-5)) (PyFloat (literal 215 1)) (-5 * scale) (215 * scale)).
  - reflexivity.
  - vm_compute. reflexivity.
  - vm_compute. reflexivity.
  - vm_compute. reflexivity.
  - vm_compute. discriminate.
Defined.

(** X7.  Whole degrees come out exact: a reading of [10 * k] tenths, with
    [k] below [2^49] in magnitude, yields the float [k]. *)
Theorem process_temperature_whole_degrees :
  forall k,
    Z.abs k < 2 ^ 49 ->
    _process_temperature (PyInt (10 * k))
    = Ok (PyFloat (FFin (k <? 0) (Z.to_N (Z.abs k * scale)))) /\
    int_to_float k = Ok (FFin (k <? 0) (Z.to_N (Z.abs k * scale))).
Proof.
  intros k Hk. pose proof scale_pos as Hs.
  split; [|apply int_to_float_small; lia].
  rewrite process_temperature_int by lia.
  replace (10 * k <? 0) with (k <? 0)
    by (destruct (Z.ltb_spec k 0), (Z.ltb_spec (10 * k) 0); lia).
  replace (Z.abs (10 * k) * scale) with (Z.abs k * scale * 10) by lia.
  replace 10 with (1 * 10) at 2 by lia.
  rewrite round_fin_scale by nia.
  rewrite round_fin_in_range; rewrite round_q_small_int by lia;
    [reflexivity|apply scale_below_overflow; lia].
Qed.

Lemma process_temperature_whole_degrees_witness :
  _process_temperature (PyInt 210) = Ok (PyFloat (FFin false (Z.to_N (21 * scale)))).
Proof.
  destruct (process_temperature_whole_degrees 21) as [H _].
  - vm_compute. reflexivity.
  - exact H.
Defined.

Lemma process_pressure_int float_of_str z :
  Z.abs z < 2 ^ 53 ->
  _process_pressure float_of_str (PyInt z)
  = _process_pressure float_of_str
      (PyFloat (FFin (z <? 0) (Z.to_N (Z.abs z * scale)))).
Proof.
  intros H. unfold _process_pressure, py_float.
  rewrite int_to_float_small by assumption. reflexivity.
Qed.

Lemma process_pressure_bool float_of_str b :
  _process_pressure float_of_str (PyBool b)
  = _process_pressure float_of_str (PyInt (Z.b2z b)).
Proof. unfold _process_pressure, py_float. reflexivity. Qed.

Lemma round_q_tenth_product_below_overflow n :
  0 <= n < 2 ^ 53 * scale ->
  round_q (n * 3602879701896397) (2 ^ 55) < overflow_bound.
Proof.
  intros Hn. pose proof scale_pos as Hs.
  pose proof (round_q_int_over_itself (2 ^ 53 - 1) (2 ^ 55) ltac:(lia) ltac:(lia)) as E.
  pose proof (round_q_mono (n * 3602879701896397) (2 ^ 55)
                ((2 ^ 53 - 1) * scale * 2 ^ 55) (2 ^ 55)
                ltac:(lia) ltac:(lia) ltac:(nia) ltac:(lia) ltac:(nia)) as M.
  pose proof (scale_below_overflow (2 ^ 53 - 1) ltac:(lia)). lia.
Qed.

Lemma process_pressure_value float_of_str v k :
  exact_value v = Some k -> Z.abs k < 2 ^ 53 * scale ->
  exists s m,
    _process_pressure float_of_str v = Ok (PyFloat (FFin s m)) /\
    signed s m = Z.sgn k * round_q (Z.abs k * 3602879701896397) (2 ^ 55).
Proof.
  pose proof scale_pos as Hs.
  assert (Hfloat : forall s m, Z.of_N m < 2 ^ 53 * scale ->
            exists s' m',
              _process_pressure float_of_str (PyFloat (FFin s m))
              = Ok (PyFloat (FFin s' m')) /\
              signed s' m'
              = Z.sgn (signed s m)
                * round_q (Z.abs (signed s m) * 3602879701896397) (2 ^ 55)).
  { intros s m Hm. rewrite process_pressure_float.
    assert (Ha : Z.abs (signed s m) = Z.of_N m) by (destruct s; unfold signed; lia).
    rewrite Ha.
    rewrite round_fin_in_range by (apply round_q_tenth_product_below_overflow; lia).
    eexists _, _. split; [reflexivity|].
    pose proof (round_q_nonneg (Z.of_N m * 3602879701896397) (2 ^ 55)
                  ltac:(lia) ltac:(lia)) as Hr.
    unfold signed at 1. rewrite Z2N.id by assumption.
    destruct (N.eq_dec m 0%N) as [->|Hne].
    + change (Z.of_N 0) with 0. rewrite Z.mul_0_l, round_q_zero by lia.
      destruct s; lia.
    + destruct s; unfold signed.
      * replace (Z.sgn (- Z.of_N m)) with (-1) by (symmetry; apply Z.sgn_neg; lia). lia.
      * replace (Z.sgn (Z.of_N m)) with 1 by (symmetry; apply Z.sgn_pos; lia). lia. }
  assert (Hint : forall z, Z.abs (z * scale) < 2 ^ 53 * scale ->
            exists s m,
              _process_pressure float_of_str (PyInt z) = Ok (PyFloat (FFin s m)) /\
              signed s m
              = Z.sgn (z * scale)
                * round_q (Z.abs (z * scale) * 3602879701896397) (2 ^ 55)).
  { intros z Hz.
    assert (Hz' : Z.abs z < 2 ^ 53)
      by (rewrite Z.abs_mul, (Z.abs_eq scale) in Hz by lia; nia).
    rewrite process_pressure_int by assumption.
    assert (Hv : signed (z <? 0) (Z.to_N (Z.abs z * scale)) = z * scale).
    { unfold signed. rewrite Z2N.id by nia. destruct (Z.ltb_spec z 0); nia. }
    rewrite <- Hv. apply Hfloat. rewrite Z2N.id by nia. nia. }
  destruct v as [| b | z | [| |s m] | | |]; unfold exact_value; intros E Hk;
    try discriminate E; injection E as <-.
  - rewrite process_pressure_bool. apply Hint. exact Hk.
  - apply Hint. exact Hk.
  - apply Hfloat. destruct s; unfold signed in Hk; lia.
Qed.

(** X8.  The pressure conversion keeps the order of the readings, on the
    same inputs. *)
Theorem process_pressure_is_monotone :
  forall float_of_str v1 v2 k1 k2,
    exact_value v1 = Some k1 -> exact_value v2 = Some k2 ->
    Z.abs k1 < 2 ^ 53 * scale -> Z.abs k2 < 2 ^ 53 * scale ->
    k1 <= k2 ->
    exists s1 m1 s2 m2,
      _process_pressure float_of_str v1 = Ok (PyFloat (FFin s1 m1)) /\
      _process_pressure float_of_str v2 = Ok (PyFloat (FFin s2 m2)) /\
      signed s1 m1 <= signed s2 m2.
Proof.
  intros parse v1 v2 k1 k2 E1 E2 B1 B2 H.
  destruct (process_pressure_value parse v1 k1 E1 B1) as (s1 & m1 & R1 & V1).
  destruct (process_pressure_value parse v2 k2 E2 B2) as (s2 & m2 & R2 & V2).
  exists s1, m1, s2, m2. split; [exact R1|]. split; [exact R2|].
  rewrite V1, V2.
  apply (signed_rounding_mono (fun a => round_q (a * 3602879701896397) (2 ^ 55)));
    [| |exact H].
  - intros a Ha. apply round_q_nonneg; lia.
  - intros a b Hab. apply round_q_mono; lia.
Qed.

Lemma process_pressure_is_monotone_witness :
  exists s1 m1 s2 m2,
    _process_pressure reject_all (PyInt 3) = Ok (PyFloat (FFin s1 m1)) /\
    _process_pressure reject_all (PyInt 1013) = Ok (PyFloat (FFin s2 m2)) /\
    signed s1 m1 <= signed s2 m2.
Proof.
  apply (process_pressure_is_monotone
           reject_all (PyInt 3) (PyInt 1013) (3 * scale) (1013 * scale)).
  - reflexivity.
  - reflexivity.
  - vm_compute. reflexivity.
  - vm_compute. reflexivity.
  - vm_compute. discriminate.
Defined.

(** Dyadic numbers with at most 53 significant bits are doubles. *)
Lemma round_q_dyadic a e :
  0 <= a < 2 ^ 53 -> 0 <= e -> round_q (a * 2 ^ e) 1 = a * 2 ^ e.
Proof.
  intros [Ha Hb] He. unfold round_q.
  set (s := shift_of (a * 2 ^ e) 1).
  assert (Hs : 0 <= s <= e).
  { split; [apply shift_of_nonneg|]. unfold s, shift_of.
    rewrite Z.div_1_r.
    destruct (Z.eq_dec a 0) as [->|Hne]; [rewrite Z.mul_0_l; simpl; lia|].
    rewrite Z.log2_mul_pow2 by lia.
    assert (Z.log2 a < 53) by (apply Z.log2_lt_pow2; lia). lia. }
  assert (Hp : 0 < 2 ^ s) by (apply Z.pow_pos_nonneg; lia).
  assert (E : a * 2 ^ e = a * 2 ^ (e - s) * (1 * 2 ^ s)).
  { replace e with ((e - s) + s) at 1 by lia.
    rewrite Z.pow_add_r by lia. ring. }
  rewrite E at 1. rewrite rne_div_exact by lia.
  rewrite E. ring.
Qed.

Lemma rne_div_scale n d k :
  0 <= n -> 0 < d -> 0 < k -> rne_div (n * k) (d * k) = rne_div n d.
Proof.
  intros Hn Hd Hk. apply Z.le_antisymm; apply rne_div_mono; nia.
Qed.

(** The three roundings between two dyadic bounds of [z / 255]. *)
Lemma bypass_roundings_between z lo hi :
  0 <= lo -> hi < 2 ^ 40 -> lo * 255 <= z * 2 ^ 20 <= hi * 255 ->
  rne_div (100 * lo) (2 ^ 20) <= bypass_roundings (z * scale)
  <= rne_div (100 * hi) (2 ^ 20).
Proof.
  intros Hlo Hhi Hz.
  assert (Hsc : scale = 2 ^ 20 * 2 ^ 1054).
  { unfold scale. rewrite <- Z.pow_add_r by lia. reflexivity. }
  assert (Hu : 0 < 2 ^ 1054) by (apply Z.pow_pos_nonneg; lia).
  pose proof scale_pos as Hs.
  assert (H20 : 2 ^ 20 = 1048576) by reflexivity.
  assert (H40 : 2 ^ 40 = 1099511627776) by reflexivity.
  assert (H53 : 2 ^ 53 = 9007199254740992) by reflexivity.
  unfold bypass_roundings.
  set (u := 2 ^ 1054) in *.
  assert (Ed : forall a, 0 <= a < 2 ^ 53 -> round_q (a * u) 1 = a * u).
  { intros a Ha. apply round_q_dyadic; lia. }
  clearbody u.
  set (q1 := round_q (z * scale) 255).
  assert (Hq1 : lo * u <= q1 <= hi * u).
  { split.
    - rewrite <- (Ed lo) by lia. apply round_q_mono; nia.
    - rewrite <- (Ed hi) by lia. apply round_q_mono; nia. }
  set (q2 := round_q (q1 * (100 * scale)) scale).
  assert (Hq2 : 100 * lo * u <= q2 <= 100 * hi * u).
  { split.
    - rewrite <- (Ed (100 * lo)) by lia.
      rewrite <- (round_q_scale (100 * lo * u) 1 scale) by nia.
      apply round_q_mono; nia.
    - rewrite <- (Ed (100 * hi)) by lia.
      rewrite <- (round_q_scale (100 * hi * u) 1 scale) by nia.
      apply round_q_mono; nia. }
  split.
  - rewrite <- (rne_div_scale (100 * lo) (2 ^ 20) u) by lia.
    rewrite <- Hsc. apply rne_div_mono; nia.
  - rewrite <- (rne_div_scale (100 * hi) (2 ^ 20) u) by lia.
    rewrite <- Hsc. apply rne_div_mono; nia.
Qed.

Lemma bypass_bounds_on_bytes :
  forallb (fun z =>
             let lo := z * 2 ^ 20 / 255 in
             (rne_div (100 * lo) (2 ^ 20) =? rne_div (100 * z) 255)
             && (rne_div (100 * (lo + 1)) (2 ^ 20) =? rne_div (100 * z) 255))
          (Z.of_nat <$> seq 0 256) = true.
Proof. vm_compute. reflexivity. Qed.

(** X9.  On the 256 integer positions the three float roundings lose
    nothing: the result is the integer nearest to [100 * v / 255]. *)
Theorem process_bypass_position_is_exact_on_bytes :
  forall z,
    0 <= z <= 255 ->
    _process_bypass_position (PyInt z) = Ok (PyInt (rne_div (100 * z) 255)).
Proof.
  intros z Hz. rewrite process_bypass_position_int by assumption.
  pose proof bypass_bounds_on_bytes as H.
  rewrite forallb_forall in H.
  specialize (H z). cbv zeta in H.
  rewrite andb_true_iff, !Z.eqb_eq in H.
  destruct H as [Hlo Hhi].
  { apply in_map_iff. exists (Z.to_nat z). split; [lia|]. apply in_seq. lia. }
  assert (H20 : 2 ^ 20 = 1048576) by reflexivity.
  pose proof (Z.div_mod (z * 2 ^ 20) 255 ltac:(lia)) as E.
  pose proof (Z.mod_pos_bound (z * 2 ^ 20) 255 ltac:(lia)) as B.
  pose proof (bypass_roundings_between z (z * 2 ^ 20 / 255) (z * 2 ^ 20 / 255 + 1)
                ltac:(apply Z.div_pos; lia) ltac:(nia) ltac:(lia)) as S.
  rewrite Hlo, Hhi in S. f_equal. f_equal. lia.
Qed.

Lemma process_bypass_position_is_exact_on_bytes_witness :
  _process_bypass_position (PyInt 200) = Ok (PyInt 78).
Proof.
  rewrite (process_bypass_position_is_exact_on_bytes 200) by lia.
  reflexivity.
Defined.

(** ** Inputs the conversions refuse *)

(** X10.  A reading that is neither [None] nor a number makes the
    temperature and the bypass conversion raise [TypeError].  The pressure
    conversion raises [TypeError] on a list or a dict, but hands a string to
    [float()] and scales what that parses. *)
Theorem conversions_on_non_numbers :
  forall v,
    is_numeric v = false -> v <> PyNone ->
    _process_temperature v
    = Raise (Exn TypeError "unsupported operand type(s) for /" None) /\
    _process_bypass_position v
    = Raise (Exn TypeError "unsupported operand type(s) for /" None) /\
    forall float_of_str,
      _process_pressure float_of_str v
      = match v with
        | PyStr s => float_of_str s ≫= fun f => Ok (PyFloat (fmul f lit_0_1))
        | _ => Raise (Exn TypeError
                          "float() argument must be a string or a real number" None)
        end.
Proof.
  intros v Hn Hv.
  destruct v; try discriminate Hn; try contradiction; repeat apply conj;
    try reflexivity; intros; reflexivity.
Qed.

Lemma conversions_on_non_numbers_witness :
  _process_temperature (PyStr "21.5")
  = Raise (Exn TypeError "unsupported operand type(s) for /" None).
Proof.
  apply (conversions_on_non_numbers (PyStr "21.5")); [reflexivity|discriminate].
Defined.

(** X11.  Floats that are not finite: the temperature and the pressure
    conversion return NaN for NaN and the same infinity for an infinity,
    without raising; the bypass conversion raises [ValueError] on NaN and
    [OverflowError] on an infinity, because [round] has no int to return. *)
Theorem conversions_on_non_finite_floats :
  forall float_of_str neg,
    _process_temperature (PyFloat FNan) = Ok (PyFloat FNan) /\
    _process_temperature (PyFloat (FInf neg)) = Ok (PyFloat (FInf neg)) /\
    _process_pressure float_of_str (PyFloat FNan) = Ok (PyFloat FNan) /\
    _process_pressure float_of_str (PyFloat (FInf neg)) = Ok (PyFloat (FInf neg)) /\
    _process_bypass_position (PyFloat FNan)
    = Raise (Exn ValueError "cannot convert float NaN to integer" None) /\
    _process_bypass_position (PyFloat (FInf neg))
    = Raise (Exn OverflowError "cannot convert float infinity to integer" None).
Proof.
  intros parse neg. destruct neg; repeat apply conj; vm_compute; reflexivity.
Qed.

Lemma round_q_at_overflow : round_q (2 ^ 1024 * scale) 1 = overflow_bound.
Proof. vm_compute. reflexivity. Qed.

Lemma int_to_float_overflow z :
  2 ^ 1024 <= Z.abs z ->
  int_to_float z
  = Raise (Exn OverflowError "int too large to convert to float" None).
Proof.
  intros Hz. pose proof scale_pos as Hs.
  unfold int_to_float, of_int, round_fin.
  pose proof (round_q_mono (2 ^ 1024 * scale) 1 (Z.abs z * scale) 1
                ltac:(lia) ltac:(lia) ltac:(nia) ltac:(lia) ltac:(nia)) as M.
  rewrite round_q_at_overflow in M.
  destruct (Z.ltb_spec (round_q (Z.abs z * scale) 1) overflow_bound); [lia|].
  reflexivity.
Qed.

(** X12.  An int of magnitude [2^1024] or more has no float: the temperature
    and the pressure conversion raise [OverflowError] on it. *)
Theorem conversions_overflow_on_huge_ints :
  forall float_of_str z,
    2 ^ 1024 <= Z.abs z ->
    _process_temperature (PyInt z)
    = Raise (Exn OverflowError "int too large to convert to float" None) /\
    _process_pressure float_of_str (PyInt z)
    = Raise (Exn OverflowError "int too large to convert to float" None).
Proof.
  intros parse z Hz. split.
  - unfold _process_temperature, py_truediv, as_number, number_to_float.
    rewrite int_to_float_overflow by assumption. reflexivity.
  - unfold _process_pressure, py_float.
    rewrite int_to_float_overflow by assumption. reflexivity.
Qed.

Lemma conversions_overflow_on_huge_ints_witness :
  _process_temperature (PyInt (2 ^ 1024))
  = Raise (Exn OverflowError "int too large to convert to float" None).
Proof.
  destruct (conversions_overflow_on_huge_ints reject_all (2 ^ 1024)) as [H _].
  - vm_compute. discriminate.
  - exact H.
Defined.

(** ** More on the coordinator *)

Lemma fetch_data_success self w d :
  fst (DucoboxCoordinator._fetch_data self w) = Ok d ->
  exists c info m r nodes,
    DucoboxCoordinator.duco_client self = Some c /\
    get_info c (info_requests w) = Ok info /\
    info_mapping info = Some m /\
    get_nodes c (nodes_requests w) = Ok r /\
    merged_nodes r = Some nodes /\
    d = PyDict (<["Nodes" := PyList nodes]> m).
Proof.
  rewrite fetch_data_outcome.
  destruct (DucoboxCoordinator.duco_client self) as [c|]; [|discriminate].
  destruct (get_info c (info_requests w)) as [info|] eqn:Hi; [|discriminate].
  destruct (get_nodes c (nodes_requests w)) as [r|] eqn:Hr; [|discriminate].
  rewrite !bind_Ok, merged_nodes_spec.
  destruct (merged_nodes r) as [nodes|] eqn:Hn; [|discriminate].
  rewrite bind_Ok, setitem_info_mapping.
  destruct (info_mapping info) as [m|] eqn:Hm; [|discriminate].
  intros H. injection H as <-. exists c, info, m, r, nodes. repeat split; auto.
Qed.

Lemma safe_get_insert_ne (m : gmap string pyobj) k v k' keys :
  k <> k' ->
  safe_get (PyDict (<[k := v]> m)) (PyStr k' :: keys)
  = safe_get (PyDict m) (PyStr k' :: keys).
Proof. intros H. simpl. now rewrite lookup_insert_ne. Qed.

Lemma safe_get_insert_eq (m : gmap string pyobj) k v keys :
  safe_get (PyDict (<[k := v]> m)) (PyStr k :: keys) = safe_get v keys.
Proof. simpl. now rewrite lookup_insert_eq. Qed.

(** X13.  Merging keeps what [/info] said: in the mapping a fetch returns,
    every path that does not start at ['Nodes'] reads what it reads in the
    [/info] mapping, and a path that starts at ['Nodes'] reads into the list
    of node dicts, whatever [/info] held under that key. *)
Theorem fetch_data_keeps_info :
  forall self w d,
    fst (DucoboxCoordinator._fetch_data self w) = Ok d ->
    exists c info m r nodes,
      DucoboxCoordinator.duco_client self = Some c /\
      get_info c (info_requests w) = Ok info /\
      info_mapping info = Some m /\
      get_nodes c (nodes_requests w) = Ok r /\
      merged_nodes r = Some nodes /\
      (forall key keys,
         key <> "Nodes"%string ->
         safe_get d (PyStr key :: keys) = safe_get (PyDict m) (PyStr key :: keys)) /\
      (forall keys,
         safe_get d (PyStr "Nodes" :: keys) = safe_get (PyList nodes) keys).
Proof.
  intros self w d H.
  destruct (fetch_data_success self w d H)
    as (c & info & m & r & nodes & Hc & Hi & Hm & Hr & Hn & ->).
  exists c, info, m, r, nodes. repeat split; auto.
  - intros key keys Hk. apply safe_get_insert_ne. congruence.
  - intros keys. apply safe_get_insert_eq.
Qed.

Lemma fetch_data_keeps_info_witness :
  exists c info m r nodes,
    DucoboxCoordinator.duco_client
      {| DucoboxCoordinator.duco_client := Some sample_client |} = Some c /\
    get_info c (info_requests initial_runtime) = Ok info /\
    info_mapping info = Some m /\
    get_nodes c (nodes_requests initial_runtime) = Ok r /\
    merged_nodes r = Some nodes /\
    (forall key keys,
       key <> "Nodes"%string ->
       safe_get (PyDict (<["Nodes" := PyList [PyDict (dict sample_node)]]> sample_info))
                (PyStr key :: keys)
       = safe_get (PyDict m) (PyStr key :: keys)) /\
    (forall keys,
       safe_get (PyDict (<["Nodes" := PyList [PyDict (dict sample_node)]]> sample_info))
                (PyStr "Nodes" :: keys)
       = safe_get (PyList nodes) keys).
Proof.
  apply (fetch_data_keeps_info
           {| DucoboxCoordinator.duco_client := Some sample_client |} initial_runtime).
  reflexivity.
Defined.

Lemma SENSORS_rows_ignore_nodes float_of_str :
  Forall (fun d => forall m v,
            s_value_fn d (PyDict (<["Nodes" := v]> m)) = s_value_fn d (PyDict m))
         (SENSORS float_of_str).
Proof.
  unfold SENSORS.
  repeat (apply Forall_cons; split;
          [intros m v; cbn [s_value_fn];
           rewrite safe_get_insert_ne by discriminate; reflexivity|]).
  apply Forall_nil_2.
Qed.

(** X14.  The node list does not disturb the box sensors: on the mapping a
    fetch returns, every box sensor yields what its accessor yields on the
    [/info] mapping alone. *)
Theorem box_sensors_read_info_after_fetch :
  forall float_of_str self w d desc,
    fst (DucoboxCoordinator._fetch_data self w) = Ok d ->
    desc ∈ SENSORS float_of_str ->
    exists c info m,
      DucoboxCoordinator.duco_client self = Some c /\
      get_info c (info_requests w) = Ok info /\
      info_mapping info = Some m /\
      s_value_fn desc d = s_value_fn desc (PyDict m).
Proof.
  intros parse self w d desc H Hd.
  destruct (fetch_data_success self w d H)
    as (c & info & m & r & nodes & Hc & Hi & Hm & Hr & Hn & ->).
  exists c, info, m. repeat split; auto.
  pose proof (SENSORS_rows_ignore_nodes parse) as Hf.
  rewrite Forall_forall in Hf. apply (Hf desc Hd).
Qed.

Lemma box_sensors_read_info_after_fetch_witness :
  exists c info m,
    DucoboxCoordinator.duco_client
      {| DucoboxCoordinator.duco_client := Some sample_client |} = Some c /\
    get_info c (info_requests initial_runtime) = Ok info /\
    info_mapping info = Some m /\
    s_value_fn sample_uptime_description
               (PyDict (<["Nodes" := PyList [PyDict (dict sample_node)]]> sample_info))
    = s_value_fn sample_uptime_description (PyDict m).
Proof.
  apply (box_sensors_read_info_after_fetch reject_all
           {| DucoboxCoordinator.duco_client := Some sample_client |} initial_runtime).
  - reflexivity.
  - apply (list_elem_of_lookup_2 _ 9%nat). reflexivity.
Defined.

Lemma runtime_after_0 w : runtime_after w 0 0 [] = w.
Proof.
  destruct w. unfold runtime_after. simpl.
  now rewrite !Nat.add_0_r, app_nil_r.
Qed.

Lemma async_update_data_run self w :
  DucoboxCoordinator._async_update_data self w
  = match DucoboxCoordinator.duco_client self with
    | None =>
        let e := Exn Exception "Duco client is not initialized" None in
        (Raise (update_failed e), runtime_after w 0 0 [Error_failed_to_fetch e])
    | Some c =>
        match get_info c (info_requests w) with
        | Raise e =>
            (Raise (update_failed e),
             runtime_after w 1 0 [Error_fetching e; Error_failed_to_fetch e])
        | Ok info =>
            match get_nodes c (nodes_requests w) with
            | Raise e =>
                (Raise (update_failed e),
                 runtime_after w 1 1
                   [Debug_info_received info; Error_fetching e; Error_failed_to_fetch e])
            | Ok r =>
                match merged_nodes r, info_mapping info with
                | Some nodes, Some m =>
                    (Ok (PyDict (<["Nodes" := PyList nodes]> m)),
                     runtime_after w 1 1
                       [Debug_info_received info; Debug_nodes_received r])
                | None, _ =>
                    let e := Exn TypeError "'NoneType' object is not iterable" None in
                    (Raise (update_failed e),
                     runtime_after w 1 1
                       [Debug_info_received info; Debug_nodes_received r;
                        Error_fetching e; Error_failed_to_fetch e])
                | Some _, None =>
                    let e := Exn TypeError "object does not support item assignment" None in
                    (Raise (update_failed e),
                     runtime_after w 1 1
                       [Debug_info_received info; Debug_nodes_received r;
                        Error_fetching e; Error_failed_to_fetch e])
                end
            end
        end
    end.
Proof.
  unfold DucoboxCoordinator._async_update_data, async_add_executor_job,
    DucoboxCoordinator._fetch_data, runtime_after, update_failed.
  destruct (DucoboxCoordinator.duco_client self) as [c|].
  2:{ unfold hass_try, hass_raise, hass_bind, logger. simpl.
      now rewrite !Nat.add_0_r. }
  unfold hass_try, hass_bind, call_get_info, call_get_nodes, logger, lift,
    hass_ret, hass_raise; simpl.
  destruct (get_info c (info_requests w)) as [info|e]; simpl.
  2:{ now rewrite Nat.add_0_r, Nat.add_1_r, <- app_assoc. }
  destruct (get_nodes c (nodes_requests w)) as [r|e]; simpl.
  2:{ now rewrite !Nat.add_1_r, <- !app_assoc. }
  pose proof (merged_nodes_spec r) as Hn.
  pose proof (fun v => setitem_info_mapping info v) as Hs.
  destruct (response_truthy r && hasattr_Nodes r); simpl;
    destruct (merged_nodes r) as [nodes|]; simpl in Hn.
  - rewrite Hn. simpl. rewrite Hs.
    destruct (info_mapping info); simpl; now rewrite !Nat.add_1_r, <- !app_assoc.
  - rewrite Hn. simpl. now rewrite !Nat.add_1_r, <- !app_assoc.
  - injection Hn as <-. rewrite Hs.
    destruct (info_mapping info); simpl; now rewrite !Nat.add_1_r, <- !app_assoc.
  - discriminate Hn.
Qed.

(** X15.  What a failed update leaves behind.  Without a client no request
    is sent and one error record is logged.  When [/info] raises, [/nodes]
    is not asked, and the error is logged by the fetch and by the update.
    When [/nodes] raises, both endpoints were asked once.  Each time the
    update raises [UpdateFailed] with the original exception as cause, and
    the cache and the success flag stay as they were. *)
Theorem failed_update_run :
  (forall w,
     let e := Exn Exception "Duco client is not initialized" None in
     DucoboxCoordinator._async_update_data
       {| DucoboxCoordinator.duco_client := None |} w
     = (Raise (update_failed e), runtime_after w 0 0 [Error_failed_to_fetch e])) /\
  (forall self c w e,
     DucoboxCoordinator.duco_client self = Some c ->
     get_info c (info_requests w) = Raise e ->
     DucoboxCoordinator._async_update_data self w
     = (Raise (update_failed e),
        runtime_after w 1 0 [Error_fetching e; Error_failed_to_fetch e])) /\
  (forall self c w info e,
     DucoboxCoordinator.duco_client self = Some c ->
     get_info c (info_requests w) = Ok info ->
     get_nodes c (nodes_requests w) = Raise e ->
     DucoboxCoordinator._async_update_data self w
     = (Raise (update_failed e),
        runtime_after w 1 1
          [Debug_info_received info; Error_fetching e; Error_failed_to_fetch e])).
Proof.
  split; [intros w; apply async_update_data_run|]. split.
  - intros self c w e Hc Hi. rewrite async_update_data_run, Hc, Hi. reflexivity.
  - intros self c w info e Hc Hi Hn.
    rewrite async_update_data_run, Hc, Hi, Hn. reflexivity.
Qed.

Lemma failed_update_run_witness :
  DucoboxCoordinator._async_update_data
    {| DucoboxCoordinator.duco_client := Some flaky_client |} initial_runtime
  = (Raise (update_failed (Exn (OtherException "Timeout") "timed out" None)),
     runtime_after initial_runtime 1 0
       [Error_fetching (Exn (OtherException "Timeout") "timed out" None);
        Error_failed_to_fetch (Exn (OtherException "Timeout") "timed out" None)]).
Proof.
  destruct failed_update_run as (_ & H & _).
  apply (H _ flaky_client); reflexivity.
Defined.

(** X16.  Answers the merge cannot use.  An [/info] answer that is neither
    [None] nor a mapping, and a truthy [/nodes] answer whose [Nodes]
    attribute is [None], make the update fail with a [TypeError] as cause,
    after both endpoints were asked. *)
Theorem malformed_answers_fail_the_update :
  forall self c w info r,
    DucoboxCoordinator.duco_client self = Some c ->
    get_info c (info_requests w) = Ok info ->
    get_nodes c (nodes_requests w) = Ok r ->
    (merged_nodes r = None ->
     let e := Exn TypeError "'NoneType' object is not iterable" None in
     DucoboxCoordinator._async_update_data self w
     = (Raise (update_failed e),
        runtime_after w 1 1
          [Debug_info_received info; Debug_nodes_received r;
           Error_fetching e; Error_failed_to_fetch e])) /\
    (merged_nodes r <> None -> info_mapping info = None ->
     let e := Exn TypeError "object does not support item assignment" None in
     DucoboxCoordinator._async_update_data self w
     = (Raise (update_failed e),
        runtime_after w 1 1
          [Debug_info_received info; Debug_nodes_received r;
           Error_fetching e; Error_failed_to_fetch e])).
Proof.
  intros self c w info r Hc Hi Hr. split.
  - intros Hn. rewrite async_update_data_run, Hc, Hi, Hr, Hn. reflexivity.
  - intros Hn Hm. rewrite async_update_data_run, Hc, Hi, Hr, Hm.
    destruct (merged_nodes r); [reflexivity|contradiction].
Qed.

Lemma malformed_answers_fail_the_update_witness :
  fst (DucoboxCoordinator._async_update_data
         {| DucoboxCoordinator.duco_client := Some list_client |} initial_runtime)
  = Raise (update_failed
             (Exn TypeError "object does not support item assignment" None)).
Proof.
  destruct (malformed_answers_fail_the_update
              {| DucoboxCoordinator.duco_client := Some list_client |}
              list_client initial_runtime (PyList []) ResponseNone
              eq_refl eq_refl eq_refl) as [_ H].
  rewrite H; [reflexivity|discriminate|reflexivity].
Defined.

(** X17.  A successful update asks each endpoint exactly once, logs the two
    answers, returns the merged mapping and leaves the cache to the
    framework. *)
Theorem successful_update_run :
  forall self c w info m r nodes,
    DucoboxCoordinator.duco_client self = Some c ->
    get_info c (info_requests w) = Ok info ->
    info_mapping info = Some m ->
    get_nodes c (nodes_requests w) = Ok r ->
    merged_nodes r = Some nodes ->
    DucoboxCoordinator._async_update_data self w
    = (Ok (PyDict (<["Nodes" := PyList nodes]> m)),
       runtime_after w 1 1 [Debug_info_received info; Debug_nodes_received r]).
Proof.
  intros self c w info m r nodes Hc Hi Hm Hr Hn.
  rewrite async_update_data_run, Hc, Hi, Hr, Hn, Hm. reflexivity.
Qed.

Lemma successful_update_run_witness :
  DucoboxCoordinator._async_update_data
    {| DucoboxCoordinator.duco_client := Some sample_client |} initial_runtime
  = (Ok (PyDict (<["Nodes" := PyList [PyDict (dict sample_node)]]> sample_info)),
     runtime_after initial_runtime 1 1
       [Debug_info_received (PyDict sample_info);
        Debug_nodes_received (Response true (NodesList [sample_node]))]).
Proof.
  apply (successful_update_run _ sample_client); reflexivity.
Defined.

(** ** More on the node sensors *)

Lemma for_node_in_skips self pre rest w :
  Forall (fun node => isinstance_dict node = true) pre ->
  find (node_matches (DucoboxNodeSensorEntity._node_id self)) pre = None ->
  DucoboxNodeSensorEntity.for_node_in self (pre ++ rest) w
  = DucoboxNodeSensorEntity.for_node_in self rest w.
Proof.
  induction pre as [|node pre IH]; intros Hd Hf; [reflexivity|].
  inversion Hd as [|? ? Hnode Hpre]; subst.
  destruct node as [| | | | | |d]; try discriminate Hnode.
  simpl in Hf |- *. unfold hass_bind, lift. simpl.
  destruct (py_eq (default PyNone (d !! "Node"))
                  (DucoboxNodeSensorEntity._node_id self)); [discriminate|].
  apply IH; assumption.
Qed.

Lemma node_native_value_on_nodes self w m nodes :
  data w = PyDict m -> m !! "Nodes" = Some nodes ->
  DucoboxNodeSensorEntity.native_value self w
  = match py_iter nodes with
    | Ok l => DucoboxNodeSensorEntity.for_node_in self l w
    | Raise e => (Raise e, w)
    end.
Proof.
  intros Hd Hn.
  unfold DucoboxNodeSensorEntity.native_value, hass_bind, coordinator_data, lift.
  rewrite Hd. unfold py_get, dict_get. rewrite Hn. simpl.
  destruct (py_iter nodes); reflexivity.
Qed.

(** X18.  The [try] of a node sensor guards the accessor only.  Reading
    raises [AttributeError] when the cache is no mapping (it is [None]
    before the first refresh) and when a node that is no dict comes before
    the first match, and [TypeError] when ['Nodes'] holds [None] or a
    number; the runtime is left as it was. *)
Theorem node_native_value_raises_on_malformed_cache :
  (forall self w,
     isinstance_dict (data w) = false ->
     DucoboxNodeSensorEntity.native_value self w
     = (Raise (Exn AttributeError "object has no attribute 'get'" None), w)) /\
  (forall self w m v,
     data w = PyDict m -> m !! "Nodes" = Some v ->
     v = PyNone \/ is_numeric v = true ->
     DucoboxNodeSensorEntity.native_value self w
     = (Raise (Exn TypeError "object is not iterable" None), w)) /\
  (forall self w m pre x post,
     data w = PyDict m -> m !! "Nodes" = Some (PyList (pre ++ x :: post)) ->
     Forall (fun node => isinstance_dict node = true) pre ->
     find (node_matches (DucoboxNodeSensorEntity._node_id self)) pre = None ->
     isinstance_dict x = false ->
     DucoboxNodeSensorEntity.native_value self w
     = (Raise (Exn AttributeError "object has no attribute 'get'" None), w)).
Proof.
  split; [|split].
  - intros self w H.
    unfold DucoboxNodeSensorEntity.native_value, hass_bind, coordinator_data, lift.
    destruct (data w); try discriminate H; reflexivity.
  - intros self w m v Hd Hn Hv.
    rewrite (node_native_value_on_nodes self w m v Hd Hn).
    destruct Hv as [->|Hv]; [reflexivity|].
    destruct v; try discriminate Hv; reflexivity.
  - intros self w m pre x post Hd Hn Hpre Hf Hx.
    rewrite (node_native_value_on_nodes self w m _ Hd Hn). simpl.
    rewrite for_node_in_skips by assumption.
    destruct x; try discriminate Hx; reflexivity.
Qed.

Lemma node_native_value_raises_on_malformed_cache_witness :
  DucoboxNodeSensorEntity.native_value sample_co2_entity initial_runtime
  = (Raise (Exn AttributeError "object has no attribute 'get'" None), initial_runtime).
Proof.
  destruct node_native_value_raises_on_malformed_cache as (H & _).
  apply H. reflexivity.
Defined.

(** X19.  From fetch to reading: once the mapping a fetch returned is the
    cache, a node sensor built from a row of the table never raises; it
    returns the field its key names in the first fetched node whose
    ['Node'] equals its id, and [None] when there is no such node. *)
Theorem node_sensor_reads_fetched_node :
  forall self w d (e : DucoboxNodeSensorEntity.t) w' t l,
    fst (DucoboxCoordinator._fetch_data self w) = Ok d ->
    data w' = d ->
    NODE_SENSORS !! t = Some l ->
    DucoboxNodeSensorEntity.entity_description e ∈ l ->
    exists nodes,
      safe_get d [PyStr "Nodes"] = Ok (PyList nodes) /\
      fst (DucoboxNodeSensorEntity.native_value e w')
      = Ok (match find (node_matches (DucoboxNodeSensorEntity._node_id e)) nodes with
            | Some node =>
                safe_get_spec node
                  (node_field_path (n_key (DucoboxNodeSensorEntity.entity_description e)))
            | None => PyNone
            end).
Proof.
  intros self w d e w' t l Hf Hd Ht He.
  destruct (fetch_data_nodes_are_dicts self w d Hf) as (m & nodes & -> & Hn & Hdicts).
  exists nodes. split; [simpl; now rewrite Hn|].
  rewrite (node_native_value_on_nodes e w' m _ Hd Hn). simpl.
  destruct (for_node_in_finds_first e nodes w' Hdicts) as [-> _].
  destruct (find _ nodes) as [node|]; [|reflexivity].
  pose proof (NODE_SENSORS_rows_read_field t l Ht) as Hrows.
  rewrite Forall_forall in Hrows. now rewrite (Hrows _ He node).
Qed.

Lemma node_sensor_reads_fetched_node_witness :
  exists nodes,
    safe_get (PyDict (<["Nodes" := PyList [PyDict (dict sample_node)]]> sample_info))
             [PyStr "Nodes"] = Ok (PyList nodes) /\
    fst (DucoboxNodeSensorEntity.native_value sample_co2_entity sample_runtime)
    = Ok (match find (node_matches (PyInt 2)) nodes with
          | Some node => safe_get_spec node (node_field_path "Co2")
          | None => PyNone
          end).
Proof.
  apply (node_sensor_reads_fetched_node
           {| DucoboxCoordinator.duco_client := Some sample_client |} initial_runtime
           _ sample_co2_entity sample_runtime "UCCO2" NODE_SENSORS_UCCO2).
  - reflexivity.
  - reflexivity.
  - reflexivity.
  - apply (list_elem_of_lookup_2 _ 1%nat). reflexivity.
Defined.

(** ** The set-up *)

(** X20.  The set-up always finds a node type: reading it never raises, the
    type is never falsy, and a node whose type field is missing or falsy is
    given the type ['Unknown'], for which the table has no sensors. *)
Theorem node_type_of_is_never_falsy :
  forall node,
    exists t,
      node_type_of node = Ok t /\
      py_truthy t = true /\
      t = py_or (safe_get_spec node [PyStr "General"; PyStr "Type"; PyStr "Val"])
                (PyStr "Unknown") /\
      (py_truthy (safe_get_spec node [PyStr "General"; PyStr "Type"; PyStr "Val"]) = false ->
       t = PyStr "Unknown" /\ node_sensors t = Ok []).
Proof.
  intros node. eexists. split.
  - unfold node_type_of. rewrite safe_get_refines_spec by (repeat constructor).
    reflexivity.
  - unfold py_or.
    destruct (py_truthy (safe_get_spec node _)) eqn:Ht.
    + repeat split; [assumption|discriminate|discriminate].
    + repeat split; reflexivity.
Qed.

Lemma str_remove_removes c s : str_contains c (str_remove c s) = false.
Proof.
  induction s as [|x s IH]; simpl; [reflexivity|].
  destruct (Ascii.eqb x c) eqn:E; [assumption|]. simpl. now rewrite E, IH.
Qed.

Lemma ascii_lower_colon x : Ascii.eqb (ascii_lower x) ":" = Ascii.eqb x ":".
Proof. destruct x as [[] [] [] [] [] [] [] []]; vm_compute; reflexivity. Qed.

Lemma ascii_lower_idem x : ascii_lower (ascii_lower x) = ascii_lower x.
Proof. destruct x as [[] [] [] [] [] [] [] []]; reflexivity. Qed.

Lemma str_lower_colon s : str_contains ":" (str_lower s) = str_contains ":" s.
Proof.
  induction s as [|x s IH]; simpl; [reflexivity|].
  now rewrite ascii_lower_colon, IH.
Qed.

Lemma str_lower_idem s : str_lower (str_lower s) = str_lower s.
Proof. induction s as [|x s IH]; simpl; [reflexivity|]. now rewrite ascii_lower_idem, IH. Qed.

Lemma str_remove_absent c s : str_contains c s = false -> str_remove c s = s.
Proof.
  induction s as [|x s IH]; simpl; [reflexivity|]. intros H.
  apply orb_false_iff in H as [-> H]. now rewrite IH.
Qed.

(** X21.  The device id is the hardware address without colons and in lower
    case: for an address of ASCII characters it holds no colon, lowering it
    again changes nothing, and an address already in that form is the id.  A missing, [None] or empty
    address gives ['unknown_mac']; an address that is truthy and no string,
    such as a number, makes the set-up raise [AttributeError]. *)
Theorem device_id_is_normalised :
  forall data,
    (py_truthy (safe_get_spec data [PyStr "General"; PyStr "Lan"; PyStr "Mac"; PyStr "Val"])
     = false ->
     device_id_of data = Ok "unknown_mac"%string) /\
    (forall s,
       safe_get_spec data [PyStr "General"; PyStr "Lan"; PyStr "Mac"; PyStr "Val"] = PyStr s ->
       s <> ""%string -> is_ascii s = true ->
       exists id,
         device_id_of data = Ok id /\
         str_contains ":" id = false /\
         str_lower id = id /\
         (str_contains ":" s = false -> str_lower s = s -> id = s)) /\
    (py_truthy (safe_get_spec data [PyStr "General"; PyStr "Lan"; PyStr "Mac"; PyStr "Val"])
     = true ->
     (forall s,
        safe_get_spec data [PyStr "General"; PyStr "Lan"; PyStr "Mac"; PyStr "Val"]
        <> PyStr s) ->
     device_id_of data
     = Raise (Exn AttributeError "object has no attribute 'replace'" None)).
Proof.
  intros data. unfold device_id_of.
  rewrite safe_get_refines_spec by (repeat constructor).
  rewrite bind_Ok. unfold py_or.
  set (raw := safe_get_spec data _).
  split; [|split].
  - intros ->. reflexivity.
  - intros s -> Hs _.
    assert (Ht : py_truthy (PyStr s) = true).
    { simpl. destruct s; [contradiction|reflexivity]. }
    rewrite !Ht. eexists. split; [reflexivity|].
    split; [|split].
    + rewrite str_lower_colon. apply str_remove_removes.
    + apply str_lower_idem.
    + intros Hc Hl. now rewrite str_remove_absent.
  - intros Ht Hn. rewrite !Ht.
    destruct raw; try reflexivity. exfalso. eapply Hn. reflexivity.
Qed.

Lemma device_id_is_normalised_witness :
  exists id,
    device_id_of (PyDict {[ "General" :=
                   PyDict {[ "Lan" := PyDict {[ "Mac" := PyDict {[ "Val" := PyStr "AA:bb:0C" ]} ]} ]} ]})
    = Ok id /\
    str_contains ":" id = false /\
    str_lower id = id /\
    (str_contains ":" "AA:bb:0C" = false -> str_lower "AA:bb:0C" = "AA:bb:0C"%string ->
     id = "AA:bb:0C"%string).
Proof.
  destruct (device_id_is_normalised
              (PyDict {[ "General" :=
                 PyDict {[ "Lan" := PyDict {[ "Mac" := PyDict {[ "Val" := PyStr "AA:bb:0C" ]} ]} ]} ]}))
    as (_ & H & _).
  apply (H "AA:bb:0C"%string); [reflexivity|discriminate|reflexivity].
Defined.

Lemma append_cons c a s : String c a +:+ s = String c (a +:+ s).
Proof. reflexivity. Qed.

Lemma append_nil s : "" +:+ s = s.
Proof. reflexivity. Qed.

Lemma str_contains_append c a s :
  str_contains c (a +:+ s) = str_contains c a || str_contains c s.
Proof.
  induction a as [|x a IH]; [reflexivity|].
  rewrite append_cons. simpl. now rewrite IH, orb_assoc.
Qed.

(** Two strings that end in a dash and a dash-free suffix are equal only if
    the parts before the last dash and the suffixes are. *)
Lemma split_at_last_dash a : forall b k1 k2,
  str_contains "-" k1 = false -> str_contains "-" k2 = false ->
  a +:+ "-" +:+ k1 = b +:+ "-" +:+ k2 -> a = b /\ k1 = k2.
Proof.
  induction a as [|x a IH]; intros [|y b] k1 k2 H1 H2 E.
  - rewrite !append_nil in E. apply (String.app_inj "-") in E. now split.
  - rewrite !append_cons, !append_nil in E. injection E as <- E.
    rewrite E, str_contains_append in H1. simpl in H1.
    now rewrite orb_true_r in H1.
  - rewrite !append_cons, !append_nil in E. injection E as -> E.
    rewrite <- E, str_contains_append in H2. simpl in H2.
    now rewrite orb_true_r in H2.
  - rewrite !append_cons in E. injection E as -> E.
    destruct (IH b k1 k2 H1 H2 E) as [-> ->]. now split.
Qed.

Lemma SENSORS_keys parse :
  NoDup (s_key <$> SENSORS parse) /\
  Forall (fun d => str_contains "-" (s_key d) = false) (SENSORS parse).
Proof.
  split.
  - apply (bool_decide_unpack _). vm_compute. exact I.
  - unfold SENSORS. repeat (apply Forall_cons; split; [reflexivity|]). apply Forall_nil_2.
Qed.

Lemma NODE_SENSORS_keys_have_no_dash t l :
  NODE_SENSORS !! t = Some l ->
  Forall (fun d => str_contains "-" (n_key d) = false) l.
Proof.
  revert t l. apply NODE_SENSORS_rows;
    repeat (apply Forall_cons; split; [reflexivity|]); apply Forall_nil_2.
Qed.

Lemma box_entities_ids parse device_id :
  DucoboxSensorEntity._attr_unique_id <$> box_entities parse device_id
  = (fun k => device_id +:+ "-" +:+ k) <$> (s_key <$> SENSORS parse).
Proof.
  unfold box_entities. rewrite <- !list_fmap_compose. reflexivity.
Qed.

Lemma box_entities_ids_distinct parse device_id :
  NoDup (DucoboxSensorEntity._attr_unique_id <$> box_entities parse device_id).
Proof.
  rewrite box_entities_ids. apply NoDup_fmap_2; [|apply SENSORS_keys].
  intros k1 k2 E. apply (String.app_inj device_id) in E.
  now apply (String.app_inj "-") in E.
Qed.

(** X22.  The set-up makes one box sensor for every row of [SENSORS], in the
    order of the table, and no two of them share a unique id. *)
Theorem box_entities_have_distinct_ids :
  forall parse device_id,
    DucoboxSensorEntity.entity_description <$> box_entities parse device_id
    = SENSORS parse /\
    NoDup (DucoboxSensorEntity._attr_unique_id <$> box_entities parse device_id).
Proof.
  intros parse device_id. split.
  - unfold box_entities.
    rewrite <- list_fmap_compose. apply list_fmap_id.
  - apply box_entities_ids_distinct.
Qed.

(** *** The sensors of one node *)

Lemma node_sensors_rows t l :
  node_sensors t = Ok l ->
  l = [] \/ exists s, t = PyStr s /\ NODE_SENSORS !! s = Some l.
Proof.
  unfold node_sensors, dict_get. intros H.
  destruct t as [| | | |s| |]; try discriminate H; try (injection H as <-; now left).
  destruct (NODE_SENSORS !! s) as [l'|] eqn:E; simpl in H; injection H as <-.
  - right. now exists s.
  - now left.
Qed.

Lemma node_sensors_unhashable t :
  hashable t = false ->
  exists what,
    node_sensors t = Raise (Exn TypeError ("unhashable type: " +:+ what) None).
Proof.
  destruct t; try discriminate; intros _;
    [exists "'list'"%string|exists "'dict'"%string]; reflexivity.
Qed.

Lemma node_sensors_hashable t :
  hashable t = true -> exists l, node_sensors t = Ok l.
Proof.
  destruct t; try discriminate; intros _; eexists; reflexivity.
Qed.

Lemma node_entities_not_dict py_str device_id node :
  isinstance_dict node = false ->
  node_entities py_str device_id node
  = Raise (Exn AttributeError "object has no attribute 'get'" None).
Proof. destruct node; try discriminate; reflexivity. Qed.

(** The entities of a dict node, from its sensor rows. *)
Lemma node_entities_dict py_str device_id m :
  exists t,
    node_type_of (PyDict m) = Ok t /\
    node_entities py_str device_id (PyDict m)
    = node_sensors t ≫= fun descriptions =>
      Ok (map (fun description =>
         {| DucoboxNodeSensorEntity.entity_description := description;
            DucoboxNodeSensorEntity._attr_unique_id :=
              (device_id +:+ "-" +:+ py_str (default PyNone (m !! "Node")))
              +:+ "-" +:+ n_key description;
            DucoboxNodeSensorEntity._node_id := default PyNone (m !! "Node");
            DucoboxNodeSensorEntity._attr_name :=
              (device_id +:+ ":" +:+ py_str (default PyNone (m !! "Node"))
               +:+ ":" +:+ py_str t) +:+ " " +:+ n_name description |})
      descriptions).
Proof.
  eexists. unfold node_entities, node_type_of.
  rewrite !safe_get_refines_spec by (repeat constructor).
  split; reflexivity.
Qed.

Lemma node_entities_ok py_str device_id node ents :
  node_entities py_str device_id node = Ok ents ->
  exists m t l,
    node = PyDict m /\ node_type_of node = Ok t /\ hashable t = true /\
    node_sensors t = Ok l /\
    DucoboxNodeSensorEntity.entity_description <$> ents = l /\
    Forall (fun e =>
              DucoboxNodeSensorEntity._node_id e = default PyNone (m !! "Node") /\
              DucoboxNodeSensorEntity._attr_unique_id e
              = (device_id +:+ "-" +:+ py_str (default PyNone (m !! "Node")))
                +:+ "-" +:+ n_key (DucoboxNodeSensorEntity.entity_description e)) ents.
Proof.
  intros H.
  destruct node as [| | | | | |m]; try discriminate H.
  destruct (node_entities_dict py_str device_id m) as (t & Ht & E).
  rewrite E in H. clear E.
  destruct (hashable t) eqn:Hh.
  - destruct (node_sensors_hashable t Hh) as [l Hl]. rewrite Hl in H.
    injection H as <-. exists m, t, l. repeat split; auto.
    + rewrite <- list_fmap_compose. apply list_fmap_id.
    + apply Forall_forall. intros e He. apply list_elem_of_fmap in He as (d & -> & _).
      split; reflexivity.
  - destruct (node_sensors_unhashable t Hh) as [what Hw]. rewrite Hw in H.
    discriminate H.
Qed.

Lemma node_entities_ids_distinct py_str device_id node ents :
  node_entities py_str device_id node = Ok ents ->
  NoDup (DucoboxNodeSensorEntity._attr_unique_id <$> ents).
Proof.
  intros H.
  destruct (node_entities_ok _ _ _ _ H) as (m & t & l & -> & _ & _ & Hl & Hd & Hi).
  assert (Hk : NoDup (n_key <$> l)).
  { destruct (node_sensors_rows t l Hl) as [->|(s & _ & Hs)]; [constructor|].
    apply (NODE_SENSORS_rows_consistent s l Hs). }
  rewrite <- Hd, <- list_fmap_compose in Hk.
  clear H Hd Hl. revert Hk Hi.
  induction ents as [|e ents IH]; intros Hk Hi; [constructor|].
  rewrite fmap_cons in Hk |- *. apply NoDup_cons in Hk as [Hn Hk].
  apply Forall_cons in Hi as [[_ He] Hi].
  apply NoDup_cons. split; [|now apply IH].
  intros Hin. apply Hn.
  apply list_elem_of_fmap in Hin as (e' & E & He').
  apply list_elem_of_fmap. exists e'. split; [|assumption].
  rewrite Forall_forall in Hi. destruct (Hi e' He') as [_ He2].
  rewrite He, He2 in E. apply String.app_inj in E.
  now apply (String.app_inj "-") in E.
Qed.

(** X23.  For one node the set-up makes one sensor for every row the table
    has for the node's type, in the order of the table; each carries the
    node's ['Node'] value as its node id and no two share a unique id.  A
    node whose type is no key of the table gets no sensor, a node that is no
    dict raises [AttributeError], and a type that is a list or a dict raises
    [TypeError]. *)
Theorem node_entities_follow_the_table :
  forall py_str device_id node,
    (isinstance_dict node = false ->
     node_entities py_str device_id node
     = Raise (Exn AttributeError "object has no attribute 'get'" None)) /\
    (isinstance_dict node = true ->
     exists t,
       node_type_of node = Ok t /\
       (hashable t = false ->
        exists what,
          node_entities py_str device_id node
          = Raise (Exn TypeError ("unhashable type: " +:+ what) None)) /\
       (hashable t = true ->
        exists ents,
          node_entities py_str device_id node = Ok ents /\
          node_sensors t = Ok (DucoboxNodeSensorEntity.entity_description <$> ents) /\
          Forall (fun e => py_get node (PyStr "Node") PyNone
                           = Ok (DucoboxNodeSensorEntity._node_id e)) ents /\
          NoDup (DucoboxNodeSensorEntity._attr_unique_id <$> ents) /\
          ((forall s, t = PyStr s -> NODE_SENSORS !! s = None) -> ents = []))).
Proof.
  intros py_str device_id node. split; [apply node_entities_not_dict|].
  intros Hd. destruct node as [| | | | | |m]; try discriminate Hd.
  destruct (node_entities_dict py_str device_id m) as (t & Ht & E).
  exists t. split; [assumption|]. split.
  - intros Hh. destruct (node_sensors_unhashable t Hh) as [what Hw].
    exists what. now rewrite E, Hw.
  - intros Hh. destruct (node_sensors_hashable t Hh) as [l Hl].
    pose proof E as E'. rewrite Hl, bind_Ok in E'.
    eexists. split; [exact E'|].
    destruct (node_entities_ok _ _ _ _ E') as (m' & t' & l' & Hm & Ht' & _ & Hl' & Hdesc & Hi).
    injection Hm as <-. rewrite Ht in Ht'. injection Ht' as <-.
    rewrite Hl in Hl'. injection Hl' as <-.
    split; [now rewrite Hdesc|]. split; [|split].
    + eapply Forall_impl; [exact Hi|]. intros e [-> _]. reflexivity.
    + exact (node_entities_ids_distinct _ _ _ _ E').
    + intros Hs. destruct (node_sensors_rows t l Hl) as [->|(s & -> & Hsl)]; [reflexivity|].
      rewrite (Hs s eq_refl) in Hsl. discriminate Hsl.
Qed.

Lemma node_entities_follow_the_table_witness :
  exists t,
    node_type_of (PyDict (dict sample_node)) = Ok t /\
    (hashable t = false ->
     exists what,
       node_entities (fun _ => "2"%string) "aabb" (PyDict (dict sample_node))
       = Raise (Exn TypeError ("unhashable type: " +:+ what) None)) /\
    (hashable t = true ->
     exists ents,
       node_entities (fun _ => "2"%string) "aabb" (PyDict (dict sample_node)) = Ok ents /\
       node_sensors t = Ok (DucoboxNodeSensorEntity.entity_description <$> ents) /\
       Forall (fun e => py_get (PyDict (dict sample_node)) (PyStr "Node") PyNone
                        = Ok (DucoboxNodeSensorEntity._node_id e)) ents /\
       NoDup (DucoboxNodeSensorEntity._attr_unique_id <$> ents) /\
       ((forall s, t = PyStr s -> NODE_SENSORS !! s = None) -> ents = [])).
Proof.
  destruct (node_entities_follow_the_table (fun _ => "2"%string) "aabb"
              (PyDict (dict sample_node))) as [_ H].
  apply H. reflexivity.
Defined.

(** *** All the entities *)

Lemma Ok_inj {A} (a b : A) : Ok a = Ok b -> a = b.
Proof. congruence. Qed.

Lemma append_empty_r s : s +:+ "" = s.
Proof. induction s as [|x s IH]; [reflexivity|]. rewrite append_cons. now rewrite IH. Qed.

(** What the set-up's loop over the nodes gives, entity by entity. *)
Lemma for_node_set_up_entities py_str device_id nodes : forall ents,
  for_node_set_up py_str device_id nodes = Ok ents ->
  Forall (fun e => exists node,
            node ∈ nodes /\
            py_get node (PyStr "Node") PyNone = Ok (DucoboxNodeSensorEntity._node_id e) /\
            DucoboxNodeSensorEntity._attr_unique_id e
            = (device_id +:+ "-" +:+ py_str (DucoboxNodeSensorEntity._node_id e))
              +:+ "-" +:+ n_key (DucoboxNodeSensorEntity.entity_description e) /\
            exists t l, NODE_SENSORS !! t = Some l /\
                        DucoboxNodeSensorEntity.entity_description e ∈ l) ents.
Proof.
  induction nodes as [|node nodes IH]; intros ents H.
  - injection H as <-. constructor.
  - simpl in H.
    destruct (node_entities py_str device_id node) as [ents1|] eqn:E1; [|discriminate H].
    destruct (for_node_set_up py_str device_id nodes) as [more|]; [|discriminate H].
    rewrite !bind_Ok in H. injection H as <-.
    apply Forall_app. split.
    + destruct (node_entities_ok _ _ _ _ E1) as (m & t & l & -> & _ & _ & Hl & Hd & Hi).
      apply Forall_forall. intros e He.
      rewrite Forall_forall in Hi. destruct (Hi e He) as [Hid Hu].
      exists (PyDict m). split; [left|]. split; [simpl; now rewrite Hid|].
      split; [now rewrite Hid|].
      destruct (node_sensors_rows t l Hl) as [->|(s & _ & Hs)].
      * apply fmap_nil_inv in Hd. subst ents1. inversion He.
      * exists s, l. split; [assumption|]. rewrite <- Hd.
        apply list_elem_of_fmap. now exists e.
    + eapply Forall_impl; [exact (IH more eq_refl)|].
      intros e (node' & Hin & Hrest). exists node'. split; [now right|assumption].
Qed.

Lemma node_entity_key_has_no_dash e t l :
  NODE_SENSORS !! t = Some l ->
  DucoboxNodeSensorEntity.entity_description e ∈ l ->
  str_contains "-" (n_key (DucoboxNodeSensorEntity.entity_description e)) = false.
Proof.
  intros Ht He. pose proof (NODE_SENSORS_keys_have_no_dash t l Ht) as H.
  rewrite Forall_forall in H. now apply H.
Qed.

Lemma for_node_set_up_ids_distinct py_str device_id nodes : forall ents,
  for_node_set_up py_str device_id nodes = Ok ents ->
  NoDup ((fun node => py_str <$> py_get node (PyStr "Node") PyNone) <$> nodes) ->
  NoDup (DucoboxNodeSensorEntity._attr_unique_id <$> ents).
Proof.
  induction nodes as [|node nodes IH]; intros ents H Hn.
  - injection H as <-. constructor.
  - pose proof (for_node_set_up_entities _ _ _ _ H) as Hall.
    simpl in H.
    destruct (node_entities py_str device_id node) as [ents1|] eqn:E1; [|discriminate H].
    destruct (for_node_set_up py_str device_id nodes) as [more|] eqn:E2; [|discriminate H].
    rewrite !bind_Ok in H. injection H as <-.
    rewrite fmap_cons in Hn. apply NoDup_cons in Hn as [Hnode Hn].
    apply Forall_app in Hall as [Hall1 _].
    pose proof (for_node_set_up_entities _ _ _ _ E2) as Hall2.
    rewrite fmap_app. apply NoDup_app. split; [|split].
    + exact (node_entities_ids_distinct _ _ _ _ E1).
    + intros u Hu1 Hu2. apply Hnode.
      apply list_elem_of_fmap in Hu1 as (e1 & -> & He1).
      apply list_elem_of_fmap in Hu2 as (e2 & E & He2).
      rewrite Forall_forall in Hall2.
      destruct (Hall2 e2 He2) as (node2 & Hin2 & Hg2 & Hu2 & t2 & l2 & Ht2 & Hd2).
      destruct (node_entities_ok _ _ _ _ E1) as (m & t & l & -> & _ & _ & Hl & Hd & Hi).
      rewrite Forall_forall in Hi. destruct (Hi e1 He1) as [Hid1 Hu1].
      assert (Hk1 : str_contains "-" (n_key (DucoboxNodeSensorEntity.entity_description e1))
                    = false).
      { destruct (node_sensors_rows t l Hl) as [->|(s & _ & Hs)].
        - apply fmap_nil_inv in Hd. subst ents1. inversion He1.
        - apply (node_entity_key_has_no_dash e1 s l Hs). rewrite <- Hd.
          apply list_elem_of_fmap. now exists e1. }
      rewrite Hu1, Hu2 in E.
      apply split_at_last_dash in E as [E _];
        [|assumption|exact (node_entity_key_has_no_dash e2 t2 l2 Ht2 Hd2)].
      apply String.app_inj in E. apply (String.app_inj "-") in E.
      apply list_elem_of_fmap. exists node2. split; [|assumption].
      rewrite Hg2. simpl. now rewrite <- E.
    + now apply IH.
Qed.

(** X24.  When the nodes' ids print differently, no two of the entities the
    set-up makes share a unique id, box sensors and node sensors taken
    together. *)
Theorem set_up_gives_distinct_ids :
  forall parse py_str data nodes ents,
    async_setup_entry parse py_str data = Ok ents ->
    py_get data (PyStr "Nodes") (PyList []) ≫= py_iter = Ok nodes ->
    NoDup ((fun node => py_str <$> py_get node (PyStr "Node") PyNone) <$> nodes) ->
    NoDup (unique_id <$> ents).
Proof.
  intros parse py_str data nodes ents H Hnodes Hn.
  unfold async_setup_entry in H.
  destruct (device_id_of data) as [device_id|]; [|discriminate H].
  rewrite bind_Ok in H.
  destruct (py_get data (PyStr "Nodes") (PyList [])) as [v|]; [|discriminate H].
  rewrite bind_Ok in H. rewrite bind_Ok in Hnodes. rewrite Hnodes, bind_Ok in H.
  destruct (for_node_set_up py_str device_id nodes) as [node_ents|] eqn:E; [|discriminate H].
  rewrite bind_Ok in H. apply Ok_inj in H. subst ents.
  rewrite fmap_app, <- !list_fmap_compose.
  apply NoDup_app. split; [|split].
  - apply box_entities_ids_distinct.
  - intros u Hu1 Hu2.
    apply list_elem_of_fmap in Hu1 as (e1 & -> & He1).
    apply list_elem_of_fmap in Hu2 as (e2 & E2 & He2).
    unfold box_entities in He1. apply list_elem_of_fmap in He1 as (d & -> & Hd).
    pose proof (for_node_set_up_entities _ _ _ _ E) as Hall.
    rewrite Forall_forall in Hall.
    destruct (Hall e2 He2) as (node2 & _ & _ & Hu2 & t2 & l2 & Ht2 & Hd2).
    simpl in E2. rewrite Hu2 in E2.
    destruct (SENSORS_keys parse) as [_ Hk]. rewrite Forall_forall in Hk.
    apply split_at_last_dash in E2 as [E2 _];
      [|exact (Hk d Hd)|exact (node_entity_key_has_no_dash e2 t2 l2 Ht2 Hd2)].
    rewrite <- (append_empty_r device_id) in E2 at 1.
    apply String.app_inj in E2. discriminate E2.
  - exact (for_node_set_up_ids_distinct _ _ _ _ E Hn).
Qed.

Lemma set_up_gives_distinct_ids_witness :
  exists ents,
    async_setup_entry reject_all sample_str (data sample_runtime) = Ok ents /\
    NoDup (unique_id <$> ents).
Proof.
  eexists. split; [reflexivity|].
  apply (set_up_gives_distinct_ids reject_all sample_str (data sample_runtime)
           [PyDict (dict sample_node)]).
  - reflexivity.
  - reflexivity.
  - apply NoDup_singleton.
Defined.

(** *** From set-up to reading *)

Lemma for_node_in_reads self node v pre post w :
  Forall (fun n => isinstance_dict n = true) pre ->
  find (node_matches (DucoboxNodeSensorEntity._node_id self)) pre = None ->
  node_matches (DucoboxNodeSensorEntity._node_id self) node = true ->
  n_value_fn (DucoboxNodeSensorEntity.entity_description self) node = Ok v ->
  DucoboxNodeSensorEntity.for_node_in self (pre ++ node :: post) w = (Ok v, w).
Proof.
  intros Hpre Hf Hm Hv. rewrite for_node_in_skips by assumption.
  destruct node as [| | | | | |m]; try discriminate Hm.
  simpl in Hm |- *. unfold hass_bind, lift, hass_try. simpl.
  rewrite Hm, Hv. reflexivity.
Qed.

(** X25.  A sensor the set-up made for a node reads that node: when the
    node is the first in the cached list with its id (and the id equals
    itself, as every id but a NaN does), the sensor returns the field its
    key names in that node, without raising and without touching the
    runtime; the nodes after it are not looked at. *)
Theorem created_node_sensor_reads_its_node :
  forall py_str device_id node ents e w m pre post,
    node_entities py_str device_id node = Ok ents ->
    e ∈ ents ->
    data w = PyDict m ->
    m !! "Nodes" = Some (PyList (pre ++ node :: post)) ->
    Forall (fun n => isinstance_dict n = true) pre ->
    find (node_matches (DucoboxNodeSensorEntity._node_id e)) pre = None ->
    py_eq (DucoboxNodeSensorEntity._node_id e) (DucoboxNodeSensorEntity._node_id e) = true ->
    DucoboxNodeSensorEntity.native_value e w
    = (Ok (safe_get_spec node
             (node_field_path (n_key (DucoboxNodeSensorEntity.entity_description e)))), w).
Proof.
  intros py_str device_id node ents e w m pre post H He Hd Hn Hpre Hf Hid.
  rewrite (node_native_value_on_nodes e w m _ Hd Hn). simpl.
  destruct (node_entities_ok _ _ _ _ H) as (m' & t & l & -> & _ & _ & Hl & Hdesc & Hi).
  rewrite Forall_forall in Hi. destruct (Hi e He) as [Hnid _].
  apply for_node_in_reads; try assumption.
  - simpl. now rewrite <- Hnid.
  - destruct (node_sensors_rows t l Hl) as [->|(s & _ & Hs)].
    + apply fmap_nil_inv in Hdesc. subst ents. inversion He.
    + pose proof (NODE_SENSORS_rows_read_field s l Hs) as Hrows.
      rewrite Forall_forall in Hrows. apply Hrows. rewrite <- Hdesc.
      apply list_elem_of_fmap. now exists e.
Qed.

Lemma created_node_sensor_reads_its_node_witness :
  exists ents e,
    node_entities sample_str "aabb" (PyDict (dict sample_node)) = Ok ents /\
    ents !! 1%nat = Some e /\
    DucoboxNodeSensorEntity.native_value e sample_runtime
    = (Ok (safe_get_spec (PyDict (dict sample_node))
             (node_field_path (n_key (DucoboxNodeSensorEntity.entity_description e)))),
       sample_runtime).
Proof.
  eexists _, _. split; [reflexivity|]. split; [reflexivity|].
  eapply (created_node_sensor_reads_its_node sample_str "aabb" (PyDict (dict sample_node))
           _ _ sample_runtime
           (<["Nodes" := PyList [PyDict (dict sample_node)]]> sample_info) [] []).
  - reflexivity.
  - apply (list_elem_of_lookup_2 _ 1%nat). reflexivity.
  - reflexivity.
  - reflexivity.
  - constructor.
  - reflexivity.
  - reflexivity.
Defined.

Lemma for_node_set_up_on_dicts py_str device_id nodes :
  Forall (fun n => isinstance_dict n = true) nodes ->
  match for_node_set_up py_str device_id nodes with
  | Ok _ =>
      Forall (fun n => exists t, node_type_of n = Ok t /\ hashable t = true) nodes
  | Raise e =>
      Exists (fun n => exists t, node_type_of n = Ok t /\ hashable t = false) nodes /\
      exists what, e = Exn TypeError ("unhashable type: " +:+ what) None
  end.
Proof.
  induction nodes as [|node nodes IH]; intros Hd; [constructor|].
  apply Forall_cons in Hd as [Hnode Hd]. specialize (IH Hd).
  destruct node as [| | | | | |m]; try discriminate Hnode.
  simpl. destruct (node_entities_dict py_str device_id m) as (t & Ht & E).
  rewrite E. clear E.
  destruct (hashable t) eqn:Hh.
  - destruct (node_sensors_hashable t Hh) as [l ->]. rewrite !bind_Ok.
    destruct (for_node_set_up py_str device_id nodes) as [more|e].
    + rewrite bind_Ok. constructor; [now exists t|assumption].
    + destruct IH as [Hex Hwhat]. split; [now apply Exists_cons_tl|assumption].
  - destruct (node_sensors_unhashable t Hh) as [what ->].
    split; [apply Exists_cons_hd; now exists t|now exists what].
Qed.

(** X26.  Set-up after a fetch.  On the mapping a fetch returned the set-up
    fails in two ways only: [AttributeError] when the hardware address is
    truthy and no string, [TypeError] when some node's type is a list or a
    dict.  Otherwise it returns the box sensors followed by the node
    sensors, and every one of them reads from that cache without raising. *)
Theorem set_up_after_fetch :
  forall parse py_str self w d,
    fst (DucoboxCoordinator._fetch_data self w) = Ok d ->
    exists nodes,
      safe_get d [PyStr "Nodes"] = Ok (PyList nodes) /\
      match async_setup_entry parse py_str d with
      | Ok ents =>
          (exists device_id node_ents,
             device_id_of d = Ok device_id /\
             for_node_set_up py_str device_id nodes = Ok node_ents /\
             ents = (BoxSensor <$> box_entities parse device_id)
                    ++ (NodeSensor <$> node_ents)) /\
          Forall (fun n => exists t, node_type_of n = Ok t /\ hashable t = true) nodes /\
          (forall e w',
             e ∈ ents -> data w' = d -> is_ok (fst (native_value e w')) = true)
      | Raise e =>
          device_id_of d
          = Raise (Exn AttributeError "object has no attribute 'replace'" None) /\
          e = Exn AttributeError "object has no attribute 'replace'" None
          \/
          Exists (fun n => exists t, node_type_of n = Ok t /\ hashable t = false) nodes /\
          exists what, e = Exn TypeError ("unhashable type: " +:+ what) None
      end.
Proof.
  intros parse py_str self w d Hf.
  destruct (fetch_data_nodes_are_dicts self w d Hf) as (m & nodes & -> & Hn & Hdicts).
  exists nodes. split; [simpl; now rewrite Hn|].
  unfold async_setup_entry.
  destruct (device_id_of (PyDict m)) as [device_id|e] eqn:Hid.
  - rewrite bind_Ok. unfold py_get, dict_get. rewrite Hn. simpl default.
    rewrite !bind_Ok. unfold py_iter. rewrite bind_Ok.
    pose proof (for_node_set_up_on_dicts py_str device_id nodes Hdicts) as Hs.
    destruct (for_node_set_up py_str device_id nodes) as [node_ents|e] eqn:E.
    + rewrite bind_Ok. split; [now exists device_id, node_ents|]. split; [assumption|].
      intros e w' He Hd. apply elem_of_app in He as [He|He];
        apply list_elem_of_fmap in He as (e' & -> & _); simpl.
      * unfold DucoboxSensorEntity.native_value, hass_try, hass_bind, coordinator_data, lift.
        destruct (s_value_fn _ _); reflexivity.
      * rewrite (node_native_value_on_nodes e' w' m _ Hd Hn). simpl.
        destruct (for_node_in_finds_first e' nodes w' Hdicts) as [-> _]. reflexivity.
    + right. exact Hs.
  - left. unfold device_id_of in Hid.
    rewrite safe_get_refines_spec in Hid by (repeat constructor).
    rewrite bind_Ok in Hid.
    destruct (py_truthy _); [|discriminate Hid].
    destruct (py_or _ _); try discriminate Hid; injection Hid as <-; split; reflexivity.
Qed.

Lemma set_up_after_fetch_witness :
  exists nodes,
    safe_get (data sample_runtime) [PyStr "Nodes"] = Ok (PyList nodes) /\
    match async_setup_entry reject_all sample_str (data sample_runtime) with
    | Ok ents =>
        (exists device_id node_ents,
           device_id_of (data sample_runtime) = Ok device_id /\
           for_node_set_up sample_str device_id nodes = Ok node_ents /\
           ents = (BoxSensor <$> box_entities reject_all device_id)
                  ++ (NodeSensor <$> node_ents)) /\
        Forall (fun n => exists t, node_type_of n = Ok t /\ hashable t = true) nodes /\
        (forall e w',
           e ∈ ents -> data w' = data sample_runtime ->
           is_ok (fst (native_value e w')) = true)
    | Raise e =>
        device_id_of (data sample_runtime)
        = Raise (Exn AttributeError "object has no attribute 'replace'" None) /\
        e = Exn AttributeError "object has no attribute 'replace'" None
        \/
        Exists (fun n => exists t, node_type_of n = Ok t /\ hashable t = false) nodes /\
        exists what, e = Exn TypeError ("unhashable type: " +:+ what) None
    end.
Proof.
  apply (set_up_after_fetch reject_all sample_str
           {| DucoboxCoordinator.duco_client := Some sample_client |} initial_runtime).
  reflexivity.
Defined.
